(** * Angular dependency analyzer: version resolution and manifest rewriting

    A shallow embedding of the two services of the application,
    [NpmRegistryService] (src/app/components/services/npm-registry.ts) and
    [DependencyAnalyzerService] (dependency-analyzer.ts), together with the
    JavaScript primitives they rely on, and the properties of the
    specification that can be stated over them.

    Modelling conventions.
    - A JavaScript string is a [string]: a sequence of code units below 256.
    - A JavaScript number is exact: integers are [Z], the values produced by
      [Number] are rationals, the two infinities or NaN.  The rounding of
      binary64 (components of more than fifteen digits, exponents beyond the
      range of a double) is outside the model.
    - An object whose enumeration order matters (the [versions] of a package,
      the dependency groups, the manifest) is the list of its own properties
      in enumeration order; [undefined] is [None].  Property names are not
      array indices, which JavaScript would enumerate first, and properties
      inherited from [Object.prototype] are outside the model.
    - The registry is a snapshot: a function from package names to the
      metadata [getPackageInfo] delivers, [None] standing for the [null] that
      a failed request is turned into.  Observables that emit once are
      modelled by the value they emit, [forkJoin] by [map]. *)

From Stdlib Require Import ZArith QArith Lia List Bool Ascii String.
From Stdlib Require Import Sorting.Permutation Sorting.Sorted.
Import ListNotations.

Local Open Scope string_scope.
Local Open Scope list_scope.
Local Open Scope Z_scope.

(* ===================================================================== *)
(** ** JavaScript primitives                                              *)
(* ===================================================================== *)

Module JS.

(** *** Characters *)

Definition code (c : ascii) : Z := Z.of_N (N_of_ascii c).

(** [\d] of a regular expression without the unicode flag, and the digits
    accepted by [parseInt] in radix 10. *)
Definition isDigit (c : ascii) : bool := (48 <=? code c) && (code c <=? 57).

Definition digitValue (c : ascii) : Z := code c - 48.

(** WhiteSpace and LineTerminator code units below 256: TAB, LF, VT, FF, CR,
    SP and NBSP. *)
Definition isWhiteSpace (c : ascii) : bool :=
  let n := code c in
  ((9 <=? n) && (n <=? 13)) || (n =? 32) || (n =? 160).

Definition lowerChar (c : ascii) : ascii :=
  let n := code c in
  if ((65 <=? n) && (n <=? 90))
     || ((192 <=? n) && (n <=? 222) && negb (n =? 215))
  then ascii_of_N (Z.to_N (n + 32))
  else c.

(** *** Strings *)

(** [s.toLowerCase()] *)
Fixpoint toLowerCase (s : string) : string :=
  match s with
  | EmptyString => EmptyString
  | String c r => String (lowerChar c) (toLowerCase r)
  end.

(** [s.startsWith(p)] *)
Definition startsWith (p s : string) : bool := String.prefix p s.

(** [s.includes(p)] *)
Fixpoint includes (p s : string) : bool :=
  String.prefix p s ||
  match s with
  | EmptyString => false
  | String _ r => includes p r
  end.

(** [s.replace(/[...]/g, '')] for a character class given as a predicate. *)
Fixpoint removeAll (cls : ascii -> bool) (s : string) : string :=
  match s with
  | EmptyString => EmptyString
  | String c r => if cls c then removeAll cls r else String c (removeAll cls r)
  end.

Fixpoint trimStart (s : string) : string :=
  match s with
  | EmptyString => EmptyString
  | String c r => if isWhiteSpace c then trimStart r else s
  end.

Fixpoint trimEnd (s : string) : string :=
  match s with
  | EmptyString => EmptyString
  | String c r =>
      match trimEnd r with
      | EmptyString => if isWhiteSpace c then EmptyString else String c EmptyString
      | r' => String c r'
      end
  end.

(** [s.trim()] *)
Definition trim (s : string) : string := trimEnd (trimStart s).

Definition consHead (c : ascii) (l : list string) : list string :=
  match l with
  | [] => [String c EmptyString]
  | h :: t => String c h :: t
  end.

(** [s.split(sep)] for a non-empty separator: the pieces between the
    leftmost non-overlapping occurrences of [sep].  [skip] counts the code
    units of an occurrence that are still to be passed over. *)
Fixpoint splitFrom (sep : string) (skip : nat) (s : string) : list string :=
  match s with
  | EmptyString => [EmptyString]
  | String c r =>
      match skip with
      | S k => splitFrom sep k r
      | O =>
          if String.prefix sep s
          then EmptyString :: splitFrom sep (Nat.pred (String.length sep)) r
          else consHead c (splitFrom sep O r)
      end
  end.

Definition split (sep s : string) : list string := splitFrom sep O s.

(** The longest prefix made of decimal digits. *)
Fixpoint leadingDigits (s : string) : string :=
  match s with
  | EmptyString => EmptyString
  | String c r => if isDigit c then String c (leadingDigits r) else EmptyString
  end.

(** What is left after that prefix. *)
Fixpoint afterDigits (s : string) : string :=
  match s with
  | EmptyString => EmptyString
  | String c r => if isDigit c then afterDigits r else s
  end.

(** [s.match(/(\d+)/)]: the capture of the first run of digits, if any. *)
Fixpoint matchDigits (s : string) : option string :=
  match s with
  | EmptyString => None
  | String c r => if isDigit c then Some (leadingDigits s) else matchDigits r
  end.

(** The value of a string of digits in a radix, read from the left. *)
Fixpoint radixValue (radix : Z) (digit : ascii -> Z) (acc : Z) (s : string) : Z :=
  match s with
  | EmptyString => acc
  | String c r => radixValue radix digit (radix * acc + digit c) r
  end.

Definition decimalValue (s : string) : Z := radixValue 10 digitValue 0 s.

(** *** [parseInt(s, 10)]

    Leading white space is skipped, one sign is accepted, then the longest
    run of decimal digits is read; anything after it is ignored.  No digit:
    NaN, here [None]. *)
Definition parseInt (s : string) : option Z :=
  let s1 := trimStart s in
  let '(negative, s2) :=
    match s1 with
    | String "-" r => (true, r)
    | String "+" r => (false, r)
    | _ => (false, s1)
    end in
  match leadingDigits s2 with
  | EmptyString => None
  | ds => Some (if negative then - decimalValue ds else decimalValue ds)
  end.

(** [x || 0] for the result of [parseInt], and [a[i] || 0] for an array of
    integers: NaN, [undefined] and 0 all give 0. *)
Definition orZero (x : option Z) : Z :=
  match x with
  | Some z => z
  | None => 0
  end.

(** *** Numbers as [Number] produces them *)

Inductive number : Type :=
| NaN
| NegInfinity
| Finite (q : Q)
| PosInfinity.

Definition isZeroQ (q : Q) : bool := Qeq_bool q 0.

(** [x || 0] on numbers: NaN and the zeros are falsy. *)
Definition numOrZero (x : option number) : number :=
  match x with
  | None | Some NaN => Finite 0
  | Some (Finite q) => if isZeroQ q then Finite 0 else Finite q
  | Some y => y
  end.

(** [x < y]; false as soon as one side is NaN. *)
Definition numLt (x y : number) : bool :=
  match x, y with
  | NaN, _ | _, NaN => false
  | NegInfinity, NegInfinity => false
  | NegInfinity, _ => true
  | _, NegInfinity => false
  | PosInfinity, _ => false
  | Finite _, PosInfinity => true
  | Finite p, Finite q =>
      match Qcompare p q with
      | Lt => true
      | _ => false
      end
  end.

Definition isHexDigit (c : ascii) : bool :=
  let n := code c in
  isDigit c || ((65 <=? n) && (n <=? 70)) || ((97 <=? n) && (n <=? 102)).

Definition hexValue (c : ascii) : Z :=
  let n := code c in
  if isDigit c then n - 48 else if n <=? 70 then n - 55 else n - 87.

Definition isOctalDigit (c : ascii) : bool := (48 <=? code c) && (code c <=? 55).
Definition isBinaryDigit (c : ascii) : bool := (48 <=? code c) && (code c <=? 49).

Fixpoint allChars (p : ascii -> bool) (s : string) : bool :=
  match s with
  | EmptyString => true
  | String c r => p c && allChars p r
  end.

(** A non-empty string of digits of the radix, or NaN. *)
Definition radixLiteral (radix : Z) (ok : ascii -> bool) (digit : ascii -> Z)
    (s : string) : number :=
  match s with
  | EmptyString => NaN
  | _ => if allChars ok s then Finite (inject_Z (radixValue radix digit 0 s)) else NaN
  end.

(** ExponentPart: [e] or [E], an optional sign, at least one digit, and
    nothing after it.  The empty string is the absent exponent. *)
Definition exponentPart (s : string) : option Z :=
  match s with
  | EmptyString => Some 0
  | String c r =>
      if (code c =? 101) || (code c =? 69) then
        let '(negative, ds) :=
          match r with
          | String "-" d => (true, d)
          | String "+" d => (false, d)
          | _ => (false, r)
          end in
        match ds with
        | EmptyString => None
        | _ =>
            if allChars isDigit ds
            then Some (if negative then - decimalValue ds else decimalValue ds)
            else None
        end
      else None
  end.

(** StrUnsignedDecimalLiteral: [Infinity], or digits with an optional
    fraction and an optional exponent, at least one digit before the
    exponent. *)
Definition unsignedDecimal (s : string) : number :=
  if String.eqb s "Infinity" then PosInfinity else
  let ip := leadingDigits s in
  let r1 := afterDigits s in
  let '(fp, r2) :=
    match r1 with
    | String "." r => (leadingDigits r, afterDigits r)
    | _ => (EmptyString, r1)
    end in
  match (ip ++ fp)%string with
  | EmptyString => NaN
  | ds =>
      match exponentPart r2 with
      | None => NaN
      | Some e =>
          Finite (inject_Z (decimalValue ds)
                  * Qpower (inject_Z 10) (e - Z.of_nat (String.length fp)))
      end
  end.

Definition negate (x : number) : number :=
  match x with
  | NaN => NaN
  | NegInfinity => PosInfinity
  | PosInfinity => NegInfinity
  | Finite q => Finite (- q)
  end.

(** [Number(s)] on a string (StringToNumber): white space is trimmed on both
    sides; the empty string is 0; then a binary, octal or hexadecimal
    integer literal without sign, or a signed decimal literal; NaN for
    everything else. *)
Definition Number (s : string) : number :=
  match trim s with
  | EmptyString => Finite 0
  | String "0" (String "x" r) | String "0" (String "X" r) =>
      radixLiteral 16 isHexDigit hexValue r
  | String "0" (String "o" r) | String "0" (String "O" r) =>
      radixLiteral 8 isOctalDigit digitValue r
  | String "0" (String "b" r) | String "0" (String "B" r) =>
      radixLiteral 2 isBinaryDigit digitValue r
  | String "-" r => negate (unsignedDecimal r)
  | String "+" r => unsignedDecimal r
  | t => unsignedDecimal t
  end.

(** The character of a decimal digit. *)
Definition digitChar (d : Z) : ascii := ascii_of_N (Z.to_N (48 + d)).

(** The decimal digits of a non-negative integer, most significant first,
    in front of [acc]; [fuel] bounds the number of digits. *)
Fixpoint digitsOf (fuel : nat) (n : Z) (acc : string) : string :=
  match fuel with
  | O => acc
  | S f =>
      let acc' := String (digitChar (n mod 10)) acc in
      if n / 10 =? 0 then acc' else digitsOf f (n / 10) acc'
  end.

(** [String(n)] and [`${n}`] for an integer [n]. *)
Definition numberToString (n : Z) : string :=
  if n <? 0 then String "-" (digitsOf (S (Z.to_nat (- n))) (- n) EmptyString)
  else digitsOf (S (Z.to_nat n)) n EmptyString.

(** *** Objects and arrays *)

(** [o[k]] on an object given by its properties. *)
Fixpoint getProp {V : Type} (k : string) (o : list (string * V)) : option V :=
  match o with
  | [] => None
  | (k', v) :: r => if String.eqb k k' then Some v else getProp k r
  end.

(** [o[k] = v]: an existing property keeps its place, a new one goes last. *)
Fixpoint setProp {V : Type} (k : string) (v : V) (o : list (string * V))
    : list (string * V) :=
  match o with
  | [] => [(k, v)]
  | (k', v') :: r =>
      if String.eqb k k' then (k, v) :: r else (k', v') :: setProp k v r
  end.

(** [{...o, ...src}]: the properties of [src] assigned in order. *)
Definition assign {V : Type} (o src : list (string * V)) : list (string * V) :=
  fold_left (fun acc kv => setProp (fst kv) (snd kv) acc) src o.

(** [Object.keys(o)] *)
Definition keys {V : Type} (o : list (string * V)) : list string := map fst o.

(** A string in a condition: the empty string is falsy. *)
Definition truthy (s : string) : bool := negb (String.eqb s "").

(** Insertion of [x] in front of the first element that [cmp] does not put
    before it. *)
Fixpoint insertBy {A : Type} (cmp : A -> A -> Z) (x : A) (l : list A) : list A :=
  match l with
  | [] => [x]
  | y :: r => if 0 <? cmp x y then y :: insertBy cmp x r else x :: y :: r
  end.

(** [a.sort(cmp)]: the sort is stable (ECMAScript 2019), so with a
    consistent comparator its result is the one of a stable insertion
    sort. *)
Fixpoint sort {A : Type} (cmp : A -> A -> Z) (l : list A) : list A :=
  match l with
  | [] => []
  | x :: r => insertBy cmp x (sort cmp r)
  end.

End JS.


(* ===================================================================== *)
(** ** NpmRegistryService (npm-registry.ts)                               *)
(* ===================================================================== *)

Module NpmRegistryService.

(** The record of one published version; only [peerDependencies] is read. *)
Record VersionData : Type := {
  peerDependencies : option (list (string * string))
}.

(** [dist_tags_latest] is [info['dist-tags']?.latest]. *)
Record NpmPackageInfo : Type := {
  name : string;
  versions : list (string * VersionData);
  dist_tags_latest : option string;
  time : list (string * string)
}.

(** What [getPackageInfo] emits for each package name. *)
Definition Registry : Type := string -> option NpmPackageInfo.

Definition rangeOperator (c : ascii) : bool :=
  let n := JS.code c in
  (n =? 94) || (n =? 126) || (n =? 62) || (n =? 61) || (n =? 60).

(** [version.replace(/[\^~>=<]/g, '')] *)
Definition cleanVersion (version : string) : string :=
  JS.removeAll rangeOperator version.

Definition preReleasePatterns : list string :=
  ["canary"; "beta"; "rc"; "alpha"; "next"; "dev";
   "snapshot"; "preview"; "experimental"].

Definition isPreReleaseVersion (version : string) : bool :=
  let lowerVersion := JS.toLowerCase version in
  existsb (fun pattern => JS.includes pattern lowerVersion) preReleasePatterns.

(** [v.split('.').map(p => parseInt(p, 10) || 0)] *)
Definition parts (v : string) : list Z :=
  map (fun p => JS.orZero (JS.parseInt p)) (JS.split "." v).

(** The loop of [compareVersions], with [n] iterations left from index [i]. *)
Fixpoint compareFrom (parts1 parts2 : list Z) (n i : nat) : Z :=
  match n with
  | O => 0
  | S n' =>
      let p1 := JS.orZero (nth_error parts1 i) in
      let p2 := JS.orZero (nth_error parts2 i) in
      if p1 <? p2 then -1
      else if p1 >? p2 then 1
      else compareFrom parts1 parts2 n' (S i)
  end.

Definition compareVersions (v1 v2 : string) : Z :=
  let parts1 := parts v1 in
  let parts2 := parts v2 in
  compareFrom parts1 parts2 (Nat.max (List.length parts1) (List.length parts2)) O.

Definition sortVersionsDescending (versions : list string) : list string :=
  JS.sort (fun a b => compareVersions b a) versions.

(** [a === b] and [a > b] on results of [parseInt]: false with a NaN. *)
Definition numEq (a b : option Z) : bool :=
  match a, b with
  | Some x, Some y => x =? y
  | _, _ => false
  end.

Definition numGt (a b : option Z) : bool :=
  match a, b with
  | Some x, Some y => x >? y
  | _, _ => false
  end.

Definition numGe (a b : option Z) : bool :=
  match a, b with
  | Some x, Some y => x >=? y
  | _, _ => false
  end.

(** [v.split('.')[0]]; [split] never returns an empty array. *)
Definition firstComponent (v : string) : string := hd EmptyString (JS.split "." v).

Definition majorOf (v : string) : option Z := JS.parseInt (firstComponent v).

(** The loop of [versionSatisfiesPeerDep] over the alternatives. *)
Fixpoint anyPatternSatisfies (targetMajor : option Z) (patterns : list string) : bool :=
  match patterns with
  | [] => false
  | pattern :: rest =>
      match JS.matchDigits pattern with
      | None => anyPatternSatisfies targetMajor rest
      | Some m =>
          let constraintMajor := JS.parseInt m in
          if JS.includes ">=" pattern then
            if numGe targetMajor constraintMajor then true
            else anyPatternSatisfies targetMajor rest
          else if JS.includes "^" pattern then
            if numEq targetMajor constraintMajor then true
            else anyPatternSatisfies targetMajor rest
          else if JS.includes "~" pattern then
            if numEq targetMajor constraintMajor then true
            else anyPatternSatisfies targetMajor rest
          else anyPatternSatisfies targetMajor rest
      end
  end.

Definition versionSatisfiesPeerDep (targetMajor : option Z) (peerDepConstraint : string) : bool :=
  let patterns := map JS.trim (JS.split "||" peerDepConstraint) in
  anyPatternSatisfies targetMajor patterns.

(** The body of the [forEach] of [findVersionsCompatibleWithAngular], over
    [Object.entries(info.versions)]. *)
Fixpoint compatibleEntries (targetMajor : option Z) (includePreRelease : bool)
    (entries : list (string * VersionData)) : list string :=
  match entries with
  | [] => []
  | (version, versionData) :: rest =>
      let compatible := compatibleEntries targetMajor includePreRelease rest in
      if negb includePreRelease && isPreReleaseVersion version then compatible
      else
        match peerDependencies versionData with
        | None => version :: compatible
        | Some peerDeps =>
            match JS.getProp "@angular/core" peerDeps with
            | None => version :: compatible
            | Some angularPeer =>
                if negb (JS.truthy angularPeer) then version :: compatible
                else if versionSatisfiesPeerDep targetMajor angularPeer
                then version :: compatible
                else compatible
            end
        end
  end.

Definition findVersionsCompatibleWithAngular (info : NpmPackageInfo)
    (targetAngularVersion : string) (includePreRelease : bool) : list string :=
  let targetMajor := JS.parseInt targetAngularVersion in
  compatibleEntries targetMajor includePreRelease (versions info).

Definition findBestAngularVersion (versions : list string)
    (targetAngularVersion currentVersion : string) : string :=
  let targetMajor := JS.parseInt targetAngularVersion in
  let currentMajor := majorOf currentVersion in
  let isCurrentPreRelease := isPreReleaseVersion currentVersion in
  let targetMajorVersions :=
    filter (fun v => numEq (majorOf v) targetMajor) versions in
  let targetMajorVersions :=
    if negb isCurrentPreRelease then
      let stableVersions :=
        filter (fun v => negb (isPreReleaseVersion v)) targetMajorVersions in
      match stableVersions with
      | [] => targetMajorVersions
      | _ => stableVersions
      end
    else targetMajorVersions in
  match sortVersionsDescending targetMajorVersions with
  | best :: _ => best
  | [] =>
      if numGt currentMajor targetMajor then currentVersion
      else (targetAngularVersion ++ ".0.0")%string
  end.

(** The name test that routes a package to [findBestAngularVersion]. *)
Definition isAngularCore (packageName : string) : bool :=
  JS.startsWith "@angular/" packageName
  && negb (JS.includes "material" packageName)
  && negb (JS.includes "cdk" packageName).

(** [info['dist-tags']?.latest || cleanCurrent] *)
Definition latestOr (info : NpmPackageInfo) (cleanCurrent : string) : string :=
  match dist_tags_latest info with
  | Some l => if JS.truthy l then l else cleanCurrent
  | None => cleanCurrent
  end.

(** The fallback at the end of [getBestVersion]. *)
Definition fallbackVersion (info : NpmPackageInfo) (cleanCurrent : string) : string :=
  let versions := JS.keys (versions info) in
  let isCurrentPreRelease := isPreReleaseVersion cleanCurrent in
  let latest := latestOr info cleanCurrent in
  if negb isCurrentPreRelease && isPreReleaseVersion latest then
    let stableVersions := filter (fun v => negb (isPreReleaseVersion v)) versions in
    match sortVersionsDescending stableVersions with
    | best :: _ => best
    | [] => latest
    end
  else latest.

(** The function mapped over the metadata by [getBestVersion], for metadata
    that is present. *)
Definition bestVersionOf (info : NpmPackageInfo)
    (packageName targetAngularVersion currentVersion : string) : string :=
  let versions := JS.keys (versions info) in
  let cleanCurrent := cleanVersion currentVersion in
  let isCurrentPreRelease := isPreReleaseVersion cleanCurrent in
  if isAngularCore packageName then
    findBestAngularVersion versions targetAngularVersion cleanCurrent
  else
    let compatibleVersions :=
      findVersionsCompatibleWithAngular info targetAngularVersion isCurrentPreRelease in
    let sorted := sortVersionsDescending compatibleVersions in
    match find (fun version => compareVersions version cleanCurrent >=? 0) sorted with
    | Some version => version
    | None =>
        let latest := fallbackVersion info cleanCurrent in
        if compareVersions latest cleanCurrent >=? 0 then latest else cleanCurrent
    end.

Definition getBestVersion (registry : Registry)
    (packageName targetAngularVersion currentVersion : string) : option string :=
  match registry packageName with
  | None => None
  | Some info => Some (bestVersionOf info packageName targetAngularVersion currentVersion)
  end.

End NpmRegistryService.


(* ===================================================================== *)
(** ** DependencyAnalyzerService (dependency-analyzer.ts)                 *)
(* ===================================================================== *)

Module DependencyAnalyzerService.

(** A dependency group: package name to declared constraint. *)
Definition Dependencies : Type := list (string * string).

(** The value of a manifest property: a dependency group, [undefined], or
    any other JSON value, which the analyzer never looks into and which is
    kept as its text. *)
Inductive Field : Type :=
| Undefined
| Group (deps : Dependencies)
| Other (json : string).

(** [PackageJson]: the properties of the manifest in enumeration order. *)
Definition PackageJson : Type := list (string * Field).

(** [packageJson[k]] *)
Definition field (k : string) (packageJson : PackageJson) : Field :=
  match JS.getProp k packageJson with
  | Some f => f
  | None => Undefined
  end.

(** [packageJson.dependencies] and [packageJson.devDependencies] at their
    declared type. *)
Definition groupOf (k : string) (packageJson : PackageJson) : option Dependencies :=
  match field k packageJson with
  | Group d => Some d
  | _ => None
  end.

Inductive Risk : Type := low | medium | high.

Definition Risk_eqb (a b : Risk) : bool :=
  match a, b with
  | low, low | medium, medium | high, high => true
  | _, _ => false
  end.

Record DependencyAnalysis : Type := {
  name : string;
  currentVersion : string;
  latestVersion : string;
  recommendedVersion : string;
  isAngularPackageFlag : bool;
  needsUpdate : bool;
  risk : Risk;
  notes : string
}.

Record Summary : Type := {
  total : nat;
  needsUpdateCount : nat;
  lowRisk : nat;
  mediumRisk : nat;
  highRisk : nat
}.

Record AnalysisResult : Type := {
  original : PackageJson;
  updated : PackageJson;
  analysis : list DependencyAnalysis;
  summary : Summary
}.

Definition isAngularPackage (name : string) : bool :=
  JS.startsWith "@angular/" name
  && negb (JS.includes "material" name)
  && negb (JS.includes "cdk" name).

Definition isAngularEcosystemPackage (name : string) : bool :=
  JS.startsWith "ng-" name
  || JS.startsWith "ngx-" name
  || JS.startsWith "@ng-" name
  || JS.includes "@angular/material" name
  || JS.includes "@angular/cdk" name
  || JS.includes "@ngrx/" name.

Definition cleanVersion (version : string) : string :=
  JS.removeAll NpmRegistryService.rangeOperator version.

(** [v.split('.').map(Number)] *)
Definition parts (v : string) : list JS.number :=
  map JS.Number (JS.split "." v).

Fixpoint compareFrom (parts1 parts2 : list JS.number) (n i : nat) : Z :=
  match n with
  | O => 0
  | S n' =>
      let p1 := JS.numOrZero (nth_error parts1 i) in
      let p2 := JS.numOrZero (nth_error parts2 i) in
      if JS.numLt p1 p2 then -1
      else if JS.numLt p2 p1 then 1
      else compareFrom parts1 parts2 n' (S i)
  end.

Definition compareVersions (v1 v2 : string) : Z :=
  let parts1 := parts v1 in
  let parts2 := parts v2 in
  compareFrom parts1 parts2 (Nat.max (List.length parts1) (List.length parts2)) O.

(** [bestVersion || cleanVersion] *)
Definition orElse (bestVersion : option string) (cleanVersion : string) : string :=
  match bestVersion with
  | Some v => if JS.truthy v then v else cleanVersion
  | None => cleanVersion
  end.

Definition analyzeDependency (registry : NpmRegistryService.Registry)
    (name currentVersion targetAngularVersion : string) : DependencyAnalysis :=
  let cleanVersion := cleanVersion currentVersion in
  let bestVersion :=
    NpmRegistryService.getBestVersion registry name targetAngularVersion currentVersion in
  let recommendedVersion := orElse bestVersion cleanVersion in
  let isAngularPackage := isAngularPackage name in
  let risk := if isAngularEcosystemPackage name then medium else low in
  let comparison := compareVersions cleanVersion recommendedVersion in
  let notes :=
    if comparison <? 0 then
      if isAngularPackage then ("Upgrade to match Angular " ++ targetAngularVersion)%string
      else if isAngularEcosystemPackage name then
        ("Update available - verify compatibility with Angular "
           ++ targetAngularVersion)%string
      else "Update available"
    else if comparison =? 0 then
      if isAngularPackage then ("Aligned with Angular " ++ targetAngularVersion)%string
      else "Up to date"
    else "Current version is newer" in
  let needsUpdate := comparison <? 0 in
  let latestVersion := recommendedVersion in
  {| name := name;
     currentVersion := cleanVersion;
     latestVersion := latestVersion;
     recommendedVersion := recommendedVersion;
     isAngularPackageFlag := isAngularPackage;
     needsUpdate := needsUpdate;
     risk := risk;
     notes := notes |}.

(** [group?.[name]] used as a condition. *)
Definition declaredIn (group : option Dependencies) (name : string) : bool :=
  match group with
  | None => false
  | Some d =>
      match JS.getProp name d with
      | Some constraint => JS.truthy constraint
      | None => false
      end
  end.

(** One of the two objects filled by the [forEach] of [buildResult]. *)
Definition rewriteGroup (group : option Dependencies)
    (analyses : list DependencyAnalysis) : Dependencies :=
  fold_left
    (fun updatedDeps analysis =>
       let newVersion := ("^" ++ recommendedVersion analysis)%string in
       if declaredIn group (name analysis)
       then JS.setProp (name analysis) newVersion updatedDeps
       else updatedDeps)
    analyses [].

Definition count {A : Type} (p : A -> bool) (l : list A) : nat :=
  List.length (filter p l).

Definition buildResult (original : PackageJson)
    (analyses : list DependencyAnalysis) : AnalysisResult :=
  let updatedDeps := rewriteGroup (groupOf "dependencies" original) analyses in
  let updatedDevDeps := rewriteGroup (groupOf "devDependencies" original) analyses in
  let updated :=
    JS.setProp "devDependencies"
      (if (0 <? List.length (JS.keys updatedDevDeps))%nat
       then Group updatedDevDeps else field "devDependencies" original)
      (JS.setProp "dependencies"
         (if (0 <? List.length (JS.keys updatedDeps))%nat
          then Group updatedDeps else field "dependencies" original)
         (JS.assign [] original)) in
  let summary :=
    {| total := List.length analyses;
       needsUpdateCount := count needsUpdate analyses;
       lowRisk := count (fun a => Risk_eqb (risk a) low) analyses;
       mediumRisk := count (fun a => Risk_eqb (risk a) medium) analyses;
       highRisk := count (fun a => Risk_eqb (risk a) high) analyses |} in
  {| original := original; updated := updated;
     analysis := analyses; summary := summary |}.

Definition createEmptyResult (packageJson : PackageJson) : AnalysisResult :=
  {| original := packageJson;
     updated := packageJson;
     analysis := [];
     summary := {| total := 0; needsUpdateCount := 0; lowRisk := 0;
                   mediumRisk := 0; highRisk := 0 |} |}.

(** [...group] inside an object literal: nothing for [undefined]. *)
Definition spread (group : option Dependencies) : Dependencies :=
  match group with
  | Some d => d
  | None => []
  end.

(** [{...packageJson.dependencies, ...packageJson.devDependencies}] *)
Definition allDepsOf (packageJson : PackageJson) : Dependencies :=
  JS.assign (JS.assign [] (spread (groupOf "dependencies" packageJson)))
            (spread (groupOf "devDependencies" packageJson)).

(** [allDeps[name]] for a name taken from [Object.keys(allDeps)]. *)
Definition declared (allDeps : Dependencies) (name : string) : string :=
  match JS.getProp name allDeps with
  | Some constraint => constraint
  | None => EmptyString
  end.

Definition analyze (registry : NpmRegistryService.Registry)
    (packageJson : PackageJson) (targetAngularVersion : string) : AnalysisResult :=
  let allDeps := allDepsOf packageJson in
  let depNames := JS.keys allDeps in
  match depNames with
  | [] => createEmptyResult packageJson
  | _ =>
      let requests :=
        map (fun name =>
               analyzeDependency registry name (declared allDeps name) targetAngularVersion)
            depNames in
      buildResult packageJson requests
  end.

End DependencyAnalyzerService.

(* ===================================================================== *)
(** ** The specification's notions                                        *)
(* ===================================================================== *)

(** [x] may stand before [y] in an array sorted with [cmp]. *)
Definition before {A : Type} (cmp : A -> A -> Z) (x y : A) : Prop := cmp x y <= 0.

(** *** The comparator as the specification words it *)

Module ComparatorSpec.

(** The integer a component is converted to, 0 for a component that has
    none.  The text after the integer is not looked at. *)
Definition componentValue (component : string) : Z :=
  match JS.parseInt component with
  | Some z => z
  | None => 0
  end.

Definition components (version : string) : list Z :=
  map componentValue (JS.split "." version).

Definition decide (x y : Z) (otherwise : Z) : Z :=
  if x <? y then -1 else if y <? x then 1 else otherwise.

(** Missing components on the left: zeros against what is left of [b]. *)
Fixpoint zerosAgainst (b : list Z) : Z :=
  match b with
  | [] => 0
  | y :: b' => decide 0 y (zerosAgainst b')
  end.

(** Component-wise comparison up to the longer length; the first unequal
    pair decides. *)
Fixpoint lex (a b : list Z) : Z :=
  match a with
  | [] => zerosAgainst b
  | x :: a' => decide x (hd 0 b) (lex a' (tl b))
  end.

Definition compare (a b : string) : Z := lex (components a) (components b).

End ComparatorSpec.

(** *** Peer-constraint satisfaction *)

Module PeerSpec.
Import NpmRegistryService.

(** The constraint major of an alternative: the value of its first run of
    digits. *)
Definition constraintMajor (alternative : string) : option Z :=
  option_map JS.decimalValue (JS.matchDigits alternative).

(** An alternative satisfies when it contains [>=] and the target is at
    least its constraint major, or when it contains [^] or [~] and the target
    equals it. *)
Definition alternativeSatisfies (target : Z) (alternative : string) : bool :=
  match constraintMajor alternative with
  | None => false
  | Some m =>
      (JS.includes ">=" alternative && (target >=? m))
      || ((JS.includes "^" alternative || JS.includes "~" alternative) && (target =? m))
  end.

Definition alternatives (constraint : string) : list string :=
  map JS.trim (JS.split "||" constraint).

End PeerSpec.

(** *** Framework-core resolution *)

Module FrameworkSpec.
Import NpmRegistryService.

(** The major component of a version equals the target major. *)
Definition hasMajor (target : Z) (v : string) : bool :=
  match majorOf v with
  | Some m => m =? target
  | None => false
  end.

Definition majorExceeds (target : Z) (v : string) : bool :=
  match majorOf v with
  | Some m => m >? target
  | None => false
  end.

Definition stable (v : string) : bool := negb (isPreReleaseVersion v).

(** Steps 1 and 2: the versions of the target major, narrowed to the stable
    ones when the current version is stable and some of them are. *)
Definition candidates (versions : list string) (target : Z) (current : string)
    : list string :=
  let sameMajor := filter (hasMajor target) versions in
  if isPreReleaseVersion current then sameMajor
  else match filter stable sameMajor with
       | [] => sameMajor
       | narrowed => narrowed
       end.

End FrameworkSpec.

(** *** Ecosystem resolution *)

Module EcosystemSpec.
Import NpmRegistryService.

(** The peer dependency on the framework-core package that a version
    declares. *)
Definition declaredPeer (versionData : VersionData) : option string :=
  match peerDependencies versionData with
  | None => None
  | Some peerDeps => JS.getProp "@angular/core" peerDeps
  end.

Definition preReleaseAdmitted (allowPreRelease : bool) (version : string) : bool :=
  allowPreRelease || negb (isPreReleaseVersion version).

(** Candidate condition as the specification words it: no declared peer
    dependency on the framework-core package, or one that the evaluator
    confirms. *)
Definition admittedAsStated (targetMajor : option Z) (allowPreRelease : bool)
    (entry : string * VersionData) : bool :=
  preReleaseAdmitted allowPreRelease (fst entry)
  && match declaredPeer (snd entry) with
     | None => true
     | Some constraint => versionSatisfiesPeerDep targetMajor constraint
     end.

(** Candidate condition of the code: an empty constraint counts as no peer
    dependency. *)
Definition admitted (targetMajor : option Z) (allowPreRelease : bool)
    (entry : string * VersionData) : bool :=
  preReleaseAdmitted allowPreRelease (fst entry)
  && match declaredPeer (snd entry) with
     | None => true
     | Some constraint =>
         String.eqb constraint "" || versionSatisfiesPeerDep targetMajor constraint
     end.

(** [v] is the first element of [l] that is not below [current]. *)
Definition firstNotBelow (current : string) (l : list string) (v : string) : Prop :=
  exists l1 l2, l = l1 ++ v :: l2
    /\ 0 <= compareVersions v current
    /\ forall u, In u l1 -> compareVersions u current < 0.

End EcosystemSpec.

(** *** Manifest emission *)

Module ManifestSpec.
Import DependencyAnalyzerService.

Definition isGroupName (k : string) : Prop :=
  k = "dependencies" \/ k = "devDependencies".

(** The analysis entry of a dependency of the manifest. *)
Definition entryOf (registry : NpmRegistryService.Registry) (packageJson : PackageJson)
    (targetAngularVersion : string) (name : string) : DependencyAnalysis :=
  analyzeDependency registry name (declared (allDepsOf packageJson) name)
    targetAngularVersion.

(** One step of the [forEach] of [buildResult] for one group. *)
Definition step (group : option Dependencies) (updatedDeps : Dependencies)
    (analysis : DependencyAnalysis) : Dependencies :=
  if declaredIn group (name analysis)
  then JS.setProp (name analysis) ("^" ++ recommendedVersion analysis)%string updatedDeps
  else updatedDeps.

(** The claim as the specification words it: every analyzed dependency is
    rewritten in each group that lists it. *)
Definition rewrittenAsStated (registry : NpmRegistryService.Registry)
    (packageJson : PackageJson) (targetAngularVersion : string) : Prop :=
  let result := analyze registry packageJson targetAngularVersion in
  forall a group deps,
    In a (analysis result) -> isGroupName group ->
    groupOf group packageJson = Some deps -> In (name a) (JS.keys deps) ->
    exists deps',
      groupOf group (updated result) = Some deps'
      /\ JS.getProp (name a) deps' = Some ("^" ++ recommendedVersion a)%string.

(** The fields that a serialization of the manifest shows. *)
Definition definedKeys (packageJson : PackageJson) : list string :=
  JS.keys (filter (fun kv => match snd kv with Undefined => false | _ => true end)
             packageJson).

(** The claim as the specification words it: the order of the fields, of the
    manifest and of its dependency groups, is preserved. *)
Definition orderAsStated (registry : NpmRegistryService.Registry)
    (packageJson : PackageJson) (targetAngularVersion : string) : Prop :=
  let result := analyze registry packageJson targetAngularVersion in
  definedKeys (updated result) = definedKeys packageJson
  /\ forall group deps deps',
       isGroupName group ->
       groupOf group packageJson = Some deps ->
       groupOf group (updated result) = Some deps' ->
       JS.keys deps' = JS.keys deps.

End ManifestSpec.

(** *** Versions made of decimal components *)

Module NumericVersions.
Import JS.

(** A version all of whose components are runs of decimal digits. *)
Definition numeric (version : string) : Prop :=
  Forall (fun component => allChars isDigit component = true) (split "." version).

(** The number [n] is the integer [z]. *)
Definition represents (n : number) (z : Z) : Prop :=
  exists q, n = Finite q /\ Qeq q (inject_Z z).

End NumericVersions.

(* ===================================================================== *)
(** ** The rest of the services and the component that calls them         *)
(* ===================================================================== *)

(** Array and string primitives of the component. *)
Module JSText.

(** The line feed, [\n]. *)
Definition lineFeed : string := String (ascii_of_nat 10) EmptyString.

(** [a.join(sep)] *)
Fixpoint join (sep : string) (a : list string) : string :=
  match a with
  | [] => EmptyString
  | [x] => x
  | x :: r => (x ++ sep ++ join sep r)%string
  end.

(** [`  ${line}`] *)
Definition indent (line : string) : string := ("  " ++ line)%string.

(** [a.map((x, idx) => idx === 0 ? x : f(x))] *)
Definition mapTail {A : Type} (f : A -> A) (a : list A) : list A :=
  match a with
  | [] => []
  | x :: r => x :: map f r
  end.

(** A separator of one code unit. *)
Definition sepOf (c : ascii) : string := String c EmptyString.

(** The number of occurrences of a character. *)
Fixpoint occurrences (c : ascii) (s : string) : nat :=
  match s with
  | EmptyString => O
  | String d r => if Ascii.eqb c d then S (occurrences c r) else occurrences c r
  end.

(** No occurrence of the character. *)
Definition free (c : ascii) (s : string) : bool :=
  JS.allChars (fun d => negb (Ascii.eqb c d)) s.

(** [k] is not among [l]. *)
Definition absent (l : list string) (k : string) : bool :=
  negb (existsb (String.eqb k) l).

(** Two spaces put after every line feed. *)
Fixpoint indentAfterLineFeeds (s : string) : string :=
  match s with
  | EmptyString => EmptyString
  | String c r =>
      if Ascii.eqb (ascii_of_nat 10) c
      then String c ("  " ++ indentAfterLineFeeds r)
      else String c (indentAfterLineFeeds r)
  end.

(** A digit or a dot. *)
Definition numericChar (c : ascii) : bool := JS.isDigit c || Ascii.eqb c "."%char.

(** The longest prefix made of hexadecimal digits. *)
Fixpoint leadingHex (s : string) : string :=
  match s with
  | EmptyString => EmptyString
  | String c r => if JS.isHexDigit c then String c (leadingHex r) else EmptyString
  end.

(** [parseInt(s)] without a radix: as [parseInt(s, 10)], except that after
    the sign a prefix [0x] or [0X] selects radix 16. *)
Definition parseIntAuto (s : string) : option Z :=
  let s1 := JS.trimStart s in
  let '(negative, s2) :=
    match s1 with
    | String "-" r => (true, r)
    | String "+" r => (false, r)
    | _ => (false, s1)
    end in
  let sign (z : Z) := if negative then - z else z in
  let hex (r : string) :=
    match leadingHex r with
    | EmptyString => None
    | ds => Some (sign (JS.radixValue 16 JS.hexValue 0 ds))
    end in
  match s2 with
  | String "0" (String "x" r) | String "0" (String "X" r) => hex r
  | _ =>
      match JS.leadingDigits s2 with
      | EmptyString => None
      | ds => Some (sign (JS.decimalValue ds))
      end
  end.

End JSText.

(** The remaining methods of NpmRegistryService. *)
Module RegistryQueries.
Import NpmRegistryService.

(** [info?.['dist-tags']?.latest || null] *)
Definition getLatestVersion (registry : Registry) (packageName : string)
    : option string :=
  match registry packageName with
  | None => None
  | Some info =>
      match dist_tags_latest info with
      | Some latest => if JS.truthy latest then Some latest else None
      | None => None
      end
  end.

(** [info ? Object.keys(info.versions) : []] *)
Definition getAllVersions (registry : Registry) (packageName : string)
    : list string :=
  match registry packageName with
  | Some info => JS.keys (versions info)
  | None => []
  end.

(** [info !== null] *)
Definition packageExists (registry : Registry) (packageName : string) : bool :=
  match registry packageName with
  | Some _ => true
  | None => false
  end.

End RegistryQueries.

(** The component [App] (src/app/app.ts): what it computes from the input
    text, the manifest and the analysis result.  [JSON.parse], the alerts
    and the signals are not modelled; a signal is read as its value. *)
Module App.
Import DependencyAnalyzerService.

(** [this.inputJson().split('\n').length] *)
Definition inputLineCount (inputJson : string) : nat :=
  List.length (JS.split JSText.lineFeed inputJson).

(** [jsonValue.split('\n').map((line, idx) => idx === 0 ? line : `  ${line}`)
    .join('\n')] of [getAnnotatedJson]. *)
Definition indentedValue (jsonValue : string) : string :=
  JSText.join JSText.lineFeed
    (JSText.mapTail JSText.indent (JS.split JSText.lineFeed jsonValue)).

(** [\d+\.] tried at the start of [s]: the run of digits must be followed
    by a dot; a shorter run is followed by a digit. *)
Definition digitsDotAt (s : string) : option string :=
  match JS.leadingDigits s with
  | EmptyString => None
  | run =>
      match JS.afterDigits s with
      | String "." _ => Some run
      | _ => None
      end
  end.

(** [s.match(/(\d+)\./)]: the capture of the leftmost match. *)
Fixpoint matchDigitsDot (s : string) : option string :=
  match digitsDotAt s with
  | Some run => Some run
  | None =>
      match s with
      | EmptyString => None
      | String _ r => matchDigitsDot r
      end
  end.

Definition getCurrentAngularVersion (packageJson : PackageJson) : option Z :=
  let allDeps := allDepsOf packageJson in
  match JS.getProp "@angular/core" allDeps with
  | None => None
  | Some coreVersion =>
      if negb (JS.truthy coreVersion) then None
      else
        match matchDigitsDot coreVersion with
        | Some m => JS.parseInt m
        | None => None
        end
  end.

(** The condition under which [onAnalyze] refuses to analyze:
    [currentAngularVersion && currentAngularVersion > targetVersion]. *)
Definition newerThanTarget (packageJson : PackageJson) (selectedVersion : string) : bool :=
  let currentAngularVersion := getCurrentAngularVersion packageJson in
  let targetVersion := JSText.parseIntAuto selectedVersion in
  match currentAngularVersion, targetVersion with
  | Some current, Some target => negb (current =? 0) && (current >? target)
  | _, _ => false
  end.

Definition getPackagesByRisk (analysisResult : option AnalysisResult) (r : Risk)
    : list DependencyAnalysis :=
  match analysisResult with
  | None => []
  | Some result => filter (fun pkg => Risk_eqb (risk pkg) r) (analysis result)
  end.

Definition getPackagesByUpdateStatus (analysisResult : option AnalysisResult)
    (status : bool) : list DependencyAnalysis :=
  match analysisResult with
  | None => []
  | Some result => filter (fun pkg => Bool.eqb (needsUpdate pkg) status) (analysis result)
  end.

End App.

(* ===================================================================== *)
(** ** Lemmas                                                             *)
(* ===================================================================== *)

(* --------------------------------------------------------------------- *)
(** *** The JavaScript primitives *)
(* --------------------------------------------------------------------- *)

Module JSFacts.
Import JS.

Lemma digit_not_space (c : ascii) : isDigit c = true -> isWhiteSpace c = false.
Proof. unfold isDigit, isWhiteSpace. lia. Qed.

Lemma digit_not_sign (c : ascii) :
  isDigit c = true -> c <> "-"%char /\ c <> "+"%char.
Proof.
  intro H. split; intros ->; discriminate H.
Qed.

Lemma leadingDigits_all (s : string) : allChars isDigit (leadingDigits s) = true.
Proof.
  induction s as [|c r IH]; simpl; auto.
  destruct (isDigit c) eqn:E; simpl; auto. now rewrite E.
Qed.

Lemma leadingDigits_id (s : string) :
  allChars isDigit s = true -> leadingDigits s = s.
Proof.
  induction s as [|c r IH]; simpl; auto.
  intros [Hc Hr]%andb_prop. rewrite Hc. f_equal. auto.
Qed.

Lemma matchDigits_run (s m : string) :
  matchDigits s = Some m -> m <> EmptyString /\ allChars isDigit m = true.
Proof.
  induction s as [|c r IH]; simpl; [discriminate|].
  destruct (isDigit c) eqn:E; auto.
  intros [= <-]. split; [discriminate|].
  simpl. rewrite E. apply leadingDigits_all.
Qed.

(** On a non-empty run of digits [parseInt] reads the whole run. *)
Lemma parseInt_digits (s : string) :
  s <> EmptyString -> allChars isDigit s = true ->
  parseInt s = Some (decimalValue s).
Proof.
  destruct s as [|c r]; [congruence|]. intros _ H.
  pose proof H as H'. simpl in H'. apply andb_prop in H' as [Hc Hr].
  unfold parseInt.
  assert (E : trimStart (String c r) = String c r).
  { simpl. now rewrite (digit_not_space c Hc). }
  rewrite E.
  destruct (digit_not_sign c Hc) as [Hm Hp].
  assert (E2 : match String c r with
               | String "-" r0 => (true, r0)
               | String "+" r0 => (false, r0)
               | _ => (false, String c r)
               end = (false, String c r)).
  { destruct c as [[] [] [] [] [] [] [] []]; try reflexivity; congruence. }
  rewrite E2. rewrite (leadingDigits_id _ H). reflexivity.
Qed.

Lemma parseInt_negative (s : string) :
  s <> EmptyString -> allChars isDigit s = true ->
  parseInt (String "-" s) = Some (- decimalValue s).
Proof.
  intros Hs H. unfold parseInt.
  change (trimStart (String "-" s)) with (String "-" s). cbv iota beta.
  rewrite (leadingDigits_id _ H).
  destruct s; [congruence|reflexivity].
Qed.

Lemma radixValue_app (radix : Z) (digit : ascii -> Z) (s t : string) (a : Z) :
  radixValue radix digit a (s ++ t) = radixValue radix digit (radixValue radix digit a s) t.
Proof.
  revert a. induction s as [|c r IH]; intro a; simpl; auto.
Qed.

Lemma allChars_app (p : ascii -> bool) (s t : string) :
  allChars p (s ++ t) = allChars p s && allChars p t.
Proof.
  induction s as [|c r IH]; simpl; auto. rewrite IH. apply andb_assoc.
Qed.

Lemma digitChar_digit (d : Z) :
  0 <= d < 10 -> isDigit (digitChar d) = true /\ digitValue (digitChar d) = d.
Proof.
  intro H.
  assert (C : d = 0 \/ d = 1 \/ d = 2 \/ d = 3 \/ d = 4 \/ d = 5 \/ d = 6
              \/ d = 7 \/ d = 8 \/ d = 9) by lia.
  repeat (destruct C as [-> | C]; [now split|]). subst. now split.
Qed.

Lemma append_assoc (s t u : string) : ((s ++ t) ++ u = s ++ (t ++ u))%string.
Proof.
  induction s as [|c r IH]; simpl; auto. now rewrite IH.
Qed.

Lemma digitsOf_acc (fuel : nat) (n : Z) (acc : string) :
  digitsOf fuel n acc = (digitsOf fuel n EmptyString ++ acc)%string.
Proof.
  revert n acc. induction fuel as [|f IH]; intros n acc; simpl; auto.
  destruct (n / 10 =? 0); auto.
  rewrite (IH _ (String _ acc)), (IH _ (String _ EmptyString)).
  now rewrite append_assoc.
Qed.

Lemma digitsOf_value (fuel : nat) (n : Z) :
  0 <= n < Z.of_nat fuel ->
  let s := digitsOf fuel n EmptyString in
  s <> EmptyString /\ allChars isDigit s = true /\ decimalValue s = n.
Proof.
  revert n. induction fuel as [|f IH]; intros n Hn; [lia|].
  simpl.
  assert (Hm : 0 <= n mod 10 < 10) by (apply Z.mod_pos_bound; lia).
  destruct (digitChar_digit _ Hm) as [Hd Hv].
  destruct (Z.eqb_spec (n / 10) 0) as [E|E].
  - split; [discriminate|]. split.
    + simpl. now rewrite Hd.
    + unfold decimalValue. simpl. rewrite Hv.
      pose proof (Z.div_mod n 10 ltac:(lia)) as H. lia.
  - assert (Hq : 0 <= n / 10 < Z.of_nat f).
    { assert (0 <= n / 10) by (apply Z.div_pos; lia).
      assert (n <> 0) by (intros ->; now apply E).
      assert (n / 10 < n) by (apply Z.div_lt; lia). lia. }
    destruct (IH _ Hq) as (Hne & Hall & Hval).
    rewrite digitsOf_acc.
    split.
    + destruct (digitsOf f (n / 10) EmptyString); [congruence|discriminate].
    + split.
      * rewrite allChars_app, Hall. simpl. now rewrite Hd.
      * unfold decimalValue in *. rewrite radixValue_app, Hval.
        cbn [radixValue]. rewrite Hv.
        pose proof (Z.div_mod n 10 ltac:(lia)). lia.
Qed.

(** [parseInt(String(n), 10)] is [n]. *)
Lemma parseInt_numberToString (n : Z) : parseInt (numberToString n) = Some n.
Proof.
  unfold numberToString. destruct (Z.ltb_spec n 0) as [Hneg|Hpos].
  - destruct (digitsOf_value (S (Z.to_nat (- n))) (- n)) as (Hne & Hall & Hval); [lia|].
    rewrite parseInt_negative by assumption. rewrite Hval. f_equal. lia.
  - destruct (digitsOf_value (S (Z.to_nat n)) n) as (Hne & Hall & Hval); [lia|].
    rewrite parseInt_digits by assumption. now rewrite Hval.
Qed.

End JSFacts.

(* --------------------------------------------------------------------- *)
(** *** Objects as property lists *)
(* --------------------------------------------------------------------- *)

Module ObjectFacts.
Import JS.

Section Props.
Context {V : Type}.
Implicit Types (o src : list (string * V)) (k : string) (v : V).

Lemma getProp_setProp_same k v o : getProp k (setProp k v o) = Some v.
Proof.
  induction o as [|[k' v'] r IH]; simpl.
  - now rewrite String.eqb_refl.
  - destruct (String.eqb k k') eqn:E; simpl; rewrite ?E; auto.
    now rewrite String.eqb_refl.
Qed.

Lemma getProp_setProp_other k k' v o :
  k <> k' -> getProp k (setProp k' v o) = getProp k o.
Proof.
  intro H. induction o as [|[k0 v0] r IH]; simpl.
  - apply String.eqb_neq in H. now rewrite H.
  - destruct (String.eqb_spec k' k0) as [->|E]; simpl.
    + apply String.eqb_neq in H. now rewrite H.
    + destruct (String.eqb k k0); auto.
Qed.

Lemma getProp_In k o : In k (keys o) <-> exists v, getProp k o = Some v.
Proof.
  induction o as [|[k' v'] r IH]; simpl.
  - split; [intros []|intros [v H]; discriminate].
  - destruct (String.eqb_spec k k') as [->|E].
    + split; eauto.
    + rewrite <- IH. split; [intros [H|H]; [congruence|auto]|auto].
Qed.

Lemma getProp_None k o : ~ In k (keys o) -> getProp k o = None.
Proof.
  intro H. destruct (getProp k o) as [v|] eqn:E; auto.
  exfalso. apply H, getProp_In. eauto.
Qed.

Lemma setProp_fresh k v o : ~ In k (keys o) -> setProp k v o = o ++ [(k, v)].
Proof.
  induction o as [|[k' v'] r IH]; simpl; auto.
  intro H. destruct (String.eqb_spec k k') as [->|E].
  - exfalso. auto.
  - rewrite IH; auto.
Qed.

Lemma keys_setProp_present k v o : In k (keys o) -> keys (setProp k v o) = keys o.
Proof.
  induction o as [|[k' v'] r IH]; simpl; [intros []|].
  destruct (String.eqb_spec k k') as [->|E]; simpl; auto.
  intros [H|H]; [congruence|]. now rewrite IH.
Qed.

Lemma keys_setProp k v o :
  keys (setProp k v o) = keys o ++ (if in_dec string_dec k (keys o) then [] else [k]).
Proof.
  destruct (in_dec string_dec k (keys o)) as [H|H].
  - rewrite keys_setProp_present, app_nil_r; auto.
  - rewrite setProp_fresh by assumption. unfold keys. now rewrite map_app.
Qed.

Lemma In_keys_setProp k k' v o :
  In k (keys (setProp k' v o)) <-> k = k' \/ In k (keys o).
Proof.
  rewrite keys_setProp, in_app_iff.
  destruct (in_dec string_dec k' (keys o)) as [H|H]; simpl.
  - split; [intros [?|[]]; auto|]. intros [->|?]; auto.
  - split; [intros [?|[<-|[]]]; auto|]. intros [->|?]; auto.
Qed.

Lemma NoDup_keys_setProp k v o : NoDup (keys o) -> NoDup (keys (setProp k v o)).
Proof.
  intro H. rewrite keys_setProp.
  destruct (in_dec string_dec k (keys o)) as [Hin|Hin].
  - now rewrite app_nil_r.
  - apply NoDup_app; auto.
    + repeat constructor. intros [].
    + intros x Hx [<-|[]]. contradiction.
Qed.

Lemma In_keys_assign k o src :
  In k (keys (assign o src)) <-> In k (keys o) \/ In k (keys src).
Proof.
  unfold assign. revert o. induction src as [|[k' v'] r IH]; intro o; simpl.
  - tauto.
  - rewrite IH, In_keys_setProp. intuition congruence.
Qed.

Lemma NoDup_keys_assign o src : NoDup (keys o) -> NoDup (keys (assign o src)).
Proof.
  unfold assign. revert o. induction src as [|[k' v'] r IH]; intros o H; simpl; auto.
  apply IH. now apply NoDup_keys_setProp.
Qed.

(** Spreading an object into a fresh one copies it. *)
Lemma assign_fresh o src : NoDup (keys o ++ keys src) -> assign o src = o ++ src.
Proof.
  unfold assign. revert o. induction src as [|[k v] r IH]; intros o H; simpl.
  - now rewrite app_nil_r.
  - assert (Hk : ~ In k (keys o)).
    { apply NoDup_remove_2 in H. intro Hin. apply H, in_app_iff. now left. }
    rewrite setProp_fresh by assumption. rewrite IH.
    + now rewrite <- app_assoc.
    + unfold keys in *. rewrite map_app. simpl. now rewrite <- app_assoc.
Qed.

Lemma assign_nil src : NoDup (keys src) -> assign [] src = src.
Proof. intro H. now apply (assign_fresh []). Qed.

End Props.
End ObjectFacts.

(* --------------------------------------------------------------------- *)
(** *** The comparator of NpmRegistryService *)
(* --------------------------------------------------------------------- *)

Module RegistryComparator.
Import NpmRegistryService.

(** [parts[i] || 0] *)
Local Abbreviation at0 l i := (JS.orZero (nth_error l i)) (only parsing).

Lemma at0_beyond (l : list Z) (i : nat) :
  (List.length l <= i)%nat -> at0 l i = 0.
Proof.
  intro H. apply nth_error_None in H. now rewrite H.
Qed.

Lemma compareFrom_range (p1 p2 : list Z) (n i : nat) :
  compareFrom p1 p2 n i = -1 \/ compareFrom p1 p2 n i = 0 \/ compareFrom p1 p2 n i = 1.
Proof.
  revert i. induction n as [|n IH]; intro i; simpl; auto.
  destruct (_ <? _); auto. destruct (_ >? _); auto.
Qed.

Lemma compareFrom_antisym (p1 p2 : list Z) (n i : nat) :
  compareFrom p1 p2 n i = - compareFrom p2 p1 n i.
Proof.
  revert i. induction n as [|n IH]; intro i; simpl; auto.
  rewrite !Z.gtb_ltb.
  destruct (Z.ltb_spec (at0 p1 i) (at0 p2 i)), (Z.ltb_spec (at0 p2 i) (at0 p1 i));
    try lia; auto.
Qed.

Lemma compareFrom_refl (p : list Z) (n i : nat) : compareFrom p p n i = 0.
Proof.
  revert i. induction n as [|n IH]; intro i; simpl; auto.
  rewrite Z.gtb_ltb, Z.ltb_irrefl. apply IH.
Qed.

(** Past the end of both arrays the loop only sees zeros. *)
Lemma compareFrom_beyond (p1 p2 : list Z) (n i : nat) :
  (List.length p1 <= i)%nat -> (List.length p2 <= i)%nat ->
  compareFrom p1 p2 n i = 0.
Proof.
  revert i. induction n as [|n IH]; intros i H1 H2; simpl; auto.
  rewrite (at0_beyond p1 i H1), (at0_beyond p2 i H2). simpl.
  apply IH; lia.
Qed.

Lemma compareFrom_more (p1 p2 : list Z) (n m i : nat) :
  (List.length p1 <= i + n)%nat -> (List.length p2 <= i + n)%nat ->
  compareFrom p1 p2 (n + m) i = compareFrom p1 p2 n i.
Proof.
  revert i. induction n as [|n IH]; intros i H1 H2; simpl.
  - apply compareFrom_beyond; lia.
  - destruct (_ <? _); auto. destruct (_ >? _); auto.
    apply IH; lia.
Qed.

(** The comparison may be run over any common bound on the two lengths. *)
Lemma compareVersions_bound (v1 v2 : string) (n : nat) :
  (List.length (parts v1) <= n)%nat -> (List.length (parts v2) <= n)%nat ->
  compareVersions v1 v2 = compareFrom (parts v1) (parts v2) n O.
Proof.
  intros H1 H2. unfold compareVersions.
  set (k := Nat.max _ _).
  replace n with (k + (n - k))%nat by (unfold k; lia).
  symmetry. apply compareFrom_more; unfold k; lia.
Qed.

Lemma compareFrom_trans (p1 p2 p3 : list Z) (n i : nat) :
  0 <= compareFrom p1 p2 n i -> 0 <= compareFrom p2 p3 n i ->
  0 <= compareFrom p1 p3 n i.
Proof.
  revert i. induction n as [|n IH]; intro i; simpl; [lia|].
  rewrite !Z.gtb_ltb.
  destruct (Z.ltb_spec (at0 p1 i) (at0 p2 i)); [lia|].
  destruct (Z.ltb_spec (at0 p2 i) (at0 p3 i)); [lia|].
  destruct (Z.ltb_spec (at0 p1 i) (at0 p3 i)); [lia|].
  destruct (Z.ltb_spec (at0 p2 i) (at0 p1 i));
    destruct (Z.ltb_spec (at0 p3 i) (at0 p2 i));
    destruct (Z.ltb_spec (at0 p3 i) (at0 p1 i)); try lia.
  apply IH.
Qed.

Lemma compareVersions_range (v1 v2 : string) :
  compareVersions v1 v2 = -1 \/ compareVersions v1 v2 = 0 \/ compareVersions v1 v2 = 1.
Proof. apply compareFrom_range. Qed.

Lemma compareVersions_antisym (v1 v2 : string) :
  compareVersions v1 v2 = - compareVersions v2 v1.
Proof.
  unfold compareVersions. rewrite (Nat.max_comm (List.length (parts v2))).
  apply compareFrom_antisym.
Qed.

Lemma compareVersions_refl (v : string) : compareVersions v v = 0.
Proof. apply compareFrom_refl. Qed.

Lemma compareVersions_trans (a b c : string) :
  0 <= compareVersions a b -> 0 <= compareVersions b c -> 0 <= compareVersions a c.
Proof.
  set (n := Nat.max (List.length (parts a))
              (Nat.max (List.length (parts b)) (List.length (parts c)))).
  rewrite (compareVersions_bound a b n), (compareVersions_bound b c n),
    (compareVersions_bound a c n) by (unfold n; lia).
  apply compareFrom_trans.
Qed.

End RegistryComparator.

(* --------------------------------------------------------------------- *)
(** *** [Array.prototype.sort] with a consistent comparator *)
(* --------------------------------------------------------------------- *)

Section SortFacts.
Context {A : Type}.
Variable cmp : A -> A -> Z.

Hypothesis cmp_antisym : forall x y, cmp x y = - cmp y x.
Hypothesis before_trans : forall x y z, before cmp x y -> before cmp y z -> before cmp x z.

Lemma insertBy_perm (x : A) (l : list A) : Permutation (JS.insertBy cmp x l) (x :: l).
Proof.
  induction l as [|y r IH]; simpl; auto.
  destruct (0 <? cmp x y); auto.
  rewrite IH. apply perm_swap.
Qed.

Lemma sort_perm (l : list A) : Permutation (JS.sort cmp l) l.
Proof.
  induction l as [|x r IH]; simpl; auto.
  rewrite insertBy_perm. now constructor.
Qed.

Lemma sort_In (l : list A) (x : A) : In x (JS.sort cmp l) <-> In x l.
Proof.
  split; apply Permutation_in; [|symmetry]; apply sort_perm.
Qed.

Lemma sort_nil_inv (l : list A) : JS.sort cmp l = [] -> l = [].
Proof.
  intro H. apply Permutation_nil. rewrite <- H. apply sort_perm.
Qed.

Lemma insertBy_sorted (x : A) (l : list A) :
  StronglySorted (before cmp) l -> StronglySorted (before cmp) (JS.insertBy cmp x l).
Proof.
  induction 1 as [|y r Hr IH Hy]; simpl.
  - repeat constructor.
  - destruct (Z.ltb_spec 0 (cmp x y)) as [Hlt|Hge].
    + constructor; auto.
      rewrite Forall_forall in *. intros z Hz.
      apply (Permutation_in _ (insertBy_perm x r)) in Hz.
      destruct Hz as [<-|Hz]; auto.
      unfold before. rewrite cmp_antisym. lia.
    + constructor; [now constructor|].
      constructor; auto.
      rewrite Forall_forall in *. intros z Hz.
      apply before_trans with y; auto.
Qed.

Lemma sort_sorted (l : list A) : StronglySorted (before cmp) (JS.sort cmp l).
Proof.
  induction l as [|x r IH]; simpl; [constructor|].
  now apply insertBy_sorted.
Qed.

(** The first element of the sorted array stands before cmp every element. *)
Lemma sort_head (l : list A) (h : A) (t : list A) :
  JS.sort cmp l = h :: t -> forall y, In y l -> before cmp h y.
Proof.
  intros Hs y Hy. apply sort_In in Hy. rewrite Hs in Hy.
  pose proof (sort_sorted l) as S. rewrite Hs in S.
  inversion S as [|? ? _ Hall]; subst.
  destruct Hy as [<-|Hy].
  - unfold before. specialize (cmp_antisym h h). lia.
  - rewrite Forall_forall in Hall. auto.
Qed.

End SortFacts.

(* --------------------------------------------------------------------- *)
(** *** Sorting versions *)
(* --------------------------------------------------------------------- *)

Module RegistrySort.
Import NpmRegistryService RegistryComparator.

Lemma sortVersionsDescending_perm (l : list string) :
  Permutation (sortVersionsDescending l) l.
Proof. apply sort_perm. Qed.

Lemma sortVersionsDescending_In (l : list string) (v : string) :
  In v (sortVersionsDescending l) <-> In v l.
Proof. apply sort_In. Qed.

(** The head of the descending sort is a highest version of the array. *)
Lemma sortVersionsDescending_head (l : list string) (best : string) (rest : list string) :
  sortVersionsDescending l = best :: rest ->
  In best l /\ forall v, In v l -> 0 <= compareVersions best v.
Proof.
  intro Hs. split.
  - apply sortVersionsDescending_In. rewrite Hs. now left.
  - intros v Hv.
    assert (H : before (fun a b => compareVersions b a) best v).
    { apply sort_head with (l := l) (t := rest); auto.
      - intros x y. apply compareVersions_antisym.
      - unfold before. intros x y z Hxy Hyz.
        rewrite (compareVersions_antisym z x).
        rewrite (compareVersions_antisym y x) in Hxy.
        rewrite (compareVersions_antisym z y) in Hyz.
        pose proof (compareVersions_trans x y z). lia. }
    unfold before in H. rewrite compareVersions_antisym in H. lia.
Qed.

Lemma sortVersionsDescending_nonempty (l : list string) :
  l <> [] -> exists best rest, sortVersionsDescending l = best :: rest.
Proof.
  intro Hl. destruct (sortVersionsDescending l) as [|b r] eqn:E; eauto.
  apply sort_nil_inv in E. contradiction.
Qed.

End RegistrySort.

(* --------------------------------------------------------------------- *)
(** *** The comparator of DependencyAnalyzerService *)
(* --------------------------------------------------------------------- *)

Module AnalyzerComparator.
Import DependencyAnalyzerService.

Lemma numLt_irrefl (x : JS.number) : JS.numLt x x = false.
Proof.
  destruct x as [| |q|]; simpl; auto.
  unfold Qcompare. now rewrite Z.compare_refl.
Qed.

Lemma numLt_asym (x y : JS.number) : JS.numLt x y = true -> JS.numLt y x = false.
Proof.
  destruct x as [| |p|], y as [| |q|]; simpl; auto; try discriminate.
  rewrite <- (Qcompare_antisym p q). destruct (Qcompare p q); simpl; auto; discriminate.
Qed.

Lemma number_compareFrom_antisym (p1 p2 : list JS.number) (n i : nat) :
  compareFrom p1 p2 n i = - compareFrom p2 p1 n i.
Proof.
  revert i. induction n as [|n IH]; intro i; simpl; auto.
  set (x := JS.numOrZero (nth_error p1 i)).
  set (y := JS.numOrZero (nth_error p2 i)).
  destruct (JS.numLt x y) eqn:Exy.
  - now rewrite (numLt_asym _ _ Exy).
  - destruct (JS.numLt y x); auto.
Qed.

Lemma number_compareFrom_refl (p : list JS.number) (n i : nat) : compareFrom p p n i = 0.
Proof.
  revert i. induction n as [|n IH]; intro i; simpl; auto.
  now rewrite numLt_irrefl.
Qed.

Lemma number_compareVersions_antisym (v1 v2 : string) :
  compareVersions v1 v2 = - compareVersions v2 v1.
Proof.
  unfold compareVersions. rewrite (Nat.max_comm (List.length (parts v2))).
  apply number_compareFrom_antisym.
Qed.

Lemma number_compareVersions_refl (v : string) : compareVersions v v = 0.
Proof. apply number_compareFrom_refl. Qed.

End AnalyzerComparator.

(* --------------------------------------------------------------------- *)
(** *** The analyzer *)
(* --------------------------------------------------------------------- *)

Module AnalyzerFacts.
Import DependencyAnalyzerService.

Lemma analysis_analyze (registry : NpmRegistryService.Registry)
    (packageJson : PackageJson) (targetAngularVersion : string) :
  analysis (analyze registry packageJson targetAngularVersion)
  = map (fun name =>
           analyzeDependency registry name
             (declared (allDepsOf packageJson) name) targetAngularVersion)
        (JS.keys (allDepsOf packageJson)).
Proof.
  unfold analyze. destruct (JS.keys (allDepsOf packageJson)); reflexivity.
Qed.

End AnalyzerFacts.

(* --------------------------------------------------------------------- *)
(** *** The comparison of the specification *)
(* --------------------------------------------------------------------- *)

Module ComparatorFacts.
Import ComparatorSpec.

Lemma compareFrom_shift (p1 p2 : list Z) (n i : nat) :
  NpmRegistryService.compareFrom p1 p2 n (S i)
  = NpmRegistryService.compareFrom (tl p1) (tl p2) n i.
Proof.
  assert (T : forall (l : list Z) j, nth_error l (S j) = nth_error (tl l) j).
  { intros [|x l] j; simpl; auto. now destruct j. }
  revert i. induction n as [|n IH]; intro i; cbn [NpmRegistryService.compareFrom]; auto.
  now rewrite !T, IH.
Qed.

Lemma compareFrom_lex (n : nat) (p1 p2 : list Z) :
  (List.length p1 <= n)%nat -> (List.length p2 <= n)%nat ->
  NpmRegistryService.compareFrom p1 p2 n O = lex p1 p2.
Proof.
  revert p1 p2. induction n as [|n IH]; intros p1 p2 H1 H2.
  - destruct p1, p2; simpl in *; auto; lia.
  - cbn [NpmRegistryService.compareFrom]. rewrite compareFrom_shift, IH.
    + rewrite Z.gtb_ltb.
      destruct p1 as [|x p1], p2 as [|y p2]; simpl; unfold decide; simpl; auto.
    + destruct p1; simpl in *; lia.
    + destruct p2; simpl in *; lia.
Qed.

(** The comparator of NpmRegistryService is the comparison of the
    specification. *)
Lemma registry_compare_refines (a b : string) :
  NpmRegistryService.compareVersions a b = compare a b.
Proof.
  unfold NpmRegistryService.compareVersions. apply compareFrom_lex; lia.
Qed.

End ComparatorFacts.

(* --------------------------------------------------------------------- *)
(** *** Peer-constraint satisfaction *)
(* --------------------------------------------------------------------- *)

Module PeerFacts.
Import NpmRegistryService.
Import PeerSpec.

Lemma anyPatternSatisfies_existsb (target : Z) (patterns : list string) :
  anyPatternSatisfies (Some target) patterns
  = existsb (alternativeSatisfies target) patterns.
Proof.
  induction patterns as [|p rest IH]; simpl; auto.
  unfold alternativeSatisfies, constraintMajor.
  destruct (JS.matchDigits p) as [m|] eqn:Em; simpl; auto.
  destruct (JSFacts.matchDigits_run _ _ Em) as [Hne Hall].
  rewrite (JSFacts.parseInt_digits m Hne Hall). simpl.
  rewrite IH.
  destruct (JS.includes ">=" p); simpl.
  - destruct (target >=? JS.decimalValue m) eqn:Ege; simpl; auto.
    rewrite Z.geb_leb in Ege. apply Z.leb_gt in Ege.
    destruct (Z.eqb_spec target (JS.decimalValue m)); [lia|].
    now rewrite andb_false_r.
  - destruct (JS.includes "^" p); simpl.
    + destruct (target =? JS.decimalValue m); auto.
    + destruct (JS.includes "~" p); simpl; auto.
Qed.

End PeerFacts.

(* --------------------------------------------------------------------- *)
(** *** Ecosystem resolution *)
(* --------------------------------------------------------------------- *)

Module EcosystemFacts.
Import NpmRegistryService.
Import EcosystemSpec.

Lemma compatibleEntries_filter (targetMajor : option Z) (allowPreRelease : bool)
    (entries : list (string * VersionData)) :
  compatibleEntries targetMajor allowPreRelease entries
  = map fst (filter (admitted targetMajor allowPreRelease) entries).
Proof.
  induction entries as [|[version versionData] rest IH]; simpl; auto.
  rewrite IH. unfold admitted, preReleaseAdmitted, declaredPeer. simpl.
  destruct allowPreRelease, (isPreReleaseVersion version); simpl; auto;
    (destruct (peerDependencies versionData) as [peerDeps|]; simpl; auto;
     destruct (JS.getProp "@angular/core" peerDeps) as [c|]; simpl; auto;
     unfold JS.truthy; rewrite negb_involutive;
     destruct (String.eqb c ""); simpl; auto;
     destruct (versionSatisfiesPeerDep targetMajor c); auto).
Qed.

Lemma find_first (current : string) (l : list string) (v : string) :
  find (fun version => compareVersions version current >=? 0) l = Some v
  <-> firstNotBelow current l v.
Proof.
  unfold firstNotBelow. revert v. induction l as [|x r IH]; intro v; simpl.
  - split; [discriminate|]. intros (l1 & l2 & H & _). now destruct l1.
  - rewrite Z.geb_leb. destruct (Z.leb_spec 0 (compareVersions x current)) as [Hge|Hlt].
    + split.
      * intros [= <-]. exists [], r. simpl. repeat split; auto. intros u [].
      * intros (l1 & l2 & H & Hv & Hl1). destruct l1 as [|y l1]; simpl in H.
        -- now injection H as -> _.
        -- injection H as <- _. specialize (Hl1 x (or_introl eq_refl)). lia.
    + rewrite IH. split.
      * intros (l1 & l2 & -> & Hv & Hl1). exists (x :: l1), l2. repeat split; auto.
        intros u [<-|Hu]; auto.
      * intros (l1 & l2 & H & Hv & Hl1). destruct l1 as [|y l1]; simpl in H.
        -- injection H as -> _. lia.
        -- injection H as <- ->. exists l1, l2. repeat split; auto.
           intros u Hu. apply Hl1. now right.
Qed.

Lemma find_none (current : string) (l : list string) :
  (forall v, In v l -> compareVersions v current < 0) ->
  find (fun version => compareVersions version current >=? 0) l = None.
Proof.
  intro H. destruct (find _ l) as [v|] eqn:E; auto.
  apply find_some in E as [Hin Hge]. specialize (H v Hin).
  rewrite Z.geb_leb in Hge. apply Z.leb_le in Hge. lia.
Qed.

(** The ecosystem branch never recommends a version below the current one. *)
Lemma ecosystem_no_downgrade (info : NpmPackageInfo)
    (packageName targetAngularVersion currentVersion : string) :
  isAngularCore packageName = false ->
  0 <= compareVersions
         (bestVersionOf info packageName targetAngularVersion currentVersion)
         (cleanVersion currentVersion).
Proof.
  intro Hcore. unfold bestVersionOf. rewrite Hcore.
  destruct (find _ _) as [v|] eqn:E.
  - apply find_some in E as [_ Hge]. rewrite Z.geb_leb in Hge. now apply Z.leb_le.
  - destruct (Z.geb_spec (compareVersions (fallbackVersion info (cleanVersion currentVersion))
                            (cleanVersion currentVersion)) 0) as [Hge|Hlt].
    + lia.
    + rewrite RegistryComparator.compareVersions_refl. lia.
Qed.

End EcosystemFacts.

(* --------------------------------------------------------------------- *)
(** *** Manifest emission *)
(* --------------------------------------------------------------------- *)

Module ManifestFacts.
Import DependencyAnalyzerService.
Import ManifestSpec.

Lemma rewriteGroup_fold (group : option Dependencies) (analyses : list DependencyAnalysis) :
  rewriteGroup group analyses = fold_left (step group) analyses [].
Proof. reflexivity. Qed.

Lemma fold_step_other (group : option Dependencies) (analyses : list DependencyAnalysis)
    (acc : Dependencies) (n : string) :
  ~ In n (map name analyses) ->
  JS.getProp n (fold_left (step group) analyses acc) = JS.getProp n acc.
Proof.
  revert acc. induction analyses as [|x r IH]; intros acc H; simpl; auto.
  simpl in H. rewrite IH by tauto. unfold step.
  destruct (declaredIn group (name x)); auto.
  apply ObjectFacts.getProp_setProp_other. intros ->. tauto.
Qed.

Lemma fold_step_declared (group : option Dependencies) (analyses : list DependencyAnalysis)
    (acc : Dependencies) (a : DependencyAnalysis) :
  NoDup (map name analyses) -> In a analyses -> declaredIn group (name a) = true ->
  JS.getProp (name a) (fold_left (step group) analyses acc)
  = Some ("^" ++ recommendedVersion a)%string.
Proof.
  revert acc. induction analyses as [|x r IH]; intros acc Hnd Hin Hdecl; [destruct Hin|].
  simpl in *. inversion Hnd as [|? ? Hx Hr]; subst.
  destruct Hin as [->|Hin].
  - rewrite fold_step_other by assumption. unfold step. rewrite Hdecl.
    apply ObjectFacts.getProp_setProp_same.
  - now apply IH.
Qed.

Lemma fold_step_keys (group : option Dependencies) (analyses : list DependencyAnalysis)
    (acc : Dependencies) :
  NoDup (JS.keys acc ++ map name analyses) ->
  JS.keys (fold_left (step group) analyses acc)
  = JS.keys acc ++ filter (declaredIn group) (map name analyses).
Proof.
  revert acc. induction analyses as [|x r IH]; intros acc H; simpl.
  - now rewrite app_nil_r.
  - simpl in H. unfold step at 2.
    destruct (declaredIn group (name x)) eqn:E.
    + assert (Hk : ~ In (name x) (JS.keys acc)).
      { apply NoDup_remove_2 in H. intro Hin. apply H, in_app_iff. now left. }
      rewrite IH; rewrite ObjectFacts.setProp_fresh by assumption.
      * unfold JS.keys. rewrite map_app. simpl. now rewrite <- app_assoc.
      * unfold JS.keys in *. rewrite map_app. simpl. now rewrite <- app_assoc.
    + apply IH. now apply NoDup_remove_1 in H.
Qed.

Lemma declaredIn_true (deps : Dependencies) (n constraint : string) :
  JS.getProp n deps = Some constraint -> constraint <> EmptyString ->
  declaredIn (Some deps) n = true.
Proof.
  intros H Hne. unfold declaredIn, JS.truthy. rewrite H.
  now destruct (String.eqb_spec constraint "").
Qed.

Lemma names_entries (registry : NpmRegistryService.Registry) (packageJson : PackageJson)
    (targetAngularVersion : string) (names : list string) :
  map name (map (entryOf registry packageJson targetAngularVersion) names) = names.
Proof.
  rewrite map_map. simpl. apply map_id.
Qed.

Lemma NoDup_allDeps (packageJson : PackageJson) : NoDup (JS.keys (allDepsOf packageJson)).
Proof.
  unfold allDepsOf. do 2 apply ObjectFacts.NoDup_keys_assign. constructor.
Qed.

Lemma group_in_allDeps (packageJson : PackageJson) (group : string)
    (deps : Dependencies) (n : string) :
  isGroupName group -> groupOf group packageJson = Some deps ->
  In n (JS.keys deps) -> In n (JS.keys (allDepsOf packageJson)).
Proof.
  intros [->| ->] Hg Hn; unfold allDepsOf; rewrite Hg;
    rewrite !ObjectFacts.In_keys_assign; simpl; auto.
Qed.

Lemma groupOf_setProp_same (k : string) (deps : Dependencies) (packageJson : PackageJson) :
  groupOf k (JS.setProp k (Group deps) packageJson) = Some deps.
Proof.
  unfold groupOf, field. now rewrite ObjectFacts.getProp_setProp_same.
Qed.

Lemma groupOf_setProp_other (k k' : string) (f : Field) (packageJson : PackageJson) :
  k <> k' -> groupOf k (JS.setProp k' f packageJson) = groupOf k packageJson.
Proof.
  intro H. unfold groupOf, field. now rewrite ObjectFacts.getProp_setProp_other.
Qed.

(** The dependency group [group] of the updated manifest. *)
Lemma updated_group (original : PackageJson) (analyses : list DependencyAnalysis)
    (group : string) (deps : Dependencies) :
  isGroupName group -> groupOf group original = Some deps ->
  rewriteGroup (Some deps) analyses <> [] ->
  groupOf group (updated (buildResult original analyses))
  = Some (rewriteGroup (Some deps) analyses).
Proof.
  intros Hname Hg Hne. unfold buildResult. cbn [updated].
  assert (L : forall d : Dependencies,
             d <> [] -> (0 <? List.length (JS.keys d))%nat = true).
  { intros [|x d] Hd; [congruence|reflexivity]. }
  destruct Hname as [-> | ->]; rewrite Hg.
  - rewrite groupOf_setProp_other by discriminate.
    rewrite (L _ Hne). apply groupOf_setProp_same.
  - rewrite (L _ Hne). apply groupOf_setProp_same.
Qed.

End ManifestFacts.

(* --------------------------------------------------------------------- *)
(** *** Where the two comparators agree *)
(* --------------------------------------------------------------------- *)

Module NumericFacts.
Import JS.
Import NumericVersions.

Lemma trimEnd_digits (s : string) : allChars isDigit s = true -> trimEnd s = s.
Proof.
  induction s as [|c r IH]; simpl; auto.
  intros [Hc Hr]%andb_prop. rewrite (IH Hr).
  destruct r; auto. now rewrite (JSFacts.digit_not_space c Hc).
Qed.

Lemma trim_digits (s : string) : allChars isDigit s = true -> trim s = s.
Proof.
  intro H. unfold trim.
  assert (E : trimStart s = s).
  { destruct s as [|c r]; auto. simpl in *. apply andb_prop in H as [Hc _].
    now rewrite (JSFacts.digit_not_space c Hc). }
  rewrite E. now apply trimEnd_digits.
Qed.

Lemma afterDigits_digits (s : string) : allChars isDigit s = true -> afterDigits s = EmptyString.
Proof.
  induction s as [|c r IH]; simpl; auto.
  intros [Hc Hr]%andb_prop. rewrite Hc. auto.
Qed.

Lemma append_empty (s : string) : (s ++ "")%string = s.
Proof. induction s as [|c r IH]; simpl; auto. now rewrite IH. Qed.

Lemma unsignedDecimal_digits (c : ascii) (r : string) :
  allChars isDigit (String c r) = true ->
  unsignedDecimal (String c r)
  = Finite (inject_Z (decimalValue (String c r)) * Qpower (inject_Z 10) 0).
Proof.
  intro H. unfold unsignedDecimal.
  assert (E : String.eqb (String c r) "Infinity" = false).
  { simpl in H. apply andb_prop in H as [Hc _].
    destruct c as [[] [] [] [] [] [] [] []]; try discriminate Hc; reflexivity. }
  rewrite E, (JSFacts.leadingDigits_id _ H), (afterDigits_digits _ H).
  cbv iota beta. rewrite append_empty. reflexivity.
Qed.

Lemma Number_digits (c : ascii) (r : string) :
  allChars isDigit (String c r) = true ->
  Number (String c r) = unsignedDecimal (String c r).
Proof.
  intro H. unfold Number. rewrite (trim_digits _ H).
  simpl in H. apply andb_prop in H as [Hc Hr].
  destruct c as [[] [] [] [] [] [] [] []]; try discriminate Hc; try reflexivity.
  destruct r as [|m r]; [reflexivity|].
  simpl in Hr. apply andb_prop in Hr as [Hm _].
  destruct m as [[] [] [] [] [] [] [] []]; try discriminate Hm; reflexivity.
Qed.

Lemma Number_represents (component : string) :
  allChars isDigit component = true ->
  represents (Number component) (orZero (parseInt component)).
Proof.
  intro H. destruct component as [|c r].
  - exists 0%Q. split; reflexivity.
  - rewrite JSFacts.parseInt_digits by (auto; discriminate).
    rewrite (Number_digits _ _ H), (unsignedDecimal_digits _ _ H).
    eexists. split; [reflexivity|]. simpl. apply Qmult_1_r.
Qed.

Lemma numOrZero_represents (n : number) (z : Z) :
  represents n z -> represents (numOrZero (Some n)) z.
Proof.
  intros (q & -> & Hq). simpl. unfold isZeroQ.
  destruct (Qeq_bool q 0) eqn:E.
  - apply Qeq_bool_eq in E. exists 0%Q. split; auto. now rewrite <- E.
  - exists q. now split.
Qed.

Lemma numLt_represents (n1 n2 : number) (z1 z2 : Z) :
  represents n1 z1 -> represents n2 z2 -> numLt n1 n2 = (z1 <? z2).
Proof.
  intros (q1 & -> & H1) (q2 & -> & H2). simpl.
  rewrite H1, H2. unfold Qcompare, Z.ltb. simpl. now rewrite !Z.mul_1_r.
Qed.

Lemma represented_at (pa : list number) (pr : list Z) (i : nat) :
  Forall2 represents pa pr ->
  represents (numOrZero (nth_error pa i)) (orZero (nth_error pr i)).
Proof.
  intro H. revert i. induction H as [|n z pa pr Hnz _ IH]; intro i.
  - destruct i; exists 0%Q; split; reflexivity.
  - destruct i; simpl; auto. now apply numOrZero_represents.
Qed.

Lemma compareFrom_represents (pa1 pa2 : list number) (pr1 pr2 : list Z) (n i : nat) :
  Forall2 represents pa1 pr1 -> Forall2 represents pa2 pr2 ->
  DependencyAnalyzerService.compareFrom pa1 pa2 n i
  = NpmRegistryService.compareFrom pr1 pr2 n i.
Proof.
  intros H1 H2. revert i. induction n as [|n IH]; intro i; simpl; auto.
  pose proof (represented_at pa1 pr1 i H1) as R1.
  pose proof (represented_at pa2 pr2 i H2) as R2.
  rewrite (numLt_represents _ _ _ _ R1 R2), (numLt_represents _ _ _ _ R2 R1).
  now rewrite Z.gtb_ltb, IH.
Qed.

Lemma parts_represent (version : string) :
  numeric version ->
  Forall2 represents (DependencyAnalyzerService.parts version)
    (NpmRegistryService.parts version).
Proof.
  unfold numeric, DependencyAnalyzerService.parts, NpmRegistryService.parts.
  induction (split "." version) as [|c r IH]; intro H; simpl; constructor.
  - apply Number_represents. now inversion H.
  - apply IH. now inversion H.
Qed.

(** On versions made of decimal components the comparator of the analyzer
    returns what the comparator of the registry service returns. *)
Lemma comparators_agree_on_numeric (v1 v2 : string) :
  numeric v1 -> numeric v2 ->
  DependencyAnalyzerService.compareVersions v1 v2
  = NpmRegistryService.compareVersions v1 v2.
Proof.
  intros H1 H2.
  unfold DependencyAnalyzerService.compareVersions, NpmRegistryService.compareVersions.
  pose proof (parts_represent v1 H1) as F1.
  pose proof (parts_represent v2 H2) as F2.
  rewrite (Forall2_length F1), (Forall2_length F2).
  now apply compareFrom_represents.
Qed.

End NumericFacts.

(* ===================================================================== *)
(** ** Properties of the specification                                    *)
(* ===================================================================== *)

(** C1 -- No-downgrade invariant: the recommended version of every
    dependency is never ordered below the cleaned current version, and when
    the registry offers nothing that is not below it the current version is
    returned.  The ecosystem branch has this property
    ([EcosystemFacts.ecosystem_no_downgrade]); the framework-core branch does
    not: for [@angular/fire] at [^18.0.1] with target 17 and a registry that
    offers 17.0.0, 17.1.0 and 18.0.1, the recommended version is 17.1.0,
    which is below the current version, although the registry offers the
    current version itself. *)
Theorem framework_core_downgrade :
  let noPeer := {| NpmRegistryService.peerDependencies := None |} in
  let info :=
    {| NpmRegistryService.name := "@angular/fire";
       NpmRegistryService.versions :=
         [("17.0.0", noPeer); ("17.1.0", noPeer); ("18.0.1", noPeer)];
       NpmRegistryService.dist_tags_latest := Some "18.0.1";
       NpmRegistryService.time := [] |} in
  let entry :=
    DependencyAnalyzerService.analyzeDependency
      (fun _ => Some info) "@angular/fire" "^18.0.1" "17" in
  NpmRegistryService.isAngularCore "@angular/fire" = true
  /\ DependencyAnalyzerService.currentVersion entry = "18.0.1"
  /\ DependencyAnalyzerService.recommendedVersion entry = "17.1.0"
  /\ NpmRegistryService.compareVersions "17.1.0" "18.0.1" = -1
  /\ In "18.0.1" (JS.keys (NpmRegistryService.versions info))
  /\ DependencyAnalyzerService.needsUpdate entry = false
  /\ DependencyAnalyzerService.notes entry = "Current version is newer".
Proof.
  vm_compute. repeat split; auto.
Qed.

(** C2 -- Framework-core resolution algorithm.  For every version list,
    integer target major and cleaned current version the resolver keeps the
    versions whose major component equals the target major, narrows them to
    the stable ones when the current version is not a pre-release and some
    are stable, and returns the head of the descending sort of what remains,
    which is a highest remaining version; when nothing remains it returns
    the current version if its major exceeds the target major, and the
    string ["<targetMajor>.0.0"] otherwise.  With versions [16.2.0, 17.0.0,
    17.1.0, 18.0.0-next.0], target major 17 and current 16.2.0 it returns
    17.1.0. *)
Theorem findBestAngularVersion_spec (versions : list string) (target : Z)
    (current : string) :
  let result :=
    NpmRegistryService.findBestAngularVersion versions (JS.numberToString target) current in
  let remaining := FrameworkSpec.candidates versions target current in
  result = match NpmRegistryService.sortVersionsDescending remaining with
           | best :: _ => best
           | [] => if FrameworkSpec.majorExceeds target current then current
                   else (JS.numberToString target ++ ".0.0")%string
           end
  /\ (remaining <> [] ->
      In result remaining
      /\ forall v, In v remaining -> 0 <= NpmRegistryService.compareVersions result v)
  /\ NpmRegistryService.findBestAngularVersion
       ["16.2.0"; "17.0.0"; "17.1.0"; "18.0.0-next.0"] (JS.numberToString 17) "16.2.0"
     = "17.1.0".
Proof.
  intros result remaining.
  assert (E : result = match NpmRegistryService.sortVersionsDescending remaining with
                       | best :: _ => best
                       | [] => if FrameworkSpec.majorExceeds target current then current
                               else (JS.numberToString target ++ ".0.0")%string
                       end).
  { unfold result, remaining, NpmRegistryService.findBestAngularVersion,
      FrameworkSpec.candidates, FrameworkSpec.majorExceeds.
    rewrite JSFacts.parseInt_numberToString.
    assert (F : filter (fun v => NpmRegistryService.numEq (NpmRegistryService.majorOf v)
                                   (Some target)) versions
                = filter (FrameworkSpec.hasMajor target) versions).
    { apply filter_ext. intro v. unfold FrameworkSpec.hasMajor, NpmRegistryService.numEq.
      now destruct (NpmRegistryService.majorOf v). }
    rewrite F.
    destruct (NpmRegistryService.isPreReleaseVersion current); simpl.
    - reflexivity.
    - fold FrameworkSpec.stable.
      destruct (filter FrameworkSpec.stable _); reflexivity. }
  split; [exact E|]. split; [|reflexivity].
  intro Hne.
  destruct (RegistrySort.sortVersionsDescending_nonempty remaining Hne) as (best & rest & Hs).
  rewrite Hs in E. subst best.
  now apply RegistrySort.sortVersionsDescending_head with rest.
Qed.

(** C3, as stated, fails: a version whose peer dependency on the
    framework-core package is the empty constraint is a candidate although
    the evaluator does not confirm that constraint. *)
Lemma empty_peer_constraint_is_candidate :
  let versionData :=
    {| NpmRegistryService.peerDependencies := Some [("@angular/core", "")] |} in
  let info :=
    {| NpmRegistryService.name := "ngx-lib";
       NpmRegistryService.versions := [("2.0.0", versionData)];
       NpmRegistryService.dist_tags_latest := Some "2.0.0";
       NpmRegistryService.time := [] |} in
  ~ (forall v,
       In v (NpmRegistryService.findVersionsCompatibleWithAngular info "17" false)
       <-> exists data, In (v, data) (NpmRegistryService.versions info)
             /\ EcosystemSpec.admittedAsStated (Some 17) false (v, data) = true).
Proof.
  intros versionData info H.
  destruct (H "2.0.0") as [H1 _].
  destruct H1 as (data & Hin & Hadm); [now left|].
  destruct Hin as [[= <-]|[]]. discriminate Hadm.
Qed.

(** C3 (amended) -- Ecosystem candidate construction and selection.  For
    every package that is not framework-core, the candidates are, in
    registry order, exactly the available versions that are not pre-release
    unless the current version is a pre-release, and that declare no peer
    dependency on the framework-core package, or an empty one, or one that
    the evaluator confirms for the target major; when the descending sort of
    the candidates has a first version that is not below the cleaned
    current version, the resolver returns it. *)
Theorem ecosystem_candidates_and_selection (info : NpmRegistryService.NpmPackageInfo)
    (packageName targetAngularVersion currentVersion : string) :
  NpmRegistryService.isAngularCore packageName = false ->
  let current := NpmRegistryService.cleanVersion currentVersion in
  let allowPreRelease := NpmRegistryService.isPreReleaseVersion current in
  let candidates :=
    NpmRegistryService.findVersionsCompatibleWithAngular
      info targetAngularVersion allowPreRelease in
  candidates
  = map fst (filter (EcosystemSpec.admitted (JS.parseInt targetAngularVersion) allowPreRelease)
               (NpmRegistryService.versions info))
  /\ (forall v,
        In v candidates <->
        exists data, In (v, data) (NpmRegistryService.versions info)
          /\ EcosystemSpec.admitted (JS.parseInt targetAngularVersion) allowPreRelease
               (v, data) = true)
  /\ forall v,
       EcosystemSpec.firstNotBelow current
         (NpmRegistryService.sortVersionsDescending candidates) v ->
       NpmRegistryService.getBestVersion (fun _ => Some info)
         packageName targetAngularVersion currentVersion = Some v.
Proof.
  intros Hcore current allowPreRelease candidates.
  assert (E : candidates
              = map fst (filter (EcosystemSpec.admitted (JS.parseInt targetAngularVersion)
                                   allowPreRelease)
                           (NpmRegistryService.versions info))).
  { apply EcosystemFacts.compatibleEntries_filter. }
  split; [exact E|]. split.
  - intro v. rewrite E, in_map_iff. split.
    + intros ([v' data] & <- & Hin). apply filter_In in Hin as [Hin Hadm].
      exists data. now split.
    + intros (data & Hin & Hadm). exists (v, data). split; auto.
      apply filter_In. now split.
  - intros v Hv. apply EcosystemFacts.find_first in Hv.
    unfold NpmRegistryService.getBestVersion, NpmRegistryService.bestVersionOf.
    rewrite Hcore. fold current. fold allowPreRelease. fold candidates.
    now rewrite Hv.
Qed.

(** The theorem above at a package with three published versions. *)
Lemma ecosystem_candidates_and_selection_witness :
  let noPeer := {| NpmRegistryService.peerDependencies := None |} in
  let peer c :=
    {| NpmRegistryService.peerDependencies := Some [("@angular/core", c)] |} in
  let info :=
    {| NpmRegistryService.name := "ngx-lib";
       NpmRegistryService.versions :=
         [("1.0.0", noPeer); ("2.0.0", peer "^17.0.0 || ^18.0.0");
          ("3.0.0", peer "^19.0.0")];
       NpmRegistryService.dist_tags_latest := Some "3.0.0";
       NpmRegistryService.time := [] |} in
  NpmRegistryService.isAngularCore "ngx-lib" = false
  /\ NpmRegistryService.findVersionsCompatibleWithAngular info "18" false
     = ["1.0.0"; "2.0.0"]
  /\ NpmRegistryService.getBestVersion (fun _ => Some info) "ngx-lib" "18" "^1.0.0"
     = Some "2.0.0".
Proof.
  intros noPeer peer info.
  split; [reflexivity|].
  pose proof (ecosystem_candidates_and_selection info "ngx-lib" "18" "^1.0.0" eq_refl)
    as (Hcand & _ & Hsel).
  split.
  - exact Hcand.
  - apply Hsel. exists [], ["1.0.0"]. split; [reflexivity|]. split.
    + vm_compute. discriminate.
    + intros u [].
Defined.

(** C4 -- Ecosystem fallback policy.  For every package that is not
    framework-core and has no candidate that is not below the current
    version, the resolver falls back to the registry's latest dist-tag; if
    that tag is a pre-release while the current version is stable it uses
    instead the highest stable version among all available versions (the
    tag itself when there is no stable version); and the result is the
    fallback version unless it compares below the cleaned current version,
    in which case the current version is returned unchanged. *)
Theorem ecosystem_fallback (info : NpmRegistryService.NpmPackageInfo)
    (packageName targetAngularVersion currentVersion tag : string) :
  NpmRegistryService.isAngularCore packageName = false ->
  let current := NpmRegistryService.cleanVersion currentVersion in
  let candidates :=
    NpmRegistryService.findVersionsCompatibleWithAngular info targetAngularVersion
      (NpmRegistryService.isPreReleaseVersion current) in
  (forall v, In v candidates -> NpmRegistryService.compareVersions v current < 0) ->
  NpmRegistryService.dist_tags_latest info = Some tag ->
  tag <> EmptyString ->
  let stableVersions :=
    filter FrameworkSpec.stable (JS.keys (NpmRegistryService.versions info)) in
  let tagRejected :=
    NpmRegistryService.isPreReleaseVersion tag
    && negb (NpmRegistryService.isPreReleaseVersion current) in
  let fallback := NpmRegistryService.fallbackVersion info current in
  (tagRejected = false -> fallback = tag)
  /\ (tagRejected = true -> stableVersions <> [] ->
      In fallback stableVersions
      /\ forall v, In v stableVersions ->
                   0 <= NpmRegistryService.compareVersions fallback v)
  /\ (tagRejected = true -> stableVersions = [] -> fallback = tag)
  /\ NpmRegistryService.getBestVersion (fun _ => Some info)
       packageName targetAngularVersion currentVersion
     = Some (if NpmRegistryService.compareVersions fallback current >=? 0
             then fallback else current).
Proof.
  intros Hcore current candidates Hnone Htag Hne stableVersions tagRejected fallback.
  assert (Hlatest : NpmRegistryService.latestOr info current = tag).
  { unfold NpmRegistryService.latestOr. rewrite Htag. unfold JS.truthy.
    destruct (String.eqb_spec tag ""); [contradiction|reflexivity]. }
  assert (Hfb : fallback
                = if tagRejected
                  then match NpmRegistryService.sortVersionsDescending stableVersions with
                       | best :: _ => best
                       | [] => tag
                       end
                  else tag).
  { unfold fallback, NpmRegistryService.fallbackVersion. rewrite Hlatest.
    unfold tagRejected. rewrite andb_comm. reflexivity. }
  split; [|split; [|split]].
  - intro H. now rewrite Hfb, H.
  - intros H Hst. rewrite H in Hfb.
    destruct (RegistrySort.sortVersionsDescending_nonempty _ Hst) as (best & rest & Hs).
    rewrite Hs in Hfb. rewrite Hfb.
    now apply (RegistrySort.sortVersionsDescending_head _ _ _ Hs).
  - intros H Hst. rewrite Hfb, H, Hst. reflexivity.
  - unfold NpmRegistryService.getBestVersion, NpmRegistryService.bestVersionOf.
    rewrite Hcore. fold current. fold candidates.
    rewrite EcosystemFacts.find_none; [reflexivity|].
    intros v Hv. apply Hnone.
    exact (proj1 (RegistrySort.sortVersionsDescending_In _ _) Hv).
Qed.

(** The theorem above at a package whose latest tag is a beta and whose only
    stable version is older than the current one. *)
Lemma ecosystem_fallback_witness :
  let noPeer := {| NpmRegistryService.peerDependencies := None |} in
  let info :=
    {| NpmRegistryService.name := "left-pad";
       NpmRegistryService.versions := [("1.0.0", noPeer); ("2.0.0-beta.1", noPeer)];
       NpmRegistryService.dist_tags_latest := Some "2.0.0-beta.1";
       NpmRegistryService.time := [] |} in
  NpmRegistryService.isAngularCore "left-pad" = false
  /\ NpmRegistryService.fallbackVersion info "1.5.0" = "1.0.0"
  /\ NpmRegistryService.getBestVersion (fun _ => Some info) "left-pad" "17" "^1.5.0"
     = Some "1.5.0".
Proof.
  intros noPeer info.
  split; [reflexivity|].
  assert (Hnone : forall v,
             In v (NpmRegistryService.findVersionsCompatibleWithAngular info "17"
                     (NpmRegistryService.isPreReleaseVersion
                        (NpmRegistryService.cleanVersion "^1.5.0"))) ->
             NpmRegistryService.compareVersions v
               (NpmRegistryService.cleanVersion "^1.5.0") < 0).
  { intros v [<-|[]]. reflexivity. }
  assert (Htag : "2.0.0-beta.1" <> EmptyString) by discriminate.
  pose proof (ecosystem_fallback info "left-pad" "17" "^1.5.0" "2.0.0-beta.1"
                eq_refl Hnone eq_refl Htag) as (_ & Hstable & _ & Hbest).
  split; [reflexivity|exact Hbest].
Defined.

(** C5 -- Peer-constraint satisfaction.  For every integer target major and
    constraint string the evaluator returns true iff some trimmed
    alternative of the split on [||] satisfies: its first digit run is [m]
    and it contains [>=] with target >= m, or [^] or [~] with target = m.
    An alternative without digits or without marker never satisfies.  With
    ["^17.0.0 || ^18.0.0"], 18 satisfies and 16 does not. *)
Theorem versionSatisfiesPeerDep_spec (target : Z) (constraint : string) :
  (NpmRegistryService.versionSatisfiesPeerDep (Some target) constraint = true
   <-> exists alternative,
         In alternative (PeerSpec.alternatives constraint)
         /\ PeerSpec.alternativeSatisfies target alternative = true)
  /\ (forall alternative,
        PeerSpec.alternativeSatisfies target alternative = true <->
        exists m, PeerSpec.constraintMajor alternative = Some m
          /\ ((JS.includes ">=" alternative = true /\ target >= m)
              \/ ((JS.includes "^" alternative = true
                   \/ JS.includes "~" alternative = true) /\ target = m)))
  /\ NpmRegistryService.versionSatisfiesPeerDep (Some 18) "^17.0.0 || ^18.0.0" = true
  /\ NpmRegistryService.versionSatisfiesPeerDep (Some 16) "^17.0.0 || ^18.0.0" = false.
Proof.
  split; [|split; [|split; reflexivity]].
  - unfold NpmRegistryService.versionSatisfiesPeerDep.
    rewrite PeerFacts.anyPatternSatisfies_existsb. apply existsb_exists.
  - intro alt. unfold PeerSpec.alternativeSatisfies.
    destruct (PeerSpec.constraintMajor alt) as [m|].
    + rewrite orb_true_iff, !andb_true_iff, orb_true_iff, Z.geb_le, Z.eqb_eq.
      split.
      * intros H. exists m. split; auto.
        destruct H as [[H1 H2]|[H1 H2]]; [left|right]; split; auto. lia.
      * intros (m' & [= <-] & H).
        destruct H as [[H1 H2]|[H1 H2]]; [left|right]; split; auto. lia.
    + split; [discriminate|]. intros (m & Hm & _). discriminate.
Qed.

(** C6 -- Comparator normalization: [compare] splits each string on [.],
    converts every component to an integer with non-numeric or missing
    components treated as 0, compares component-wise up to the longer
    length, and the first unequal component decides; [compare("17.0.0",
    "9.0.0") = 1] and [compare("1.2", "1.2.0") = 0]; for both comparators.
    The comparator of NpmRegistryService is this function, and both
    comparators give the two stated values.  The comparator of
    DependencyAnalyzerService differs from it: on ["5.0.1-rc"] against
    ["5.0.2-rc"] the third components [1-rc] and [2-rc] both count as 0
    instead of 1 and 2, and the result is 0 where the component-wise
    comparison gives -1. *)
Theorem compare_normalization :
  (forall a b, NpmRegistryService.compareVersions a b = ComparatorSpec.compare a b)
  /\ (forall a b, ComparatorSpec.compare a b = -1 \/ ComparatorSpec.compare a b = 0
                  \/ ComparatorSpec.compare a b = 1)
  /\ NpmRegistryService.compareVersions "17.0.0" "9.0.0" = 1
  /\ NpmRegistryService.compareVersions "1.2" "1.2.0" = 0
  /\ DependencyAnalyzerService.compareVersions "17.0.0" "9.0.0" = 1
  /\ DependencyAnalyzerService.compareVersions "1.2" "1.2.0" = 0
  /\ ComparatorSpec.components "5.0.1-rc" = [5; 0; 1]
  /\ ComparatorSpec.components "5.0.2-rc" = [5; 0; 2]
  /\ DependencyAnalyzerService.parts "5.0.1-rc" = [JS.Finite 5; JS.Finite 0; JS.NaN]
  /\ DependencyAnalyzerService.parts "5.0.2-rc" = [JS.Finite 5; JS.Finite 0; JS.NaN]
  /\ ComparatorSpec.compare "5.0.1-rc" "5.0.2-rc" = -1
  /\ DependencyAnalyzerService.compareVersions "5.0.1-rc" "5.0.2-rc" = 0.
Proof.
  split; [exact ComparatorFacts.registry_compare_refines|].
  split.
  - intros a b. rewrite <- ComparatorFacts.registry_compare_refines.
    apply RegistryComparator.compareVersions_range.
  - repeat split; reflexivity.
Qed.

(** C7 -- The two version comparators are equivalent.  They are not: on
    ["5.0.1-rc"] against ["5.0.2-rc"] the comparator of NpmRegistryService
    returns -1 and the one of DependencyAnalyzerService returns 0.  The
    analyzer meets this pair when a package at [5.0.1-rc] has [5.0.2-rc]
    published: the resolver recommends 5.0.2-rc and the analyzer reports
    the dependency as up to date.  In the same way it reports a
    recommendation that the resolver accepted as not below the current
    version as older than it ([1.2.3] against [1.2.3-1]). *)
Theorem comparators_disagree :
  (NpmRegistryService.compareVersions "5.0.1-rc" "5.0.2-rc" = -1
   /\ DependencyAnalyzerService.compareVersions "5.0.1-rc" "5.0.2-rc" = 0)
  /\ (let noPeer := {| NpmRegistryService.peerDependencies := None |} in
      let info :=
        {| NpmRegistryService.name := "typescript";
           NpmRegistryService.versions := [("5.0.1-rc", noPeer); ("5.0.2-rc", noPeer)];
           NpmRegistryService.dist_tags_latest := Some "5.0.2-rc";
           NpmRegistryService.time := [] |} in
      let entry :=
        DependencyAnalyzerService.analyzeDependency
          (fun _ => Some info) "typescript" "5.0.1-rc" "17" in
      DependencyAnalyzerService.currentVersion entry = "5.0.1-rc"
      /\ DependencyAnalyzerService.recommendedVersion entry = "5.0.2-rc"
      /\ DependencyAnalyzerService.needsUpdate entry = false
      /\ DependencyAnalyzerService.notes entry = "Up to date")
  /\ (let noPeer := {| NpmRegistryService.peerDependencies := None |} in
      let info :=
        {| NpmRegistryService.name := "left-pad";
           NpmRegistryService.versions := [("1.2.3-1", noPeer)];
           NpmRegistryService.dist_tags_latest := Some "1.2.3-1";
           NpmRegistryService.time := [] |} in
      let entry :=
        DependencyAnalyzerService.analyzeDependency
          (fun _ => Some info) "left-pad" "1.2.3" "17" in
      DependencyAnalyzerService.recommendedVersion entry = "1.2.3-1"
      /\ NpmRegistryService.compareVersions "1.2.3" "1.2.3-1" = 0
      /\ DependencyAnalyzerService.compareVersions "1.2.3" "1.2.3-1" = 1
      /\ DependencyAnalyzerService.notes entry = "Current version is newer").
Proof.
  vm_compute. repeat split; reflexivity.
Qed.

(** C8 -- Registry-unavailable fallback.  The analysis has one entry per
    dependency, in order, each computed from that dependency's own
    lookup; an entry whose lookup yields null has the cleaned current
    version as recommended version and [needsUpdate = false]; and an entry
    is the same under any registry that agrees on its package, so the other
    dependencies of the batch are analyzed as if nothing had failed. *)
Theorem registry_unavailable_fallback (registry : NpmRegistryService.Registry)
    (packageJson : DependencyAnalyzerService.PackageJson)
    (targetAngularVersion : string) :
  let allDeps := DependencyAnalyzerService.allDepsOf packageJson in
  DependencyAnalyzerService.analysis
    (DependencyAnalyzerService.analyze registry packageJson targetAngularVersion)
  = map (fun name =>
           DependencyAnalyzerService.analyzeDependency registry name
             (DependencyAnalyzerService.declared allDeps name) targetAngularVersion)
        (JS.keys allDeps)
  /\ (forall name currentVersion,
        registry name = None ->
        let entry :=
          DependencyAnalyzerService.analyzeDependency
            registry name currentVersion targetAngularVersion in
        DependencyAnalyzerService.currentVersion entry
          = DependencyAnalyzerService.cleanVersion currentVersion
        /\ DependencyAnalyzerService.recommendedVersion entry
           = DependencyAnalyzerService.cleanVersion currentVersion
        /\ DependencyAnalyzerService.needsUpdate entry = false)
  /\ (forall registry' name currentVersion,
        registry' name = registry name ->
        DependencyAnalyzerService.analyzeDependency
          registry' name currentVersion targetAngularVersion
        = DependencyAnalyzerService.analyzeDependency
            registry name currentVersion targetAngularVersion).
Proof.
  intro allDeps. split; [apply AnalyzerFacts.analysis_analyze|]. split.
  - intros name currentVersion Hnone.
    unfold DependencyAnalyzerService.analyzeDependency,
      NpmRegistryService.getBestVersion.
    rewrite Hnone. simpl.
    now rewrite AnalyzerComparator.number_compareVersions_refl.
  - intros registry' name currentVersion Heq.
    unfold DependencyAnalyzerService.analyzeDependency,
      NpmRegistryService.getBestVersion.
    now rewrite Heq.
Qed.

(** C9, as stated, fails.  In the manifest below [b] is listed in both
    groups and [c] has the empty constraint: the updated [devDependencies]
    lists [b] before [a], and the updated [dependencies] has lost [c]. *)
Lemma manifest_emission_counterexample :
  let packageJson : DependencyAnalyzerService.PackageJson :=
    [("name", DependencyAnalyzerService.Other "app");
     ("dependencies", DependencyAnalyzerService.Group [("b", "^1.0.0"); ("c", "")]);
     ("devDependencies",
       DependencyAnalyzerService.Group [("a", "1.0.0"); ("b", "^1.0.0")])] in
  let registry : NpmRegistryService.Registry := fun _ => None in
  ~ ManifestSpec.orderAsStated registry packageJson "17"
  /\ ~ ManifestSpec.rewrittenAsStated registry packageJson "17"
  /\ DependencyAnalyzerService.updated
       (DependencyAnalyzerService.analyze registry packageJson "17")
     = [("name", DependencyAnalyzerService.Other "app");
        ("dependencies", DependencyAnalyzerService.Group [("b", "^1.0.0")]);
        ("devDependencies",
          DependencyAnalyzerService.Group [("b", "^1.0.0"); ("a", "^1.0.0")])].
Proof.
  intros packageJson registry. split; [|split; [|reflexivity]].
  - intros [_ H].
    specialize (H "devDependencies" [("a", "1.0.0"); ("b", "^1.0.0")]
                  [("b", "^1.0.0"); ("a", "^1.0.0")]
                  (or_intror eq_refl) eq_refl eq_refl).
    discriminate H.
  - intro H.
    destruct (H (ManifestSpec.entryOf registry packageJson "17" "c")
                "dependencies" [("b", "^1.0.0"); ("c", "")])
      as (deps' & Hg & Hc).
    + vm_compute. auto.
    + now left.
    + reflexivity.
    + vm_compute. auto.
    + vm_compute in Hg. injection Hg as <-. discriminate Hc.
Qed.

(** C9 (amended) -- Manifest emission frame property.  For every input
    manifest with distinct keys: each dependency has one analysis entry;
    every dependency that a group declares with a non-empty constraint has
    its constraint in that group of the updated manifest rewritten to
    ["^<recommendedVersion>"] of its entry, in [dependencies] and in
    [devDependencies] alike, and the entries of that group come in the
    order of the analysis list; every manifest field other than the two
    groups is copied through unchanged; and the fields of the manifest keep
    their order, a group that the input lacks being added after them. *)
Theorem manifest_emission (registry : NpmRegistryService.Registry)
    (packageJson : DependencyAnalyzerService.PackageJson)
    (targetAngularVersion : string) :
  NoDup (JS.keys packageJson) ->
  let result := DependencyAnalyzerService.analyze registry packageJson targetAngularVersion in
  let entryOf := ManifestSpec.entryOf registry packageJson targetAngularVersion in
  let names := map DependencyAnalyzerService.name (DependencyAnalyzerService.analysis result) in
  (NoDup names
   /\ DependencyAnalyzerService.analysis result = map entryOf names)
  /\ (forall group deps name constraint,
        ManifestSpec.isGroupName group ->
        DependencyAnalyzerService.groupOf group packageJson = Some deps ->
        JS.getProp name deps = Some constraint ->
        constraint <> EmptyString ->
        In name names
        /\ exists deps',
             DependencyAnalyzerService.groupOf group
               (DependencyAnalyzerService.updated result) = Some deps'
             /\ JS.getProp name deps'
                = Some ("^" ++ DependencyAnalyzerService.recommendedVersion (entryOf name))%string
             /\ JS.keys deps'
                = filter (DependencyAnalyzerService.declaredIn (Some deps)) names)
  /\ (forall k,
        ~ ManifestSpec.isGroupName k ->
        JS.getProp k (DependencyAnalyzerService.updated result) = JS.getProp k packageJson)
  /\ exists added,
       JS.keys (DependencyAnalyzerService.updated result) = JS.keys packageJson ++ added
       /\ forall k, In k added ->
                    ManifestSpec.isGroupName k /\ ~ In k (JS.keys packageJson).
Proof.
  intros Hnd result entryOf names.
  pose proof (ManifestFacts.NoDup_allDeps packageJson) as Hall.
  assert (Han : DependencyAnalyzerService.analysis result
                = map entryOf (JS.keys (DependencyAnalyzerService.allDepsOf packageJson))).
  { apply AnalyzerFacts.analysis_analyze. }
  assert (Hnames : names = JS.keys (DependencyAnalyzerService.allDepsOf packageJson)).
  { unfold names. rewrite Han. apply ManifestFacts.names_entries. }
  split; [split; [now rewrite Hnames | now rewrite Hnames]|].
  split; [|split].
  - (* rewritten *)
    intros group deps n constraint Hgroup Hg Hget Hne.
    assert (Hin : In n names).
    { rewrite Hnames. apply (ManifestFacts.group_in_allDeps _ group deps); auto.
      apply ObjectFacts.getProp_In. eauto. }
    split; [exact Hin|].
    assert (Hdecl : DependencyAnalyzerService.declaredIn (Some deps) n = true)
      by (eapply ManifestFacts.declaredIn_true; eauto).
    assert (Hres : result
                   = DependencyAnalyzerService.buildResult packageJson
                       (DependencyAnalyzerService.analysis result)).
    { rewrite Han. unfold result, DependencyAnalyzerService.analyze.
      rewrite Hnames in Hin.
      destruct (JS.keys (DependencyAnalyzerService.allDepsOf packageJson));
        [destruct Hin|reflexivity]. }
    assert (Hlook : JS.getProp n
                      (DependencyAnalyzerService.rewriteGroup (Some deps)
                         (DependencyAnalyzerService.analysis result))
                    = Some ("^" ++ DependencyAnalyzerService.recommendedVersion (entryOf n))%string).
    { rewrite ManifestFacts.rewriteGroup_fold.
      apply (ManifestFacts.fold_step_declared (Some deps) _ [] (entryOf n)).
      - fold names. now rewrite Hnames.
      - rewrite Han. apply in_map. now rewrite <- Hnames.
      - exact Hdecl. }
    exists (DependencyAnalyzerService.rewriteGroup (Some deps)
              (DependencyAnalyzerService.analysis result)).
    split; [|split].
    + rewrite Hres at 1. apply ManifestFacts.updated_group; auto.
      intro E. rewrite E in Hlook. discriminate Hlook.
    + exact Hlook.
    + rewrite ManifestFacts.rewriteGroup_fold, ManifestFacts.fold_step_keys; auto.
      simpl. fold names. now rewrite Hnames.
  - (* frame *)
    intros k Hk. unfold result, DependencyAnalyzerService.analyze.
    destruct (JS.keys (DependencyAnalyzerService.allDepsOf packageJson)); [reflexivity|].
    unfold DependencyAnalyzerService.buildResult. cbn [DependencyAnalyzerService.updated].
    rewrite !ObjectFacts.getProp_setProp_other.
    + now rewrite ObjectFacts.assign_nil.
    + intros ->. apply Hk. now left.
    + intros ->. apply Hk. now right.
  - (* order *)
    unfold result, DependencyAnalyzerService.analyze.
    destruct (JS.keys (DependencyAnalyzerService.allDepsOf packageJson)).
    + exists []. split; [now rewrite app_nil_r|intros k []].
    + unfold DependencyAnalyzerService.buildResult. cbn [DependencyAnalyzerService.updated].
      rewrite ObjectFacts.assign_nil by assumption.
      rewrite !ObjectFacts.keys_setProp, <- app_assoc.
      eexists. split; [reflexivity|].
      intros k Hk. apply in_app_iff in Hk as [Hk|Hk].
      * destruct (in_dec string_dec "dependencies" (JS.keys packageJson)); [destruct Hk|].
        destruct Hk as [<-|[]]. split; [now left|assumption].
      * destruct (in_dec string_dec "devDependencies" _) as [|Hn]; [destruct Hk|].
        destruct Hk as [<-|[]]. split; [now right|].
        intro Hin. apply Hn. apply in_app_iff. now left.
Qed.

(** The theorem above at a manifest with one dependency and a registry that
    knows it. *)
Lemma manifest_emission_witness :
  let packageJson : DependencyAnalyzerService.PackageJson :=
    [("name", DependencyAnalyzerService.Other "app");
     ("dependencies", DependencyAnalyzerService.Group [("rxjs", "~7.5.0")]);
     ("scripts", DependencyAnalyzerService.Other "{}")] in
  let noPeer := {| NpmRegistryService.peerDependencies := None |} in
  let registry : NpmRegistryService.Registry := fun packageName =>
    Some {| NpmRegistryService.name := packageName;
            NpmRegistryService.versions := [("7.5.0", noPeer); ("7.8.1", noPeer)];
            NpmRegistryService.dist_tags_latest := Some "7.8.1";
            NpmRegistryService.time := [] |} in
  let result := DependencyAnalyzerService.analyze registry packageJson "17" in
  NoDup (JS.keys packageJson)
  /\ JS.getProp "scripts" (DependencyAnalyzerService.updated result)
     = Some (DependencyAnalyzerService.Other "{}")
  /\ exists deps',
       DependencyAnalyzerService.groupOf "dependencies"
         (DependencyAnalyzerService.updated result) = Some deps'
       /\ JS.getProp "rxjs" deps' = Some "^7.8.1".
Proof.
  intros packageJson noPeer registry result.
  assert (Hnd : NoDup (JS.keys packageJson)).
  { repeat constructor; simpl; intuition discriminate. }
  destruct (manifest_emission registry packageJson "17" Hnd)
    as (_ & Hrewritten & Hframe & _).
  split; [exact Hnd|]. split.
  - rewrite Hframe; [reflexivity|]. intros [E|E]; discriminate E.
  - assert (Hc : "~7.5.0" <> EmptyString) by discriminate.
    destruct (Hrewritten "dependencies" [("rxjs", "~7.5.0")] "rxjs" "~7.5.0"
                (or_introl eq_refl) eq_refl eq_refl Hc)
      as (_ & deps' & Hg & Hget & _).
    exists deps'. split; [exact Hg|exact Hget].
Defined.

(** C10 -- Comparator antisymmetry and reflexivity.  For every pair of
    version strings [a], [b], [compare(a, b) = -compare(b, a)] and
    [compare(a, a) = 0], for the comparator of NpmRegistryService and for
    the one of DependencyAnalyzerService. *)
Theorem compare_antisymmetric_reflexive (a b : string) :
  (NpmRegistryService.compareVersions a b = - NpmRegistryService.compareVersions b a
   /\ NpmRegistryService.compareVersions a a = 0)
  /\ (DependencyAnalyzerService.compareVersions a b
        = - DependencyAnalyzerService.compareVersions b a
      /\ DependencyAnalyzerService.compareVersions a a = 0).
Proof.
  split; split.
  - apply RegistryComparator.compareVersions_antisym.
  - apply RegistryComparator.compareVersions_refl.
  - apply AnalyzerComparator.number_compareVersions_antisym.
  - apply AnalyzerComparator.number_compareVersions_refl.
Qed.


(* ===================================================================== *)
(** ** Further lemmas                                                     *)
(* ===================================================================== *)

(* --------------------------------------------------------------------- *)
(** *** Splitting on one character *)
(* --------------------------------------------------------------------- *)

Module SplitFacts.
Import JS JSText.

Lemma prefix_sep (c d : ascii) (r : string) :
  String.prefix (sepOf c) (String d r) = Ascii.eqb c d.
Proof.
  unfold sepOf. cbn [String.prefix]. destruct (ascii_dec c d) as [E|H].
  - subst d. rewrite Ascii.eqb_refl. now destruct r.
  - symmetry. apply Ascii.eqb_neq. exact H.
Qed.

Lemma split_cons (c d : ascii) (r : string) :
  split (sepOf c) (String d r)
  = if Ascii.eqb c d then EmptyString :: split (sepOf c) r
    else consHead d (split (sepOf c) r).
Proof.
  unfold split. cbn [splitFrom]. now rewrite prefix_sep.
Qed.

Lemma split_nonempty (c : ascii) (s : string) : split (sepOf c) s <> [].
Proof.
  destruct s as [|d r]; [discriminate|]. rewrite split_cons.
  destruct (Ascii.eqb c d); [discriminate|].
  destruct (split (sepOf c) r); discriminate.
Qed.

Lemma split_length (c : ascii) (s : string) :
  List.length (split (sepOf c) s) = S (occurrences c s).
Proof.
  induction s as [|d r IH]; [reflexivity|].
  rewrite split_cons. simpl. destruct (Ascii.eqb c d); simpl.
  - now rewrite IH.
  - pose proof (split_nonempty c r).
    destruct (split (sepOf c) r); [contradiction|]. simpl in *. exact IH.
Qed.

Lemma split_free (c : ascii) (s : string) : free c s = true -> split (sepOf c) s = [s].
Proof.
  induction s as [|d r IH]; [reflexivity|].
  unfold free. simpl. intros [Hd Hr]%andb_prop.
  rewrite split_cons. apply negb_true_iff in Hd. rewrite Hd.
  unfold free in IH. now rewrite (IH Hr).
Qed.

Lemma split_pieces_free (c : ascii) (s : string) :
  Forall (fun piece => free c piece = true) (split (sepOf c) s).
Proof.
  induction s as [|d r IH]; [repeat constructor|].
  rewrite split_cons. destruct (Ascii.eqb c d) eqn:E.
  - constructor; auto.
  - pose proof (split_nonempty c r).
    destruct (split (sepOf c) r) as [|h t]; [contradiction|]. simpl.
    inversion IH; subst. constructor; auto.
    unfold free in *. simpl. now rewrite E.
Qed.

Lemma split_app (c : ascii) (a b : string) :
  split (sepOf c) (a ++ sepOf c ++ b)%string
  = split (sepOf c) a ++ split (sepOf c) b.
Proof.
  induction a as [|d r IH].
  - simpl. change (String c b) with (String c b).
    rewrite split_cons, Ascii.eqb_refl. reflexivity.
  - cbn [String.append]. rewrite !split_cons, IH.
    destruct (Ascii.eqb c d); [reflexivity|].
    pose proof (split_nonempty c r).
    now destruct (split (sepOf c) r).
Qed.

Lemma join_cons (sep x : string) (l : list string) :
  l <> [] -> JSText.join sep (x :: l) = (x ++ sep ++ JSText.join sep l)%string.
Proof. destruct l; [congruence|reflexivity]. Qed.

Lemma join_consHead (sep : string) (d : ascii) (l : list string) :
  l <> [] -> JSText.join sep (consHead d l) = String d (JSText.join sep l).
Proof. destruct l as [|h [|y t]]; [congruence|reflexivity|reflexivity]. Qed.

Lemma join_split (c : ascii) (s : string) :
  JSText.join (sepOf c) (split (sepOf c) s) = s.
Proof.
  induction s as [|d r IH]; [reflexivity|].
  rewrite split_cons. pose proof (split_nonempty c r) as Hne.
  destruct (Ascii.eqb_spec c d) as [->|H].
  - rewrite join_cons by assumption. simpl. now rewrite IH.
  - rewrite join_consHead by assumption. now rewrite IH.
Qed.

Lemma split_join (c : ascii) (pieces : list string) :
  pieces <> [] -> Forall (fun piece => free c piece = true) pieces ->
  split (sepOf c) (JSText.join (sepOf c) pieces) = pieces.
Proof.
  induction pieces as [|x r IH]; [congruence|].
  intros _ H. inversion H as [|? ? Hx Hr]; subst.
  destruct r as [|y r].
  - simpl. now apply split_free.
  - rewrite join_cons by discriminate.
    rewrite split_app, (split_free c x Hx), IH; auto. discriminate.
Qed.

End SplitFacts.

(* --------------------------------------------------------------------- *)
(** *** Components of a version *)
(* --------------------------------------------------------------------- *)

Module VersionFacts.
Import JS JSText SplitFacts NpmRegistryService.

Lemma dot_sep : "."%string = sepOf "."%char.
Proof. reflexivity. Qed.

Lemma parts_head (v : string) :
  exists rest, parts v = orZero (majorOf v) :: rest.
Proof.
  unfold parts, majorOf, firstComponent. rewrite dot_sep.
  pose proof (split_nonempty "."%char v) as H.
  destruct (split (sepOf ".") v) as [|h t]; [contradiction|].
  simpl. eauto.
Qed.

Lemma parts_app (a b : string) :
  parts (a ++ "." ++ b)%string = parts a ++ parts b.
Proof.
  unfold parts. rewrite dot_sep, split_app. apply map_app.
Qed.

Lemma parts_free (c : string) : free "."%char c = true -> parts c = [orZero (parseInt c)].
Proof.
  intro H. unfold parts. rewrite dot_sep, (split_free _ _ H). reflexivity.
Qed.

Lemma firstComponent_app (a b : string) :
  firstComponent (a ++ "." ++ b)%string = firstComponent a.
Proof.
  unfold firstComponent. rewrite dot_sep, split_app.
  pose proof (split_nonempty "."%char a) as H.
  now destruct (split (sepOf ".") a).
Qed.

Lemma firstComponent_free (c : string) : free "."%char c = true -> firstComponent c = c.
Proof.
  intro H. unfold firstComponent. rewrite dot_sep, (split_free _ _ H). reflexivity.
Qed.

(** The loop reads its arrays only through [parts[i] || 0]. *)
Lemma compareFrom_ext (p1 p1' p2 p2' : list Z) (n i : nat) :
  (forall j, orZero (nth_error p1 j) = orZero (nth_error p1' j)) ->
  (forall j, orZero (nth_error p2 j) = orZero (nth_error p2' j)) ->
  compareFrom p1 p2 n i = compareFrom p1' p2' n i.
Proof.
  intros H1 H2. revert i. induction n as [|n IH]; intro i; simpl; auto.
  now rewrite H1, H2, IH.
Qed.

Lemma nth_app_zero (p : list Z) (j : nat) :
  orZero (nth_error (p ++ [0]) j) = orZero (nth_error p j).
Proof.
  revert j. induction p as [|x p IH]; intro j.
  - destruct j as [|[|j]]; reflexivity.
  - destruct j; simpl; auto.
Qed.

Lemma compareFrom_zero_left (p1 p2 : list Z) (n : nat) :
  (List.length p1 <= n)%nat -> (List.length p2 <= n)%nat ->
  compareFrom (p1 ++ [0]) p2 (S n) O = compareFrom p1 p2 n O.
Proof.
  intros H1 H2.
  rewrite (compareFrom_ext (p1 ++ [0]) p1 p2 p2 (S n) O (nth_app_zero p1) (fun _ => eq_refl)).
  replace (S n) with (n + 1)%nat by lia.
  apply RegistryComparator.compareFrom_more; lia.
Qed.

(** A trailing component that counts as 0 does not change the comparison. *)
Lemma compare_zero_component_left (v c w : string) :
  free "."%char c = true -> orZero (parseInt c) = 0 ->
  compareVersions (v ++ "." ++ c)%string w = compareVersions v w.
Proof.
  intros Hfree Hzero.
  set (n := Nat.max (List.length (parts v)) (List.length (parts w))).
  rewrite (RegistryComparator.compareVersions_bound v w n) by (unfold n; lia).
  rewrite (RegistryComparator.compareVersions_bound _ w (S n)).
  - rewrite parts_app, (parts_free c Hfree), Hzero.
    apply compareFrom_zero_left; unfold n; lia.
  - rewrite parts_app, length_app, (parts_free c Hfree). simpl. unfold n. lia.
  - unfold n. lia.
Qed.

(** The first components decide when they differ. *)
Lemma compare_major_gt (a b : string) :
  orZero (majorOf b) < orZero (majorOf a) -> compareVersions a b = 1.
Proof.
  intro H. unfold compareVersions.
  destruct (parts_head a) as (ra & Ea), (parts_head b) as (rb & Eb).
  rewrite Ea, Eb. simpl.
  destruct (Z.ltb_spec (orZero (majorOf a)) (orZero (majorOf b))); [lia|].
  destruct (Z.gtb_spec (orZero (majorOf a)) (orZero (majorOf b))); [reflexivity|lia].
Qed.

End VersionFacts.

(* --------------------------------------------------------------------- *)
(** *** The framework-core resolver *)
(* --------------------------------------------------------------------- *)

Module FrameworkFacts.
Import JS JSText SplitFacts NpmRegistryService FrameworkSpec.

Lemma hasMajor_iff (target : Z) (v : string) :
  hasMajor target v = true <-> majorOf v = Some target.
Proof.
  unfold hasMajor. destruct (majorOf v) as [m|]; [|split; discriminate].
  rewrite Z.eqb_eq. split; [now intros ->|now intros [= ->]].
Qed.

Lemma findBest_unfold (versions : list string) (target : Z) (current : string) :
  findBestAngularVersion versions (numberToString target) current
  = match sortVersionsDescending (candidates versions target current) with
    | best :: _ => best
    | [] => if majorExceeds target current then current
            else (numberToString target ++ ".0.0")%string
    end.
Proof.
  unfold findBestAngularVersion, candidates, majorExceeds.
  rewrite JSFacts.parseInt_numberToString.
  assert (F : filter (fun v => numEq (majorOf v) (Some target)) versions
              = filter (hasMajor target) versions).
  { apply filter_ext. intro v. unfold hasMajor, numEq. now destruct (majorOf v). }
  rewrite F. destruct (isPreReleaseVersion current); simpl; [reflexivity|].
  fold stable. destruct (filter stable _); reflexivity.
Qed.

Lemma candidates_listed (versions : list string) (target : Z) (current v : string) :
  In v (candidates versions target current) ->
  In v versions /\ majorOf v = Some target.
Proof.
  unfold candidates. intro H.
  assert (G : In v (filter (hasMajor target) versions)).
  { destruct (isPreReleaseVersion current); auto.
    destruct (filter stable (filter (hasMajor target) versions)) eqn:E; auto.
    rewrite <- E in H. now apply filter_In in H. }
  apply filter_In in G as [G1 G2]. split; auto. now apply hasMajor_iff.
Qed.

Lemma candidates_nonempty (versions : list string) (target : Z) (current v : string) :
  In v versions -> majorOf v = Some target ->
  candidates versions target current <> [].
Proof.
  intros Hin Hm. unfold candidates.
  assert (G : In v (filter (hasMajor target) versions)).
  { apply filter_In. split; auto. now apply hasMajor_iff. }
  destruct (isPreReleaseVersion current).
  - intro E. rewrite E in G. destruct G.
  - destruct (filter stable _) eqn:E; [|discriminate].
    intro E'. rewrite E' in G. destruct G.
Qed.

Lemma candidates_stable (versions : list string) (target : Z) (current v u : string) :
  isPreReleaseVersion current = false ->
  In v versions -> majorOf v = Some target -> isPreReleaseVersion v = false ->
  In u (candidates versions target current) -> isPreReleaseVersion u = false.
Proof.
  intros Hcur Hin Hm Hv Hu. unfold candidates in Hu. rewrite Hcur in Hu.
  assert (G : In v (filter stable (filter (hasMajor target) versions))).
  { apply filter_In. split.
    - apply filter_In. split; auto. now apply hasMajor_iff.
    - unfold stable. now rewrite Hv. }
  destruct (filter stable (filter (hasMajor target) versions)) eqn:E; [destruct G|].
  rewrite <- E in Hu. apply filter_In in Hu as [_ Hs].
  unfold stable in Hs. now apply negb_true_iff in Hs.
Qed.

Lemma current_candidate (versions : list string) (target : Z) (current : string) :
  In current versions -> majorOf current = Some target ->
  In current (candidates versions target current).
Proof.
  intros Hin Hm. unfold candidates.
  assert (G : In current (filter (hasMajor target) versions)).
  { apply filter_In. split; auto. now apply hasMajor_iff. }
  destruct (isPreReleaseVersion current) eqn:Hpre; auto.
  assert (S : In current (filter stable (filter (hasMajor target) versions))).
  { apply filter_In. split; auto. unfold stable. now rewrite Hpre. }
  destruct (filter stable _); [destruct S|exact S].
Qed.

(** The head of the sort, when there are candidates. *)
Lemma findBest_head (versions : list string) (target : Z) (current : string) :
  candidates versions target current <> [] ->
  let result := findBestAngularVersion versions (numberToString target) current in
  In result (candidates versions target current)
  /\ forall v, In v (candidates versions target current) ->
               0 <= compareVersions result v.
Proof.
  intros Hne result. unfold result. rewrite findBest_unfold.
  destruct (RegistrySort.sortVersionsDescending_nonempty _ Hne) as (best & rest & Hs).
  rewrite Hs. now apply RegistrySort.sortVersionsDescending_head with rest.
Qed.

Lemma digits_dot_free (s : string) :
  allChars isDigit s = true -> free "."%char s = true.
Proof.
  unfold free. induction s as [|c r IH]; [reflexivity|].
  cbn [allChars]. intros [Hc Hr]%andb_prop. apply andb_true_intro. split.
  - destruct c as [[] [] [] [] [] [] [] []]; try discriminate Hc; reflexivity.
  - exact (IH Hr).
Qed.

Lemma numberToString_dot_free (n : Z) : free "."%char (numberToString n) = true.
Proof.
  unfold numberToString. destruct (n <? 0) eqn:E.
  - destruct (JSFacts.digitsOf_value (S (Z.to_nat (- n))) (- n)) as (_ & Hall & _).
    { apply Z.ltb_lt in E. lia. }
    unfold free. simpl. apply digits_dot_free in Hall. exact Hall.
  - destruct (JSFacts.digitsOf_value (S (Z.to_nat n)) n) as (_ & Hall & _).
    { apply Z.ltb_ge in E. lia. }
    now apply digits_dot_free.
Qed.

Lemma majorOf_synthesized (n : Z) :
  majorOf (numberToString n ++ ".0.0")%string = Some n.
Proof.
  unfold majorOf.
  change (numberToString n ++ ".0.0")%string
    with (numberToString n ++ "." ++ "0.0")%string.
  rewrite VersionFacts.firstComponent_app.
  rewrite VersionFacts.firstComponent_free by apply numberToString_dot_free.
  apply JSFacts.parseInt_numberToString.
Qed.

End FrameworkFacts.

(* --------------------------------------------------------------------- *)
(** *** The ecosystem resolver and the peer-constraint reader *)
(* --------------------------------------------------------------------- *)

Module ResolverFacts.
Import JS NpmRegistryService EcosystemSpec.

Lemma candidate_listed (info : NpmPackageInfo) (target : string) (allowPre : bool)
    (v : string) :
  In v (findVersionsCompatibleWithAngular info target allowPre) ->
  In v (keys (versions info))
  /\ (allowPre = false -> isPreReleaseVersion v = false)
  /\ exists data, In (v, data) (versions info)
       /\ admitted (parseInt target) allowPre (v, data) = true.
Proof.
  unfold findVersionsCompatibleWithAngular.
  rewrite EcosystemFacts.compatibleEntries_filter, in_map_iff.
  intros ([v' data] & E & Hin). simpl in E. subst v'.
  apply filter_In in Hin as [Hin Hadm]. split; [|split].
  - unfold keys. apply in_map_iff. now exists (v, data).
  - intros ->. unfold admitted, preReleaseAdmitted in Hadm. simpl in Hadm.
    apply andb_prop in Hadm as [H _]. now apply negb_true_iff in H.
  - now exists data.
Qed.

Lemma latestOr_cases (info : NpmPackageInfo) (current : string) :
  dist_tags_latest info = Some (latestOr info current) \/ latestOr info current = current.
Proof.
  unfold latestOr. destruct (dist_tags_latest info) as [l|]; auto.
  destruct (truthy l); auto.
Qed.

Lemma fallback_cases (info : NpmPackageInfo) (current : string) :
  let fallback := fallbackVersion info current in
  (In fallback (keys (versions info)) /\ isPreReleaseVersion fallback = false)
  \/ (fallback = latestOr info current
      /\ (isPreReleaseVersion current = false ->
          isPreReleaseVersion fallback = true ->
          forall v, In v (keys (versions info)) -> isPreReleaseVersion v = true)).
Proof.
  unfold fallbackVersion.
  destruct (isPreReleaseVersion current) eqn:Hcur; simpl.
  - right. split; auto. discriminate.
  - destruct (isPreReleaseVersion (latestOr info current)) eqn:Hl.
    + set (stableVersions :=
             filter (fun v => negb (isPreReleaseVersion v)) (keys (versions info))).
      destruct (sortVersionsDescending stableVersions) as [|best rest] eqn:Hs.
      * right. split; auto. intros _ _ v Hv.
        apply sort_nil_inv in Hs.
        destruct (isPreReleaseVersion v) eqn:Hv'; auto.
        assert (In v stableVersions) by (apply filter_In; now rewrite Hv').
        rewrite Hs in H. destruct H.
      * left.
        destruct (RegistrySort.sortVersionsDescending_head _ _ _ Hs) as [Hin _].
        apply filter_In in Hin as [Hin Hst]. split; auto.
        now apply negb_true_iff in Hst.
    + right. split; auto. intros _ H. congruence.
Qed.

(** The ecosystem branch of [getBestVersion]. *)
Lemma ecosystem_unfold (info : NpmPackageInfo)
    (packageName targetAngularVersion currentVersion : string) :
  isAngularCore packageName = false ->
  let current := cleanVersion currentVersion in
  let candidates :=
    findVersionsCompatibleWithAngular info targetAngularVersion
      (isPreReleaseVersion current) in
  bestVersionOf info packageName targetAngularVersion currentVersion
  = match find (fun version => compareVersions version current >=? 0)
            (sortVersionsDescending candidates) with
    | Some version => version
    | None =>
        let latest := fallbackVersion info current in
        if compareVersions latest current >=? 0 then latest else current
    end.
Proof.
  intro H. unfold bestVersionOf. now rewrite H.
Qed.

Lemma anyPattern_NaN (patterns : list string) : anyPatternSatisfies None patterns = false.
Proof.
  induction patterns as [|p rest IH]; simpl; auto.
  destruct (matchDigits p); auto.
  destruct (includes ">=" p); auto.
  destruct (includes "^" p); auto.
  destruct (includes "~" p); auto.
Qed.

Lemma anyPattern_no_digits (target : option Z) (patterns : list string) :
  Forall (fun p => matchDigits p = None) patterns ->
  anyPatternSatisfies target patterns = false.
Proof.
  induction 1 as [|p rest Hp _ IH]; simpl; auto. now rewrite Hp.
Qed.

Section Chars.
Variable keep : ascii -> bool.

Lemma splitFrom_chars (sep : string) (skip : nat) (s : string) :
  allChars keep s = true ->
  Forall (fun piece => allChars keep piece = true) (splitFrom sep skip s).
Proof.
  revert skip. induction s as [|c r IH]; intros skip H.
  - repeat constructor.
  - simpl in H. apply andb_prop in H as [Hc Hr]. cbn [splitFrom].
    destruct skip as [|k]; [|now apply IH].
    destruct (String.prefix sep (String c r)).
    + constructor; [reflexivity|now apply IH].
    + specialize (IH O Hr). destruct (splitFrom sep O r) as [|h t]; simpl.
      * repeat constructor. simpl. now rewrite Hc.
      * inversion IH; subst. constructor; auto. simpl. now rewrite Hc.
Qed.

Lemma trimStart_chars (s : string) :
  allChars keep s = true -> allChars keep (trimStart s) = true.
Proof.
  induction s as [|c r IH]; simpl; auto.
  intros [Hc Hr]%andb_prop. destruct (isWhiteSpace c); auto.
  simpl. now rewrite Hc.
Qed.

Lemma trimEnd_chars (s : string) :
  allChars keep s = true -> allChars keep (trimEnd s) = true.
Proof.
  induction s as [|c r IH]; simpl; auto.
  intros [Hc Hr]%andb_prop. specialize (IH Hr).
  destruct (trimEnd r) as [|d t].
  - destruct (isWhiteSpace c); simpl; auto. now rewrite Hc.
  - simpl in *. now rewrite Hc.
Qed.

End Chars.

Lemma matchDigits_none (s : string) :
  allChars (fun c => negb (isDigit c)) s = true -> matchDigits s = None.
Proof.
  induction s as [|c r IH]; simpl; auto.
  intros [Hc Hr]%andb_prop. apply negb_true_iff in Hc. rewrite Hc. auto.
Qed.

End ResolverFacts.

(* --------------------------------------------------------------------- *)
(** *** Cleaning and classifying version strings *)
(* --------------------------------------------------------------------- *)

Module TextFacts.
Import JS JSText NpmRegistryService.

Lemma removeAll_clean (cls : ascii -> bool) (s : string) :
  allChars (fun c => negb (cls c)) (removeAll cls s) = true.
Proof.
  induction s as [|c r IH]; simpl; auto.
  destruct (cls c) eqn:E; simpl; auto. now rewrite E.
Qed.

Lemma removeAll_id (cls : ascii -> bool) (s : string) :
  allChars (fun c => negb (cls c)) s = true -> removeAll cls s = s.
Proof.
  induction s as [|c r IH]; simpl; auto.
  intros [Hc Hr]%andb_prop. apply negb_true_iff in Hc. rewrite Hc, IH; auto.
Qed.

Lemma removeAll_app (cls : ascii -> bool) (s t : string) :
  removeAll cls (s ++ t) = (removeAll cls s ++ removeAll cls t)%string.
Proof.
  induction s as [|c r IH]; simpl; auto.
  destruct (cls c); simpl; now rewrite IH.
Qed.

Lemma toLowerCase_app (s t : string) :
  toLowerCase (s ++ t) = (toLowerCase s ++ toLowerCase t)%string.
Proof.
  induction s as [|c r IH]; simpl; auto. now rewrite IH.
Qed.

Lemma prefix_app (p s t : string) :
  String.prefix p s = true -> String.prefix p (s ++ t) = true.
Proof.
  revert s. induction p as [|c p IH]; intros s H; [now destruct s, t|].
  destruct s as [|d s]; [discriminate|]. simpl in *.
  destruct (ascii_dec c d); [auto|discriminate].
Qed.

Lemma includes_app_r (p s t : string) :
  includes p s = true -> includes p (s ++ t) = true.
Proof.
  induction s as [|c r IH]; simpl.
  - rewrite orb_false_r. intro H. destruct p; [|discriminate].
    destruct t; reflexivity.
  - intros [H|H]%orb_prop.
    + apply orb_true_iff. left. exact (prefix_app p (String c r) t H).
    + apply orb_true_iff. right. auto.
Qed.

Lemma includes_app_l (p s t : string) :
  includes p t = true -> includes p (s ++ t) = true.
Proof.
  intro H. induction s as [|c r IH]; simpl; auto.
  apply orb_true_iff. now right.
Qed.

(** A string that includes a non-empty pattern contains its first character. *)
Lemma includes_first (c : ascii) (p s : string) :
  includes (String c p) s = true -> free c s = false.
Proof.
  unfold free. induction s as [|d r IH]; simpl; [discriminate|].
  destruct (ascii_dec c d) as [->|Hne].
  - intros _. now rewrite Ascii.eqb_refl.
  - simpl. intro H. rewrite (IH H). apply andb_false_r.
Qed.

Lemma numeric_lower_free (c : ascii) (s : string) :
  numericChar c = false -> allChars numericChar s = true ->
  free c (toLowerCase s) = true.
Proof.
  intros Hc. unfold free. induction s as [|d r IH]; [reflexivity|].
  cbn [allChars toLowerCase]. intros [Hd Hr]%andb_prop.
  apply andb_true_intro. split; [|exact (IH Hr)].
  assert (L : lowerChar d = d).
  { destruct d as [[] [] [] [] [] [] [] []]; try discriminate Hd; reflexivity. }
  rewrite L. apply negb_true_iff. apply Ascii.eqb_neq. intros ->. congruence.
Qed.

Lemma numeric_excludes (c : ascii) (p s : string) :
  numericChar c = false -> allChars numericChar s = true ->
  includes (String c p) (toLowerCase s) = false.
Proof.
  intros Hc Hs. destruct (includes (String c p) (toLowerCase s)) eqn:E; auto.
  apply includes_first in E. now rewrite (numeric_lower_free c s Hc Hs) in E.
Qed.

End TextFacts.

(* --------------------------------------------------------------------- *)
(** *** The batch: merged dependencies, summary, rewritten groups *)
(* --------------------------------------------------------------------- *)

Module BatchFacts.
Import JS JSText DependencyAnalyzerService.

Lemma absent_iff (l : list string) (k : string) : absent l k = true <-> ~ In k l.
Proof.
  unfold absent. rewrite negb_true_iff. split.
  - intros H Hin. assert (E : existsb (String.eqb k) l = true).
    { apply existsb_exists. exists k. split; auto. apply String.eqb_refl. }
    congruence.
  - intro H. destruct (existsb (String.eqb k) l) eqn:E; auto.
    apply existsb_exists in E as (x & Hx & Hk). apply String.eqb_eq in Hk. now subst.
Qed.

(** The keys of [{...o, ...src}]: those of [o], then the new ones of [src]. *)
Lemma keys_assign {V : Type} (o src : list (string * V)) :
  NoDup (keys src) ->
  keys (assign o src) = keys o ++ filter (absent (keys o)) (keys src).
Proof.
  unfold assign. revert o. induction src as [|[k v] r IH]; intros o Hnd; simpl.
  - now rewrite app_nil_r.
  - inversion Hnd as [|? ? Hk Hr]; subst. rewrite IH by assumption.
    rewrite ObjectFacts.keys_setProp.
    assert (F : filter (absent (keys o ++ (if in_dec string_dec k (keys o) then [] else [k])))
                  (keys r)
                = filter (absent (keys o)) (keys r)).
    { apply filter_ext_in. intros x Hx. apply eq_iff_eq_true.
      rewrite !absent_iff, in_app_iff. split.
      - intros Hn Hin. apply Hn. now left.
      - intros Hn [Hin|Hin]; [contradiction|].
        destruct (in_dec string_dec k (keys o)); [destruct Hin|].
        destruct Hin as [<-|[]]. contradiction. }
    rewrite F. destruct (in_dec string_dec k (keys o)) as [Hin|Hin].
    + rewrite app_nil_r.
      assert (A : absent (keys o) k = false).
      { destruct (absent (keys o) k) eqn:E; auto. apply absent_iff in E. contradiction. }
      now rewrite A.
    + assert (A : absent (keys o) k = true) by now apply absent_iff.
      rewrite A, <- app_assoc. reflexivity.
Qed.

Lemma allDeps_keys (packageJson : PackageJson) :
  NoDup (keys (spread (groupOf "dependencies" packageJson))) ->
  NoDup (keys (spread (groupOf "devDependencies" packageJson))) ->
  keys (allDepsOf packageJson)
  = keys (spread (groupOf "dependencies" packageJson))
    ++ filter (absent (keys (spread (groupOf "dependencies" packageJson))))
         (keys (spread (groupOf "devDependencies" packageJson))).
Proof.
  intros H1 H2. unfold allDepsOf.
  rewrite keys_assign by assumption.
  now rewrite ObjectFacts.assign_nil by assumption.
Qed.

Lemma analysis_names (registry : NpmRegistryService.Registry) (packageJson : PackageJson)
    (targetAngularVersion : string) :
  map name (analysis (analyze registry packageJson targetAngularVersion))
  = keys (allDepsOf packageJson).
Proof.
  rewrite AnalyzerFacts.analysis_analyze, map_map. simpl. apply map_id.
Qed.

Lemma count_risk (analyses : list DependencyAnalysis) :
  (count (fun a => Risk_eqb (risk a) low) analyses
   + count (fun a => Risk_eqb (risk a) medium) analyses
   + count (fun a => Risk_eqb (risk a) high) analyses
   = List.length analyses)%nat.
Proof.
  unfold count. induction analyses as [|a r IH]; [reflexivity|].
  simpl. destruct (risk a); simpl; lia.
Qed.

Lemma count_le {A : Type} (p : A -> bool) (l : list A) :
  (count p l <= List.length l)%nat.
Proof. unfold count. apply filter_length_le. Qed.

Lemma count_none {A : Type} (p : A -> bool) (l : list A) :
  (forall x, In x l -> p x = false) -> count p l = O.
Proof.
  unfold count. induction l as [|x r IH]; intro H; [reflexivity|].
  simpl. rewrite (H x (or_introl eq_refl)). apply IH. intros y Hy. apply H. now right.
Qed.

Lemma filter_partition {A : Type} (p : A -> bool) (l : list A) :
  Permutation (filter p l ++ filter (fun x => negb (p x)) l) l.
Proof.
  induction l as [|x r IH]; [constructor|].
  simpl. destruct (p x); simpl.
  - now constructor.
  - rewrite <- Permutation_middle. now constructor.
Qed.

(** The names of [dependencies] that carry a non-empty constraint. *)
Lemma declared_keys (deps : Dependencies) :
  NoDup (keys deps) ->
  filter (declaredIn (Some deps)) (keys deps)
  = keys (filter (fun kv => truthy (snd kv)) deps).
Proof.
  induction deps as [|[k v] r IH]; intro H; [reflexivity|].
  inversion H as [|? ? Hk Hr]; subst. cbn [keys map fst filter snd].
  unfold Dependencies in *.
  assert (D : declaredIn (Some ((k, v) :: r)) k = truthy v).
  { unfold declaredIn. simpl. now rewrite String.eqb_refl. }
  assert (F : filter (declaredIn (Some ((k, v) :: r))) (keys r)
              = filter (declaredIn (Some r)) (keys r)).
  { apply filter_ext_in. intros x Hx. unfold declaredIn. simpl.
    destruct (String.eqb_spec x k) as [->|]; [contradiction|reflexivity]. }
  fold (keys r). rewrite D, F, (IH Hr).
  destruct (truthy v); reflexivity.
Qed.

Lemma undeclared_filter (deps : Dependencies) (l : list string) :
  (forall k, In k l -> ~ In k (keys deps)) ->
  filter (declaredIn (Some deps)) l = [].
Proof.
  induction l as [|k r IH]; intro H; [reflexivity|].
  cbn [filter]. assert (D : declaredIn (Some deps) k = false).
  { unfold declaredIn. rewrite ObjectFacts.getProp_None; auto. apply H. now left. }
  rewrite D. apply IH. intros x Hx. apply H. now right.
Qed.

(** The keys that [{...dependencies, ...devDependencies}] adds after those
    of [dependencies] are not among them. *)
Lemma allDeps_extends (packageJson : PackageJson) (deps : Dependencies) :
  groupOf "dependencies" packageJson = Some deps -> NoDup (keys deps) ->
  exists added,
    keys (allDepsOf packageJson) = keys deps ++ added
    /\ forall k, In k added -> ~ In k (keys deps).
Proof.
  intros Hg Hnd. unfold allDepsOf. rewrite Hg. cbn [spread].
  rewrite ObjectFacts.assign_nil by assumption.
  generalize (spread (groupOf "devDependencies" packageJson)). intro dev.
  clear Hg. unfold assign. revert deps Hnd.
  induction dev as [|[k v] r IH]; intros deps Hnd; simpl.
  - exists []. split; [now rewrite app_nil_r|intros k []].
  - destruct (IH (setProp k v deps) (ObjectFacts.NoDup_keys_setProp k v deps Hnd))
      as (added & E & Hadd).
    rewrite E, ObjectFacts.keys_setProp, <- app_assoc.
    eexists. split; [reflexivity|].
    intros x Hx Hin. apply in_app_iff in Hx as [Hx|Hx].
    + destruct (in_dec string_dec k (keys deps)); [destruct Hx|].
      destruct Hx as [<-|[]]. contradiction.
    + apply (Hadd x Hx). apply ObjectFacts.In_keys_setProp. now right.
Qed.

End BatchFacts.

(* --------------------------------------------------------------------- *)
(** *** The component *)
(* --------------------------------------------------------------------- *)

Module AppFacts.
Import JS JSText SplitFacts App.

Lemma lineFeed_sep : lineFeed = sepOf (ascii_of_nat 10).
Proof. reflexivity. Qed.

Lemma join_map_indent (sep : string) (l : list string) :
  l <> [] -> join sep (map indent l) = indent (join sep (mapTail indent l)).
Proof.
  destruct l as [|h [|y t]]; [congruence|reflexivity|reflexivity].
Qed.

Lemma mapTail_consHead (d : ascii) (l : list string) :
  l <> [] -> mapTail indent (consHead d l) = consHead d (mapTail indent l).
Proof. destruct l; [congruence|reflexivity]. Qed.

Lemma indentedValue_inserts (s : string) : indentedValue s = indentAfterLineFeeds s.
Proof.
  unfold indentedValue. rewrite lineFeed_sep.
  induction s as [|d r IH]; [reflexivity|].
  pose proof (split_nonempty (ascii_of_nat 10) r) as Hne.
  rewrite split_cons. cbn [indentAfterLineFeeds].
  destruct (Ascii.eqb_spec (ascii_of_nat 10) d) as [<-|Hd].
  - cbn [mapTail]. rewrite join_cons.
    + rewrite join_map_indent by assumption. rewrite IH. reflexivity.
    + destruct (split (sepOf (ascii_of_nat 10)) r); [congruence|discriminate].
  - rewrite mapTail_consHead by assumption. rewrite join_consHead.
    + now rewrite IH.
    + destruct (split (sepOf (ascii_of_nat 10)) r); [congruence|discriminate].
Qed.

Lemma occurrences_indent (s : string) :
  occurrences (ascii_of_nat 10) (indentAfterLineFeeds s) = occurrences (ascii_of_nat 10) s.
Proof.
  induction s as [|d r IH]; [reflexivity|]. cbn [indentAfterLineFeeds].
  destruct (Ascii.eqb (ascii_of_nat 10) d) eqn:E; cbn [occurrences]; rewrite E.
  - simpl. now rewrite IH.
  - exact IH.
Qed.

Lemma afterDigits_free (c : ascii) (s : string) :
  free c s = true -> free c (afterDigits s) = true.
Proof.
  unfold free. induction s as [|d r IH]; [reflexivity|].
  cbn [allChars afterDigits]. intros H. pose proof H as [Hd Hr]%andb_prop.
  destruct (isDigit d); auto.
Qed.

Lemma digitsDotAt_free (s : string) : free "."%char s = true -> digitsDotAt s = None.
Proof.
  intro H. unfold digitsDotAt. destruct (leadingDigits s); auto.
  pose proof (afterDigits_free _ _ H) as F.
  destruct (afterDigits s) as [|d t]; auto.
  unfold free in F. simpl in F. apply andb_prop in F as [Fd _].
  destruct d as [[] [] [] [] [] [] [] []]; try reflexivity; discriminate Fd.
Qed.

Lemma matchDigitsDot_free (s : string) : free "."%char s = true -> matchDigitsDot s = None.
Proof.
  induction s as [|d r IH]; intro H.
  - reflexivity.
  - cbn [matchDigitsDot]. rewrite (digitsDotAt_free _ H).
    apply IH. unfold free in *. simpl in H. now apply andb_prop in H as [_ H].
Qed.

Lemma leadingDigits_run (run rest : string) :
  allChars isDigit run = true ->
  leadingDigits (run ++ String "." rest) = run
  /\ afterDigits (run ++ String "." rest) = String "." rest.
Proof.
  induction run as [|c r IH]; intro H.
  - split; reflexivity.
  - simpl in H. apply andb_prop in H as [Hc Hr]. destruct (IH Hr) as [E1 E2].
    cbn [String.append leadingDigits afterDigits]. rewrite Hc, E1, E2. now split.
Qed.

Lemma matchDigitsDot_usual (ops run rest : string) :
  allChars (fun c => negb (isDigit c)) ops = true ->
  run <> EmptyString -> allChars isDigit run = true ->
  matchDigitsDot (ops ++ run ++ "." ++ rest) = Some run.
Proof.
  intros Hops Hne Hrun.
  change ("." ++ rest)%string with (String "." rest).
  induction ops as [|o r IH].
  - simpl. destruct (leadingDigits_run run rest Hrun) as [E1 E2].
    assert (D : digitsDotAt (run ++ String "." rest) = Some run).
    { unfold digitsDotAt. rewrite E1, E2. destruct run; [congruence|reflexivity]. }
    destruct (run ++ String "." rest)%string; cbn [matchDigitsDot]; now rewrite D.
  - simpl in Hops. apply andb_prop in Hops as [Ho Hr].
    cbn [String.append matchDigitsDot].
    assert (D : digitsDotAt (String o (r ++ run ++ String "." rest)) = None).
    { unfold digitsDotAt. cbn [leadingDigits]. apply negb_true_iff in Ho. now rewrite Ho. }
    rewrite D. auto.
Qed.

End AppFacts.

(* --------------------------------------------------------------------- *)
(** *** Sorting an array that is already sorted *)
(* --------------------------------------------------------------------- *)

Section SortedInput.
Context {A : Type}.
Variable cmp : A -> A -> Z.

Lemma sort_sorted_id (l : list A) :
  StronglySorted (before cmp) l -> JS.sort cmp l = l.
Proof.
  induction 1 as [|x r Hr IH Hx]; [reflexivity|].
  simpl. rewrite IH. destruct r as [|y r']; [reflexivity|].
  simpl. inversion Hx as [|? ? Hxy _]; subst. unfold before in Hxy.
  destruct (Z.ltb_spec 0 (cmp x y)); [lia|reflexivity].
Qed.

End SortedInput.

Module SortMore.
Import NpmRegistryService.

Lemma descending_before_trans (x y z : string) :
  before (fun a b => compareVersions b a) x y ->
  before (fun a b => compareVersions b a) y z ->
  before (fun a b => compareVersions b a) x z.
Proof.
  unfold before. intros Hxy Hyz.
  rewrite (RegistryComparator.compareVersions_antisym z x).
  rewrite (RegistryComparator.compareVersions_antisym y x) in Hxy.
  rewrite (RegistryComparator.compareVersions_antisym z y) in Hyz.
  pose proof (RegistryComparator.compareVersions_trans x y z). lia.
Qed.

Lemma sortVersionsDescending_sorted (l : list string) :
  StronglySorted (fun a b => 0 <= compareVersions a b) (sortVersionsDescending l).
Proof.
  assert (S : StronglySorted (before (fun a b => compareVersions b a))
                (sortVersionsDescending l)).
  { apply sort_sorted.
    - intros x y. apply RegistryComparator.compareVersions_antisym.
    - apply descending_before_trans. }
  induction S as [|x r Hr IH Hx]; constructor; auto.
  rewrite Forall_forall in *. intros y Hy. specialize (Hx y Hy).
  unfold before in Hx. rewrite RegistryComparator.compareVersions_antisym in Hx. lia.
Qed.

Lemma sortVersionsDescending_idem (l : list string) :
  sortVersionsDescending (sortVersionsDescending l) = sortVersionsDescending l.
Proof.
  apply sort_sorted_id. apply sort_sorted.
  - intros x y. apply RegistryComparator.compareVersions_antisym.
  - apply descending_before_trans.
Qed.

End SortMore.

(* ===================================================================== *)
(** ** Further properties of the code                                     *)
(* ===================================================================== *)

(** X1 -- The comparator of NpmRegistryService is a total preorder: any two
    versions are comparable, and "not below", "not above" and "equal" are
    transitive. *)
Theorem registry_compare_total_preorder (a b c : string) :
  (0 <= NpmRegistryService.compareVersions a b
   \/ 0 <= NpmRegistryService.compareVersions b a)
  /\ (0 <= NpmRegistryService.compareVersions a b ->
      0 <= NpmRegistryService.compareVersions b c ->
      0 <= NpmRegistryService.compareVersions a c)
  /\ (NpmRegistryService.compareVersions a b <= 0 ->
      NpmRegistryService.compareVersions b c <= 0 ->
      NpmRegistryService.compareVersions a c <= 0)
  /\ (NpmRegistryService.compareVersions a b = 0 ->
      NpmRegistryService.compareVersions b c = 0 ->
      NpmRegistryService.compareVersions a c = 0).
Proof.
  pose proof (RegistryComparator.compareVersions_antisym a b) as Hab.
  pose proof (RegistryComparator.compareVersions_antisym b c) as Hbc.
  pose proof (RegistryComparator.compareVersions_antisym a c) as Hac.
  pose proof (RegistryComparator.compareVersions_trans a b c) as T1.
  pose proof (RegistryComparator.compareVersions_trans c b a) as T2.
  rewrite (RegistryComparator.compareVersions_antisym c b) in T2.
  rewrite (RegistryComparator.compareVersions_antisym c a) in T2.
  repeat split; lia.
Qed.

(** X2 -- A trailing component that converts to 0, such as [0] or a label
    without leading digits, is invisible to the comparator of
    NpmRegistryService on either side. *)
Theorem registry_compare_trailing_zero (v c w : string) :
  JSText.free "."%char c = true ->
  JS.orZero (JS.parseInt c) = 0 ->
  NpmRegistryService.compareVersions (v ++ "." ++ c)%string w
  = NpmRegistryService.compareVersions v w
  /\ NpmRegistryService.compareVersions w (v ++ "." ++ c)%string
     = NpmRegistryService.compareVersions w v.
Proof.
  intros Hfree Hzero. split.
  - now apply VersionFacts.compare_zero_component_left.
  - rewrite RegistryComparator.compareVersions_antisym.
    rewrite (VersionFacts.compare_zero_component_left v c w Hfree Hzero).
    symmetry. apply RegistryComparator.compareVersions_antisym.
Qed.

(** The theorem above with the label [beta] after [17.1]. *)
Lemma registry_compare_trailing_zero_witness :
  JSText.free "."%char "beta" = true
  /\ JS.orZero (JS.parseInt "beta") = 0
  /\ NpmRegistryService.compareVersions "17.1.beta" "17.0.9"
     = NpmRegistryService.compareVersions "17.1" "17.0.9".
Proof.
  split; [reflexivity|]. split; [reflexivity|].
  exact (proj1 (registry_compare_trailing_zero "17.1" "beta" "17.0.9" eq_refl eq_refl)).
Defined.

(** X3 -- [sortVersionsDescending] returns a permutation of its input in
    which no version is below a later one, and sorting again changes
    nothing. *)
Theorem sortVersionsDescending_spec (versions : list string) :
  Permutation (NpmRegistryService.sortVersionsDescending versions) versions
  /\ StronglySorted (fun a b => 0 <= NpmRegistryService.compareVersions a b)
       (NpmRegistryService.sortVersionsDescending versions)
  /\ NpmRegistryService.sortVersionsDescending
       (NpmRegistryService.sortVersionsDescending versions)
     = NpmRegistryService.sortVersionsDescending versions.
Proof.
  split; [apply RegistrySort.sortVersionsDescending_perm|]. split.
  - apply SortMore.sortVersionsDescending_sorted.
  - apply SortMore.sortVersionsDescending_idem.
Qed.

(** X4 -- [cleanVersion] leaves no range operator, is the identity on a
    string without range operator, hence idempotent, and cleans a
    concatenation piece by piece; the copy in DependencyAnalyzerService
    computes the same string. *)
Theorem cleanVersion_spec (v w : string) :
  JS.allChars (fun c => negb (NpmRegistryService.rangeOperator c))
    (NpmRegistryService.cleanVersion v) = true
  /\ (JS.allChars (fun c => negb (NpmRegistryService.rangeOperator c)) v = true ->
      NpmRegistryService.cleanVersion v = v)
  /\ NpmRegistryService.cleanVersion (NpmRegistryService.cleanVersion v)
     = NpmRegistryService.cleanVersion v
  /\ NpmRegistryService.cleanVersion (v ++ w)
     = (NpmRegistryService.cleanVersion v ++ NpmRegistryService.cleanVersion w)%string
  /\ DependencyAnalyzerService.cleanVersion v = NpmRegistryService.cleanVersion v.
Proof.
  unfold NpmRegistryService.cleanVersion, DependencyAnalyzerService.cleanVersion.
  split; [apply TextFacts.removeAll_clean|]. split; [apply TextFacts.removeAll_id|].
  split; [apply TextFacts.removeAll_id, TextFacts.removeAll_clean|].
  split; [apply TextFacts.removeAll_app|reflexivity].
Qed.

(** X5 -- A pre-release keyword qualifies wherever it occurs: a string that
    contains a pre-release version string is classified pre-release. *)
Theorem isPreReleaseVersion_context (front version back : string) :
  NpmRegistryService.isPreReleaseVersion version = true ->
  NpmRegistryService.isPreReleaseVersion (front ++ version ++ back) = true.
Proof.
  unfold NpmRegistryService.isPreReleaseVersion. intro H.
  apply existsb_exists in H as (pattern & Hin & Hinc).
  apply existsb_exists. exists pattern. split; auto.
  rewrite !TextFacts.toLowerCase_app.
  apply TextFacts.includes_app_l, TextFacts.includes_app_r. exact Hinc.
Qed.

(** The theorem above with [next] inside a package file name. *)
Lemma isPreReleaseVersion_context_witness :
  NpmRegistryService.isPreReleaseVersion "0-NEXT.3" = true
  /\ NpmRegistryService.isPreReleaseVersion "19.0.0-NEXT.3+build" = true.
Proof.
  split; [reflexivity|].
  exact (isPreReleaseVersion_context "19.0." "0-NEXT.3" "+build" eq_refl).
Defined.

(** X6 -- A version made of digits and dots only is never classified
    pre-release. *)
Theorem numeric_version_is_stable (version : string) :
  JS.allChars JSText.numericChar version = true ->
  NpmRegistryService.isPreReleaseVersion version = false.
Proof.
  intro H. unfold NpmRegistryService.isPreReleaseVersion,
    NpmRegistryService.preReleasePatterns.
  cbn [existsb].
  rewrite !(TextFacts.numeric_excludes _ _ version) by (reflexivity || exact H).
  reflexivity.
Qed.

(** The theorem above at [19.0.0]. *)
Lemma numeric_version_is_stable_witness :
  JS.allChars JSText.numericChar "19.0.0" = true
  /\ NpmRegistryService.isPreReleaseVersion "19.0.0" = false.
Proof.
  split; [reflexivity|]. exact (numeric_version_is_stable "19.0.0" eq_refl).
Defined.

(** X7 -- When the registry lists a version of the target major,
    [findBestAngularVersion] returns a listed version of that major; when
    moreover the current version is stable and a stable version of the
    target major is listed, the result is stable. *)
Theorem framework_result_is_listed (versions : list string) (target : Z)
    (current v : string) :
  In v versions ->
  NpmRegistryService.majorOf v = Some target ->
  let result :=
    NpmRegistryService.findBestAngularVersion versions (JS.numberToString target) current in
  In result versions
  /\ NpmRegistryService.majorOf result = Some target
  /\ (NpmRegistryService.isPreReleaseVersion current = false ->
      NpmRegistryService.isPreReleaseVersion v = false ->
      NpmRegistryService.isPreReleaseVersion result = false).
Proof.
  intros Hin Hm result.
  pose proof (FrameworkFacts.candidates_nonempty versions target current v Hin Hm) as Hne.
  destruct (FrameworkFacts.findBest_head versions target current Hne) as [Hres _].
  fold result in Hres.
  destruct (FrameworkFacts.candidates_listed _ _ _ _ Hres) as [H1 H2].
  split; [exact H1|]. split; [exact H2|].
  intros Hcur Hv.
  exact (FrameworkFacts.candidates_stable versions target current v result
           Hcur Hin Hm Hv Hres).
Qed.

(** The theorem above with a release candidate of the target major listed
    after its stable versions. *)
Lemma framework_result_is_listed_witness :
  In "17.0.0" ["16.2.0"; "17.0.0"; "17.3.0"; "17.4.0-rc.0"]
  /\ NpmRegistryService.majorOf "17.0.0" = Some 17
  /\ NpmRegistryService.isPreReleaseVersion
       (NpmRegistryService.findBestAngularVersion
          ["16.2.0"; "17.0.0"; "17.3.0"; "17.4.0-rc.0"] (JS.numberToString 17) "16.2.0")
     = false.
Proof.
  assert (Hin : In "17.0.0" ["16.2.0"; "17.0.0"; "17.3.0"; "17.4.0-rc.0"])
    by (right; now left).
  split; [exact Hin|]. split; [reflexivity|].
  destruct (framework_result_is_listed
              ["16.2.0"; "17.0.0"; "17.3.0"; "17.4.0-rc.0"] 17 "16.2.0" "17.0.0"
              Hin eq_refl) as (_ & _ & Hst).
  exact (Hst eq_refl eq_refl).
Defined.

(** X8 -- No downgrade when upgrading: if the major of the current version
    (0 when it has none) is below the target major, the version returned by
    [findBestAngularVersion] compares above the current version, whatever
    the registry lists. *)
Theorem framework_upgrade_is_above (versions : list string) (target : Z)
    (current : string) :
  JS.orZero (NpmRegistryService.majorOf current) < target ->
  NpmRegistryService.compareVersions
    (NpmRegistryService.findBestAngularVersion versions (JS.numberToString target) current)
    current = 1.
Proof.
  intro H. apply VersionFacts.compare_major_gt.
  assert (Hm : NpmRegistryService.majorOf
                 (NpmRegistryService.findBestAngularVersion versions
                    (JS.numberToString target) current) = Some target).
  { destruct (FrameworkSpec.candidates versions target current) as [|c0 l] eqn:E.
    - rewrite FrameworkFacts.findBest_unfold, E. cbn [NpmRegistryService.sortVersionsDescending JS.sort].
      assert (X : FrameworkSpec.majorExceeds target current = false).
      { unfold FrameworkSpec.majorExceeds.
        destruct (NpmRegistryService.majorOf current) as [m|]; auto.
        simpl in H. rewrite Z.gtb_ltb. apply Z.ltb_ge. lia. }
      rewrite X. apply FrameworkFacts.majorOf_synthesized.
    - assert (Hne : FrameworkSpec.candidates versions target current <> [])
        by (rewrite E; discriminate).
      destruct (FrameworkFacts.findBest_head versions target current Hne) as [Hres _].
      now destruct (FrameworkFacts.candidates_listed _ _ _ _ Hres). }
  rewrite Hm. exact H.
Qed.

(** The theorem above for a project on 16.2.0 that targets 17 while the
    registry lists nothing. *)
Lemma framework_upgrade_is_above_witness :
  JS.orZero (NpmRegistryService.majorOf "16.2.0") < 17
  /\ NpmRegistryService.compareVersions
       (NpmRegistryService.findBestAngularVersion [] (JS.numberToString 17) "16.2.0")
       "16.2.0" = 1.
Proof.
  assert (H : JS.orZero (NpmRegistryService.majorOf "16.2.0") < 17) by reflexivity.
  split; [exact H|]. exact (framework_upgrade_is_above [] 17 "16.2.0" H).
Defined.

(** X9 -- No downgrade within the target major: if the registry lists the
    current version and its major is the target major, the version
    returned by [findBestAngularVersion] is not below it. *)
Theorem framework_listed_current_not_below (versions : list string) (target : Z)
    (current : string) :
  In current versions ->
  NpmRegistryService.majorOf current = Some target ->
  0 <= NpmRegistryService.compareVersions
         (NpmRegistryService.findBestAngularVersion versions
            (JS.numberToString target) current)
         current.
Proof.
  intros Hin Hm.
  pose proof (FrameworkFacts.current_candidate versions target current Hin Hm) as Hc.
  assert (Hne : FrameworkSpec.candidates versions target current <> []).
  { intro E. rewrite E in Hc. destruct Hc. }
  destruct (FrameworkFacts.findBest_head versions target current Hne) as [_ Hmax].
  exact (Hmax current Hc).
Qed.

(** The theorem above for a project already on 17.1.0. *)
Lemma framework_listed_current_not_below_witness :
  In "17.1.0" ["17.0.0"; "17.1.0"; "17.3.0"]
  /\ NpmRegistryService.majorOf "17.1.0" = Some 17
  /\ 0 <= NpmRegistryService.compareVersions
            (NpmRegistryService.findBestAngularVersion
               ["17.0.0"; "17.1.0"; "17.3.0"] (JS.numberToString 17) "17.1.0")
            "17.1.0".
Proof.
  assert (Hin : In "17.1.0" ["17.0.0"; "17.1.0"; "17.3.0"]) by (right; now left).
  split; [exact Hin|]. split; [reflexivity|].
  exact (framework_listed_current_not_below
           ["17.0.0"; "17.1.0"; "17.3.0"] 17 "17.1.0" Hin eq_refl).
Defined.

(** X10 -- The ecosystem resolver recommends a highest candidate: when some
    candidate is not below the cleaned current version, [getBestVersion]
    returns a candidate that no candidate exceeds, and that is not below
    the current version. *)
Theorem ecosystem_highest_candidate (registry : NpmRegistryService.Registry)
    (info : NpmRegistryService.NpmPackageInfo)
    (packageName targetAngularVersion currentVersion v : string) :
  registry packageName = Some info ->
  NpmRegistryService.isAngularCore packageName = false ->
  let current := NpmRegistryService.cleanVersion currentVersion in
  let candidates :=
    NpmRegistryService.findVersionsCompatibleWithAngular info targetAngularVersion
      (NpmRegistryService.isPreReleaseVersion current) in
  In v candidates ->
  0 <= NpmRegistryService.compareVersions v current ->
  exists best,
    NpmRegistryService.getBestVersion registry packageName targetAngularVersion
      currentVersion = Some best
    /\ In best candidates
    /\ (forall u, In u candidates -> 0 <= NpmRegistryService.compareVersions best u)
    /\ 0 <= NpmRegistryService.compareVersions best current.
Proof.
  intros Hreg Hcore current candidates Hin Hge.
  assert (Hne : candidates <> []) by (intro E; rewrite E in Hin; destruct Hin).
  destruct (RegistrySort.sortVersionsDescending_nonempty _ Hne) as (best & rest & Hs).
  destruct (RegistrySort.sortVersionsDescending_head _ _ _ Hs) as [Hbest Hmax].
  assert (Hb : 0 <= NpmRegistryService.compareVersions best current).
  { apply RegistryComparator.compareVersions_trans with v; auto. }
  exists best. split; [|split; [exact Hbest|split; [exact Hmax|exact Hb]]].
  unfold NpmRegistryService.getBestVersion. rewrite Hreg.
  rewrite ResolverFacts.ecosystem_unfold by assumption.
  fold current. fold candidates. rewrite Hs. cbn [find].
  assert (T : (NpmRegistryService.compareVersions best current >=? 0) = true).
  { rewrite Z.geb_leb. now apply Z.leb_le. }
  now rewrite T.
Qed.

(** The theorem above for a library with three versions, the newest of
    which asks for another framework major. *)
Lemma ecosystem_highest_candidate_witness :
  let noPeer := {| NpmRegistryService.peerDependencies := None |} in
  let peer c :=
    {| NpmRegistryService.peerDependencies := Some [("@angular/core", c)] |} in
  let info :=
    {| NpmRegistryService.name := "ngx-lib";
       NpmRegistryService.versions :=
         [("1.0.0", noPeer); ("2.0.0", peer "^17.0.0 || ^18.0.0");
          ("3.0.0", peer "^19.0.0")];
       NpmRegistryService.dist_tags_latest := Some "3.0.0";
       NpmRegistryService.time := [] |} in
  NpmRegistryService.isAngularCore "ngx-lib" = false
  /\ exists best,
       NpmRegistryService.getBestVersion (fun _ => Some info) "ngx-lib" "18" "^1.0.0"
       = Some best
       /\ 0 <= NpmRegistryService.compareVersions best "2.0.0".
Proof.
  intros noPeer peer info. split; [reflexivity|].
  assert (Hin : In "1.0.0"
                  (NpmRegistryService.findVersionsCompatibleWithAngular info "18"
                     (NpmRegistryService.isPreReleaseVersion
                        (NpmRegistryService.cleanVersion "^1.0.0")))) by now left.
  assert (Hge : 0 <= NpmRegistryService.compareVersions "1.0.0"
                       (NpmRegistryService.cleanVersion "^1.0.0"))
    by (vm_compute; discriminate).
  destruct (ecosystem_highest_candidate (fun _ => Some info) info "ngx-lib" "18" "^1.0.0"
              "1.0.0" eq_refl eq_refl Hin Hge) as (best & Hbest & _ & Hmax & _).
  exists best. split; [exact Hbest|]. apply Hmax. right. now left.
Defined.

(** X11 -- [getBestVersion] does not invent versions: what it returns is a
    version the registry lists, the registry's latest tag, the cleaned
    current version, or, for a framework-core package only, the target
    followed by [.0.0]. *)
Theorem getBestVersion_provenance (registry : NpmRegistryService.Registry)
    (packageName targetAngularVersion currentVersion best : string) :
  NpmRegistryService.getBestVersion registry packageName targetAngularVersion
    currentVersion = Some best ->
  In best (RegistryQueries.getAllVersions registry packageName)
  \/ RegistryQueries.getLatestVersion registry packageName = Some best
  \/ best = NpmRegistryService.cleanVersion currentVersion
  \/ (NpmRegistryService.isAngularCore packageName = true
      /\ best = (targetAngularVersion ++ ".0.0")%string).
Proof.
  unfold NpmRegistryService.getBestVersion, RegistryQueries.getAllVersions,
    RegistryQueries.getLatestVersion.
  destruct (registry packageName) as [info|]; [|discriminate].
  intros [= <-].
  destruct (NpmRegistryService.isAngularCore packageName) eqn:Hcore.
  - unfold NpmRegistryService.bestVersionOf. rewrite Hcore.
    unfold NpmRegistryService.findBestAngularVersion.
    match goal with
    | |- context [NpmRegistryService.sortVersionsDescending ?l] =>
        set (chosen := l);
        assert (Hsub : forall x, In x chosen -> In x (JS.keys (NpmRegistryService.versions info)))
    end.
    { intros x Hx. unfold chosen in Hx.
      destruct (negb _) in Hx.
      - destruct (filter (fun v => negb (NpmRegistryService.isPreReleaseVersion v)) _) eqn:E.
        + now apply filter_In in Hx.
        + rewrite <- E in Hx. apply filter_In in Hx as [Hx _]. now apply filter_In in Hx.
      - now apply filter_In in Hx. }
    destruct (NpmRegistryService.sortVersionsDescending chosen) as [|b r] eqn:Hs.
    + destruct (NpmRegistryService.numGt _ _); auto.
    + left. apply Hsub.
      now destruct (RegistrySort.sortVersionsDescending_head _ _ _ Hs).
  - rewrite ResolverFacts.ecosystem_unfold by assumption. cbv zeta.
    destruct (find _ _) as [v|] eqn:Hf.
    + left. apply find_some in Hf as [Hin _].
      apply (proj1 (RegistrySort.sortVersionsDescending_In _ _)) in Hin.
      now apply ResolverFacts.candidate_listed in Hin.
    + destruct (_ >=? 0); auto.
      destruct (ResolverFacts.fallback_cases info
                  (NpmRegistryService.cleanVersion currentVersion)) as [[H _]|[H _]]; auto.
      rewrite H. unfold NpmRegistryService.latestOr.
      destruct (NpmRegistryService.dist_tags_latest info) as [l|]; auto.
      destruct (JS.truthy l); auto.
Qed.

(** The theorem above for a library whose only listed version is older
    than the current one. *)
Lemma getBestVersion_provenance_witness :
  let noPeer := {| NpmRegistryService.peerDependencies := None |} in
  let info :=
    {| NpmRegistryService.name := "left-pad";
       NpmRegistryService.versions := [("1.0.0", noPeer)];
       NpmRegistryService.dist_tags_latest := Some "1.0.0";
       NpmRegistryService.time := [] |} in
  NpmRegistryService.getBestVersion (fun _ => Some info) "left-pad" "17" "^1.5.0"
  = Some "1.5.0"
  /\ (In "1.5.0" (RegistryQueries.getAllVersions (fun _ => Some info) "left-pad")
      \/ RegistryQueries.getLatestVersion (fun _ => Some info) "left-pad" = Some "1.5.0"
      \/ "1.5.0" = NpmRegistryService.cleanVersion "^1.5.0"
      \/ (NpmRegistryService.isAngularCore "left-pad" = true
          /\ "1.5.0" = ("17" ++ ".0.0")%string)).
Proof.
  intros noPeer info. split; [reflexivity|].
  exact (getBestVersion_provenance (fun _ => Some info) "left-pad" "17" "^1.5.0" "1.5.0"
           eq_refl).
Defined.

(** X12 -- Stability is preferred: for a package that is not framework-core
    whose current version is stable, as soon as the registry lists one
    stable version [getBestVersion] does not return a pre-release. *)
Theorem ecosystem_result_is_stable (registry : NpmRegistryService.Registry)
    (info : NpmRegistryService.NpmPackageInfo)
    (packageName targetAngularVersion currentVersion v best : string) :
  registry packageName = Some info ->
  NpmRegistryService.isAngularCore packageName = false ->
  NpmRegistryService.isPreReleaseVersion
    (NpmRegistryService.cleanVersion currentVersion) = false ->
  In v (JS.keys (NpmRegistryService.versions info)) ->
  NpmRegistryService.isPreReleaseVersion v = false ->
  NpmRegistryService.getBestVersion registry packageName targetAngularVersion
    currentVersion = Some best ->
  NpmRegistryService.isPreReleaseVersion best = false.
Proof.
  intros Hreg Hcore Hcur Hin Hv.
  unfold NpmRegistryService.getBestVersion. rewrite Hreg. intros [= <-].
  rewrite ResolverFacts.ecosystem_unfold by assumption. cbv zeta.
  destruct (find _ _) as [c|] eqn:Hf.
  - apply find_some in Hf as [Hc _].
    apply (proj1 (RegistrySort.sortVersionsDescending_In _ _)) in Hc.
    apply ResolverFacts.candidate_listed in Hc as (_ & Hst & _). now apply Hst.
  - destruct (_ >=? 0); [|exact Hcur].
    destruct (ResolverFacts.fallback_cases info
                (NpmRegistryService.cleanVersion currentVersion)) as [[_ H]|[_ H]]; auto.
    destruct (NpmRegistryService.isPreReleaseVersion
                (NpmRegistryService.fallbackVersion info
                   (NpmRegistryService.cleanVersion currentVersion))) eqn:E; auto.
    rewrite (H Hcur eq_refl v Hin) in Hv. discriminate.
Qed.

(** The theorem above for a package whose latest tag points to a beta. *)
Lemma ecosystem_result_is_stable_witness :
  let noPeer := {| NpmRegistryService.peerDependencies := None |} in
  let info :=
    {| NpmRegistryService.name := "left-pad";
       NpmRegistryService.versions := [("1.0.0", noPeer); ("2.0.0-beta.1", noPeer)];
       NpmRegistryService.dist_tags_latest := Some "2.0.0-beta.1";
       NpmRegistryService.time := [] |} in
  NpmRegistryService.getBestVersion (fun _ => Some info) "left-pad" "17" "^0.9.0"
  = Some "1.0.0"
  /\ NpmRegistryService.isPreReleaseVersion "1.0.0" = false.
Proof.
  intros noPeer info. split; [reflexivity|].
  assert (Hin : In "1.0.0" (JS.keys (NpmRegistryService.versions info))) by now left.
  exact (ecosystem_result_is_stable (fun _ => Some info) info "left-pad" "17" "^0.9.0"
           "1.0.0" "1.0.0" eq_refl eq_refl eq_refl Hin eq_refl eq_refl).
Defined.

(** X13 -- For a package that is not framework-core and that the registry
    knows, the entry built by [analyzeDependency] never recommends a
    version that the registry comparator orders below the entry's current
    version. *)
Theorem analyzer_ecosystem_no_downgrade (registry : NpmRegistryService.Registry)
    (info : NpmRegistryService.NpmPackageInfo)
    (name currentVersion targetAngularVersion : string) :
  registry name = Some info ->
  NpmRegistryService.isAngularCore name = false ->
  let entry :=
    DependencyAnalyzerService.analyzeDependency registry name currentVersion
      targetAngularVersion in
  0 <= NpmRegistryService.compareVersions
         (DependencyAnalyzerService.recommendedVersion entry)
         (DependencyAnalyzerService.currentVersion entry).
Proof.
  intros Hreg Hcore entry. unfold entry, DependencyAnalyzerService.analyzeDependency.
  cbn [DependencyAnalyzerService.recommendedVersion DependencyAnalyzerService.currentVersion].
  unfold NpmRegistryService.getBestVersion. rewrite Hreg.
  unfold DependencyAnalyzerService.orElse.
  destruct (JS.truthy _).
  - exact (EcosystemFacts.ecosystem_no_downgrade info name targetAngularVersion
             currentVersion Hcore).
  - pose proof (RegistryComparator.compareVersions_refl
                  (DependencyAnalyzerService.cleanVersion currentVersion)). lia.
Qed.

(** The theorem above for a library pinned above everything the registry
    lists. *)
Lemma analyzer_ecosystem_no_downgrade_witness :
  let noPeer := {| NpmRegistryService.peerDependencies := None |} in
  let info :=
    {| NpmRegistryService.name := "left-pad";
       NpmRegistryService.versions := [("1.0.0", noPeer)];
       NpmRegistryService.dist_tags_latest := Some "1.0.0";
       NpmRegistryService.time := [] |} in
  let entry :=
    DependencyAnalyzerService.analyzeDependency (fun _ => Some info)
      "left-pad" "^1.5.0" "17" in
  NpmRegistryService.isAngularCore "left-pad" = false
  /\ 0 <= NpmRegistryService.compareVersions
            (DependencyAnalyzerService.recommendedVersion entry)
            (DependencyAnalyzerService.currentVersion entry).
Proof.
  intros noPeer info entry. split; [reflexivity|].
  exact (analyzer_ecosystem_no_downgrade (fun _ => Some info) info "left-pad" "^1.5.0" "17"
           eq_refl eq_refl).
Defined.

(** X14 -- A target that [parseInt] cannot read satisfies no peer
    constraint, so every candidate then declares no peer dependency on the
    framework-core package, or an empty one. *)
Theorem unreadable_target_satisfies_nothing (info : NpmRegistryService.NpmPackageInfo)
    (targetAngularVersion : string) (allowPreRelease : bool) :
  JS.parseInt targetAngularVersion = None ->
  (forall constraint,
     NpmRegistryService.versionSatisfiesPeerDep (JS.parseInt targetAngularVersion)
       constraint = false)
  /\ forall v,
       In v (NpmRegistryService.findVersionsCompatibleWithAngular info
               targetAngularVersion allowPreRelease) ->
       exists data,
         In (v, data) (NpmRegistryService.versions info)
         /\ (EcosystemSpec.declaredPeer data = None
             \/ EcosystemSpec.declaredPeer data = Some EmptyString).
Proof.
  intro Hnan. rewrite Hnan.
  assert (F : forall constraint,
             NpmRegistryService.versionSatisfiesPeerDep None constraint = false).
  { intro c. apply ResolverFacts.anyPattern_NaN. }
  split; [exact F|].
  intros v Hv. apply ResolverFacts.candidate_listed in Hv as (_ & _ & data & Hin & Hadm).
  exists data. split; [exact Hin|].
  rewrite Hnan in Hadm. unfold EcosystemSpec.admitted in Hadm. cbn [snd] in Hadm.
  apply andb_prop in Hadm as [_ Hadm].
  destruct (EcosystemSpec.declaredPeer data) as [c|]; auto.
  rewrite F, orb_false_r in Hadm. apply String.eqb_eq in Hadm. subst. now right.
Qed.

(** The theorem above with the target [latest]. *)
Lemma unreadable_target_satisfies_nothing_witness :
  JS.parseInt "latest" = None
  /\ NpmRegistryService.versionSatisfiesPeerDep (JS.parseInt "latest") ">=2.0.0" = false.
Proof.
  split; [reflexivity|].
  exact (proj1 (unreadable_target_satisfies_nothing
                  {| NpmRegistryService.name := "x"; NpmRegistryService.versions := [];
                     NpmRegistryService.dist_tags_latest := None;
                     NpmRegistryService.time := [] |} "latest" false eq_refl) ">=2.0.0").
Defined.

(** X15 -- A peer constraint without any digit, such as [*] or [latest], is
    satisfied by no target. *)
Theorem digitless_constraint_never_satisfied (targetMajor : option Z)
    (peerDepConstraint : string) :
  JS.allChars (fun c => negb (JS.isDigit c)) peerDepConstraint = true ->
  NpmRegistryService.versionSatisfiesPeerDep targetMajor peerDepConstraint = false.
Proof.
  intro H. unfold NpmRegistryService.versionSatisfiesPeerDep.
  apply ResolverFacts.anyPattern_no_digits.
  apply Forall_forall. intros p Hp. apply in_map_iff in Hp as (piece & <- & Hpiece).
  apply ResolverFacts.matchDigits_none. unfold JS.trim.
  apply ResolverFacts.trimEnd_chars, ResolverFacts.trimStart_chars.
  pose proof (ResolverFacts.splitFrom_chars _ "||" O peerDepConstraint H) as F.
  rewrite Forall_forall in F. now apply F.
Qed.

(** The theorem above with the constraint [*] and the target 17. *)
Lemma digitless_constraint_never_satisfied_witness :
  JS.allChars (fun c => negb (JS.isDigit c)) "*" = true
  /\ NpmRegistryService.versionSatisfiesPeerDep (Some 17) "*" = false.
Proof.
  split; [reflexivity|].
  exact (digitless_constraint_never_satisfied (Some 17) "*" eq_refl).
Defined.

(** X16 -- The queries of NpmRegistryService agree on what an unknown
    package is: [getBestVersion] returns null exactly when [packageExists]
    is false, and then [getAllVersions] is empty and [getLatestVersion] is
    null; a latest version that is reported is never the empty string. *)
Theorem registry_queries_agree (registry : NpmRegistryService.Registry)
    (packageName targetAngularVersion currentVersion : string) :
  (RegistryQueries.packageExists registry packageName = false
   <-> NpmRegistryService.getBestVersion registry packageName targetAngularVersion
         currentVersion = None)
  /\ (RegistryQueries.packageExists registry packageName = false ->
      RegistryQueries.getAllVersions registry packageName = []
      /\ RegistryQueries.getLatestVersion registry packageName = None)
  /\ (forall latest,
        RegistryQueries.getLatestVersion registry packageName = Some latest ->
        latest <> EmptyString
        /\ RegistryQueries.packageExists registry packageName = true).
Proof.
  unfold RegistryQueries.packageExists, RegistryQueries.getAllVersions,
    RegistryQueries.getLatestVersion, NpmRegistryService.getBestVersion.
  destruct (registry packageName) as [info|].
  - split; [split; discriminate|]. split; [discriminate|].
    intros latest H. destruct (NpmRegistryService.dist_tags_latest info) as [l|];
      [|discriminate].
    unfold JS.truthy in H. destruct (String.eqb_spec l ""); simpl in H; [discriminate|].
    injection H as <-. now split.
  - split; [split; reflexivity|]. split; [now split|]. discriminate.
Qed.

(** X17 -- The analysis has one entry per distinct dependency name: the
    names of [dependencies] in their order, then the names that only
    [devDependencies] has, in their order. *)
Theorem analysis_order (registry : NpmRegistryService.Registry)
    (packageJson : DependencyAnalyzerService.PackageJson)
    (targetAngularVersion : string) :
  let deps :=
    DependencyAnalyzerService.spread
      (DependencyAnalyzerService.groupOf "dependencies" packageJson) in
  let devDeps :=
    DependencyAnalyzerService.spread
      (DependencyAnalyzerService.groupOf "devDependencies" packageJson) in
  NoDup (JS.keys deps) -> NoDup (JS.keys devDeps) ->
  map DependencyAnalyzerService.name
    (DependencyAnalyzerService.analysis
       (DependencyAnalyzerService.analyze registry packageJson targetAngularVersion))
  = JS.keys deps ++ filter (JSText.absent (JS.keys deps)) (JS.keys devDeps).
Proof.
  intros deps devDeps H1 H2.
  rewrite BatchFacts.analysis_names. now apply BatchFacts.allDeps_keys.
Qed.

(** The theorem above for a manifest whose two groups share [b]. *)
Lemma analysis_order_witness :
  let packageJson : DependencyAnalyzerService.PackageJson :=
    [("dependencies", DependencyAnalyzerService.Group [("b", "^1.0.0"); ("c", "2.0.0")]);
     ("devDependencies",
       DependencyAnalyzerService.Group [("a", "1.0.0"); ("b", "^1.0.0")])] in
  map DependencyAnalyzerService.name
    (DependencyAnalyzerService.analysis
       (DependencyAnalyzerService.analyze (fun _ => None) packageJson "17"))
  = ["b"; "c"; "a"].
Proof.
  intro packageJson.
  assert (H1 : NoDup (JS.keys (DependencyAnalyzerService.spread
                 (DependencyAnalyzerService.groupOf "dependencies" packageJson)))).
  { repeat constructor; simpl; intuition discriminate. }
  assert (H2 : NoDup (JS.keys (DependencyAnalyzerService.spread
                 (DependencyAnalyzerService.groupOf "devDependencies" packageJson)))).
  { repeat constructor; simpl; intuition discriminate. }
  exact (analysis_order (fun _ => None) packageJson "17" H1 H2).
Defined.

(** X18 -- The rewritten [dependencies] keeps the original order: when some
    entry of [dependencies] has a non-empty constraint, the updated group
    lists exactly the names with a non-empty constraint, in the order of
    the input. *)
Theorem dependencies_order_kept (registry : NpmRegistryService.Registry)
    (packageJson : DependencyAnalyzerService.PackageJson)
    (targetAngularVersion : string) (deps : DependencyAnalyzerService.Dependencies)
    (name constraint : string) :
  DependencyAnalyzerService.groupOf "dependencies" packageJson = Some deps ->
  NoDup (JS.keys deps) ->
  In (name, constraint) deps -> constraint <> EmptyString ->
  exists deps',
    DependencyAnalyzerService.groupOf "dependencies"
      (DependencyAnalyzerService.updated
         (DependencyAnalyzerService.analyze registry packageJson targetAngularVersion))
    = Some deps'
    /\ JS.keys deps' = JS.keys (filter (fun kv => JS.truthy (snd kv)) deps).
Proof.
  intros Hg Hnd Hin Hne.
  set (result := DependencyAnalyzerService.analyze registry packageJson targetAngularVersion).
  set (analyses := DependencyAnalyzerService.analysis result).
  destruct (BatchFacts.allDeps_extends packageJson deps Hg Hnd) as (added & Hkeys & Hadd).
  assert (Hnames : map DependencyAnalyzerService.name analyses
                   = JS.keys deps ++ added).
  { unfold analyses, result. now rewrite BatchFacts.analysis_names. }
  assert (HK : JS.keys (DependencyAnalyzerService.rewriteGroup (Some deps) analyses)
               = JS.keys (filter (fun kv => JS.truthy (snd kv)) deps)).
  { rewrite ManifestFacts.rewriteGroup_fold, ManifestFacts.fold_step_keys.
    - simpl. rewrite Hnames, filter_app, (BatchFacts.undeclared_filter deps added Hadd).
      rewrite app_nil_r. now apply BatchFacts.declared_keys.
    - simpl. rewrite Hnames, <- Hkeys. apply ManifestFacts.NoDup_allDeps. }
  assert (Hin' : In name (JS.keys (filter (fun kv => JS.truthy (snd kv)) deps))).
  { unfold JS.keys. apply in_map_iff. exists (name, constraint). split; auto.
    apply filter_In. split; auto. simpl. unfold JS.truthy.
    now destruct (String.eqb_spec constraint ""). }
  assert (Hres : result = DependencyAnalyzerService.buildResult packageJson analyses).
  { unfold analyses, result. rewrite AnalyzerFacts.analysis_analyze.
    unfold DependencyAnalyzerService.analyze.
    destruct (JS.keys (DependencyAnalyzerService.allDepsOf packageJson)) eqn:E;
      [|reflexivity].
    exfalso. symmetry in Hkeys. apply app_eq_nil in Hkeys as [Hk _].
    unfold JS.keys in Hk. apply map_eq_nil in Hk. subst deps. destruct Hin. }
  exists (DependencyAnalyzerService.rewriteGroup (Some deps) analyses).
  split; [|exact HK].
  rewrite Hres. apply ManifestFacts.updated_group; auto; [now left|].
  intro E. rewrite E in HK. rewrite <- HK in Hin'. destruct Hin'.
Qed.

(** The theorem above for a manifest whose [devDependencies] repeats a name
    of [dependencies]. *)
Lemma dependencies_order_kept_witness :
  let deps : DependencyAnalyzerService.Dependencies :=
    [("rxjs", "~7.5.0"); ("zone.js", "~0.13.0")] in
  let packageJson : DependencyAnalyzerService.PackageJson :=
    [("dependencies", DependencyAnalyzerService.Group deps);
     ("devDependencies",
       DependencyAnalyzerService.Group [("zone.js", "~0.13.0"); ("karma", "6.4.0")])] in
  exists deps',
    DependencyAnalyzerService.groupOf "dependencies"
      (DependencyAnalyzerService.updated
         (DependencyAnalyzerService.analyze (fun _ => None) packageJson "17"))
    = Some deps'
    /\ JS.keys deps' = ["rxjs"; "zone.js"].
Proof.
  intros deps packageJson.
  assert (Hnd : NoDup (JS.keys deps)).
  { repeat constructor; simpl; intuition discriminate. }
  assert (Hin : In ("rxjs", "~7.5.0") deps) by now left.
  assert (Hne : "~7.5.0" <> EmptyString) by discriminate.
  exact (dependencies_order_kept (fun _ => None) packageJson "17" deps "rxjs" "~7.5.0"
           eq_refl Hnd Hin Hne).
Defined.

(** X19 -- A manifest without any dependency is returned untouched: the
    analysis is empty exactly when both groups are absent or empty, and
    then the updated manifest is the input and the summary counts
    nothing. *)
Theorem empty_analysis_leaves_manifest (registry : NpmRegistryService.Registry)
    (packageJson : DependencyAnalyzerService.PackageJson)
    (targetAngularVersion : string) :
  let result :=
    DependencyAnalyzerService.analyze registry packageJson targetAngularVersion in
  (DependencyAnalyzerService.analysis result = []
   <-> DependencyAnalyzerService.spread
         (DependencyAnalyzerService.groupOf "dependencies" packageJson) = []
       /\ DependencyAnalyzerService.spread
            (DependencyAnalyzerService.groupOf "devDependencies" packageJson) = [])
  /\ (DependencyAnalyzerService.analysis result = [] ->
      DependencyAnalyzerService.updated result = packageJson
      /\ DependencyAnalyzerService.total (DependencyAnalyzerService.summary result) = O).
Proof.
  intro result.
  assert (N : DependencyAnalyzerService.analysis result = []
              <-> JS.keys (DependencyAnalyzerService.allDepsOf packageJson) = []).
  { unfold result. rewrite AnalyzerFacts.analysis_analyze. split.
    - apply map_eq_nil.
    - now intros ->. }
  split.
  - rewrite N. unfold DependencyAnalyzerService.allDepsOf.
    set (deps := DependencyAnalyzerService.spread _).
    set (devDeps := DependencyAnalyzerService.spread _).
    split.
    + intro E.
      assert (A : forall k, ~ In k (JS.keys deps) /\ ~ In k (JS.keys devDeps)).
      { intro k. split; intro Hk.
        - assert (X : In k (JS.keys (JS.assign (JS.assign [] deps) devDeps))).
          { rewrite !ObjectFacts.In_keys_assign. auto. }
          rewrite E in X. destruct X.
        - assert (X : In k (JS.keys (JS.assign (JS.assign [] deps) devDeps))).
          { rewrite !ObjectFacts.In_keys_assign. auto. }
          rewrite E in X. destruct X. }
      split.
      * destruct deps as [|[k v] r]; auto. destruct (A k) as [H _]. exfalso. apply H. now left.
      * destruct devDeps as [|[k v] r]; auto. destruct (A k) as [_ H]. exfalso. apply H. now left.
    + intros [-> ->]. reflexivity.
  - intro E. apply N in E. unfold result, DependencyAnalyzerService.analyze.
    rewrite E. now split.
Qed.

(** X20 -- The summary of an analysis is consistent with its entries: the
    total is their number, the three risk counts add up to it, none is
    rated high, and the number of updates is the number of entries flagged
    [needsUpdate], at most the total. *)
Theorem summary_consistent (registry : NpmRegistryService.Registry)
    (packageJson : DependencyAnalyzerService.PackageJson)
    (targetAngularVersion : string) :
  let result :=
    DependencyAnalyzerService.analyze registry packageJson targetAngularVersion in
  let summary := DependencyAnalyzerService.summary result in
  let entries := DependencyAnalyzerService.analysis result in
  DependencyAnalyzerService.total summary = List.length entries
  /\ (DependencyAnalyzerService.lowRisk summary
      + DependencyAnalyzerService.mediumRisk summary
      + DependencyAnalyzerService.highRisk summary
      = DependencyAnalyzerService.total summary)%nat
  /\ DependencyAnalyzerService.highRisk summary = O
  /\ DependencyAnalyzerService.needsUpdateCount summary
     = List.length (filter DependencyAnalyzerService.needsUpdate entries)
  /\ (DependencyAnalyzerService.needsUpdateCount summary
      <= DependencyAnalyzerService.total summary)%nat.
Proof.
  intros result summary entries.
  assert (Hhigh : forall e, In e entries ->
                    DependencyAnalyzerService.Risk_eqb
                      (DependencyAnalyzerService.risk e) DependencyAnalyzerService.high
                    = false).
  { unfold entries, result. rewrite AnalyzerFacts.analysis_analyze.
    intros e He. apply in_map_iff in He as (n & <- & _).
    unfold DependencyAnalyzerService.analyzeDependency.
    cbn [DependencyAnalyzerService.risk].
    now destruct (DependencyAnalyzerService.isAngularEcosystemPackage n). }
  unfold summary, entries, result, DependencyAnalyzerService.analyze in *.
  destruct (JS.keys (DependencyAnalyzerService.allDepsOf packageJson)) as [|n ns].
  - repeat split; auto.
  - cbn [DependencyAnalyzerService.buildResult DependencyAnalyzerService.summary
         DependencyAnalyzerService.analysis DependencyAnalyzerService.total
         DependencyAnalyzerService.lowRisk DependencyAnalyzerService.mediumRisk
         DependencyAnalyzerService.highRisk DependencyAnalyzerService.needsUpdateCount] in *.
    split; [reflexivity|]. split; [apply BatchFacts.count_risk|].
    split; [now apply BatchFacts.count_none|]. split; [reflexivity|].
    apply BatchFacts.count_le.
Qed.

(** X21 -- Invariants of an analysis entry: it carries the name it was
    asked for, its current version holds no range operator, its latest
    version is its recommended version, it is never rated high, and it is
    flagged [needsUpdate] only when the recommended version differs from
    the current one. *)
Theorem entry_invariants (registry : NpmRegistryService.Registry)
    (name currentVersion targetAngularVersion : string) :
  let entry :=
    DependencyAnalyzerService.analyzeDependency registry name currentVersion
      targetAngularVersion in
  DependencyAnalyzerService.name entry = name
  /\ JS.allChars (fun c => negb (NpmRegistryService.rangeOperator c))
       (DependencyAnalyzerService.currentVersion entry) = true
  /\ DependencyAnalyzerService.latestVersion entry
     = DependencyAnalyzerService.recommendedVersion entry
  /\ DependencyAnalyzerService.risk entry <> DependencyAnalyzerService.high
  /\ (DependencyAnalyzerService.needsUpdate entry = true ->
      DependencyAnalyzerService.recommendedVersion entry
      <> DependencyAnalyzerService.currentVersion entry).
Proof.
  intro entry. unfold entry, DependencyAnalyzerService.analyzeDependency.
  cbn [DependencyAnalyzerService.name DependencyAnalyzerService.currentVersion
       DependencyAnalyzerService.latestVersion DependencyAnalyzerService.recommendedVersion
       DependencyAnalyzerService.risk DependencyAnalyzerService.needsUpdate].
  split; [reflexivity|]. split; [apply TextFacts.removeAll_clean|].
  split; [reflexivity|]. split.
  - destruct (DependencyAnalyzerService.isAngularEcosystemPackage name); discriminate.
  - intros Hlt Heq. rewrite Heq in Hlt.
    rewrite AnalyzerComparator.number_compareVersions_refl in Hlt. discriminate.
Qed.

(** X22 -- The lists the component shows partition the analysis: every
    entry is in exactly one of the three risk lists and in exactly one of
    the two update lists; without a result all lists are empty; and for the
    result of [analyze] the list of packages to update has the size the
    summary reports and the high-risk list is empty. *)
Theorem package_lists_partition (result : DependencyAnalyzerService.AnalysisResult) :
  Permutation
    (App.getPackagesByRisk (Some result) DependencyAnalyzerService.low
     ++ App.getPackagesByRisk (Some result) DependencyAnalyzerService.medium
     ++ App.getPackagesByRisk (Some result) DependencyAnalyzerService.high)
    (DependencyAnalyzerService.analysis result)
  /\ Permutation
       (App.getPackagesByUpdateStatus (Some result) true
        ++ App.getPackagesByUpdateStatus (Some result) false)
       (DependencyAnalyzerService.analysis result)
  /\ (forall r, App.getPackagesByRisk None r = [])
  /\ (forall status, App.getPackagesByUpdateStatus None status = [])
  /\ forall registry packageJson targetAngularVersion,
       let analyzed :=
         DependencyAnalyzerService.analyze registry packageJson targetAngularVersion in
       List.length (App.getPackagesByUpdateStatus (Some analyzed) true)
       = DependencyAnalyzerService.needsUpdateCount
           (DependencyAnalyzerService.summary analyzed)
       /\ App.getPackagesByRisk (Some analyzed) DependencyAnalyzerService.high = [].
Proof.
  split; [|split; [|split; [reflexivity|split; [reflexivity|]]]].
  - unfold App.getPackagesByRisk.
    induction (DependencyAnalyzerService.analysis result) as [|e r IH]; [constructor|].
    cbn [filter].
    destruct (DependencyAnalyzerService.risk e);
      cbn [DependencyAnalyzerService.Risk_eqb app].
    + now constructor.
    + rewrite <- Permutation_middle. now constructor.
    + rewrite app_assoc, <- Permutation_middle, <- app_assoc. now constructor.
  - unfold App.getPackagesByUpdateStatus.
    induction (DependencyAnalyzerService.analysis result) as [|e r IH]; [constructor|].
    cbn [filter]. destruct (DependencyAnalyzerService.needsUpdate e); cbn [Bool.eqb app].
    + now constructor.
    + rewrite <- Permutation_middle. now constructor.
  - intros registry packageJson targetAngularVersion analyzed.
    assert (F : forall l : list DependencyAnalyzerService.DependencyAnalysis,
               filter (fun pkg => Bool.eqb (DependencyAnalyzerService.needsUpdate pkg) true) l
               = filter DependencyAnalyzerService.needsUpdate l).
    { intro l. apply filter_ext. intro a.
      now destruct (DependencyAnalyzerService.needsUpdate a). }
    split.
    + unfold App.getPackagesByUpdateStatus. rewrite F.
      unfold analyzed, DependencyAnalyzerService.analyze.
      destruct (JS.keys (DependencyAnalyzerService.allDepsOf packageJson)); reflexivity.
    + unfold App.getPackagesByRisk, analyzed.
      rewrite AnalyzerFacts.analysis_analyze.
      induction (JS.keys (DependencyAnalyzerService.allDepsOf packageJson)) as [|n ns IH];
        [reflexivity|].
      cbn [map filter]. rewrite IH.
      unfold DependencyAnalyzerService.analyzeDependency.
      cbn [DependencyAnalyzerService.risk].
      now destruct (DependencyAnalyzerService.isAngularEcosystemPackage n).
Qed.

(** X23 -- The line count of the input is one more than its number of line
    feeds, so it is never 0, and the line count of two texts joined by a
    line feed is the sum of their line counts. *)
Theorem inputLineCount_spec (a b : string) :
  App.inputLineCount a = S (JSText.occurrences (ascii_of_nat 10) a)
  /\ App.inputLineCount EmptyString = 1%nat
  /\ App.inputLineCount (a ++ JSText.lineFeed ++ b)
     = (App.inputLineCount a + App.inputLineCount b)%nat.
Proof.
  unfold App.inputLineCount. rewrite AppFacts.lineFeed_sep.
  split; [apply SplitFacts.split_length|]. split; [reflexivity|].
  rewrite SplitFacts.split_app. apply length_app.
Qed.

(** X24 -- The indentation that [getAnnotatedJson] applies to a multi-line
    value puts two spaces after every line feed and changes nothing else;
    it keeps the number of lines and leaves a single-line value as it
    is. *)
Theorem indentedValue_spec (jsonValue : string) :
  App.indentedValue jsonValue = JSText.indentAfterLineFeeds jsonValue
  /\ App.inputLineCount (App.indentedValue jsonValue) = App.inputLineCount jsonValue
  /\ (JSText.free (ascii_of_nat 10) jsonValue = true ->
      App.indentedValue jsonValue = jsonValue).
Proof.
  split; [apply AppFacts.indentedValue_inserts|]. split.
  - rewrite AppFacts.indentedValue_inserts. unfold App.inputLineCount.
    rewrite AppFacts.lineFeed_sep, !SplitFacts.split_length.
    now rewrite AppFacts.occurrences_indent.
  - intro H. unfold App.indentedValue. rewrite AppFacts.lineFeed_sep.
    now rewrite (SplitFacts.split_free _ _ H).
Qed.

(** X25 -- The component reads no framework version from a manifest that
    does not declare [@angular/core], or declares it with a constraint that
    has no dot (such as [18] or [latest]); [onAnalyze] then never refuses to
    analyze, whatever the selected target. *)
Theorem no_version_read_without_dot
    (packageJson : DependencyAnalyzerService.PackageJson) :
  (JS.getProp "@angular/core" (DependencyAnalyzerService.allDepsOf packageJson) = None
   \/ exists constraint,
        JS.getProp "@angular/core" (DependencyAnalyzerService.allDepsOf packageJson)
        = Some constraint
        /\ JSText.free "."%char constraint = true) ->
  App.getCurrentAngularVersion packageJson = None
  /\ forall selectedVersion, App.newerThanTarget packageJson selectedVersion = false.
Proof.
  intro H. unfold App.newerThanTarget, App.getCurrentAngularVersion.
  destruct H as [H|(c & H & Hfree)]; rewrite H; [now split|].
  rewrite (AppFacts.matchDigitsDot_free c Hfree).
  destruct (negb (JS.truthy c)); now split.
Qed.

(** The theorem above for a project that pins [@angular/core] to [18] and
    selects the target 17. *)
Lemma no_version_read_without_dot_witness :
  let packageJson : DependencyAnalyzerService.PackageJson :=
    [("dependencies", DependencyAnalyzerService.Group [("@angular/core", "18")])] in
  App.newerThanTarget packageJson "17" = false.
Proof.
  intro packageJson.
  assert (H : JS.getProp "@angular/core" (DependencyAnalyzerService.allDepsOf packageJson)
              = None
              \/ exists constraint,
                   JS.getProp "@angular/core"
                     (DependencyAnalyzerService.allDepsOf packageJson) = Some constraint
                   /\ JSText.free "."%char constraint = true).
  { right. exists "18". split; reflexivity. }
  exact (proj2 (no_version_read_without_dot packageJson H) "17").
Defined.

(** X26 -- For a constraint of the usual form, range operators followed by
    a run of digits and a dot, the component reads the value of that run as
    the framework major, and the resolver reads the same major from the
    cleaned constraint. *)
Theorem usual_constraint_major (packageJson : DependencyAnalyzerService.PackageJson)
    (operators run rest : string) :
  JS.getProp "@angular/core" (DependencyAnalyzerService.allDepsOf packageJson)
  = Some (operators ++ run ++ "." ++ rest)%string ->
  JS.allChars NpmRegistryService.rangeOperator operators = true ->
  run <> EmptyString ->
  JS.allChars JS.isDigit run = true ->
  App.getCurrentAngularVersion packageJson = Some (JS.decimalValue run)
  /\ NpmRegistryService.majorOf
       (NpmRegistryService.cleanVersion (operators ++ run ++ "." ++ rest))
     = Some (JS.decimalValue run).
Proof.
  intros Hget Hops Hne Hrun. split.
  - unfold App.getCurrentAngularVersion. rewrite Hget.
    assert (T : JS.truthy (operators ++ run ++ "." ++ rest) = true).
    { unfold JS.truthy. destruct operators; [destruct run; [congruence|]|]; reflexivity. }
    rewrite T. cbn [negb].
    rewrite AppFacts.matchDigitsDot_usual; auto.
    + now apply JSFacts.parseInt_digits.
    + clear - Hops. induction operators as [|c r IH]; [reflexivity|].
      cbn [JS.allChars] in *. apply andb_prop in Hops as [Hc Hr].
      apply andb_true_intro. split; [|now apply IH].
      destruct c as [[] [] [] [] [] [] [] []]; try discriminate Hc; reflexivity.
  - unfold NpmRegistryService.majorOf, NpmRegistryService.cleanVersion.
    rewrite !TextFacts.removeAll_app.
    assert (E1 : JS.removeAll NpmRegistryService.rangeOperator operators = EmptyString).
    { clear - Hops. induction operators as [|c r IH]; [reflexivity|].
      cbn [JS.allChars JS.removeAll] in *. apply andb_prop in Hops as [Hc Hr].
      rewrite Hc. now apply IH. }
    assert (E2 : JS.removeAll NpmRegistryService.rangeOperator run = run).
    { apply TextFacts.removeAll_id. clear - Hrun.
      induction run as [|c r IH]; [reflexivity|].
      cbn [JS.allChars] in *. apply andb_prop in Hrun as [Hc Hr].
      apply andb_true_intro. split; [|now apply IH].
      destruct c as [[] [] [] [] [] [] [] []]; try discriminate Hc; reflexivity. }
    rewrite E1, E2. cbn [String.append JS.removeAll].
    change (JS.removeAll NpmRegistryService.rangeOperator ".") with ".".
    rewrite VersionFacts.firstComponent_app.
    rewrite VersionFacts.firstComponent_free by now apply FrameworkFacts.digits_dot_free.
    now apply JSFacts.parseInt_digits.
Qed.

(** The theorem above for [@angular/core] declared as [^19.1.3]. *)
Lemma usual_constraint_major_witness :
  let packageJson : DependencyAnalyzerService.PackageJson :=
    [("dependencies", DependencyAnalyzerService.Group [("@angular/core", "^19.1.3")])] in
  App.getCurrentAngularVersion packageJson = Some 19
  /\ NpmRegistryService.majorOf (NpmRegistryService.cleanVersion "^19.1.3") = Some 19.
Proof.
  intro packageJson.
  assert (Hne : "19" <> EmptyString) by discriminate.
  exact (usual_constraint_major packageJson "^" "19" "1.3" eq_refl eq_refl Hne eq_refl).
Defined.

(** X27 -- On versions whose components are runs of digits the two
    comparators agree, so an entry whose current and recommended versions
    are such is flagged [needsUpdate] exactly when the comparator of the
    resolver puts the recommended version above the current one. *)
Theorem numeric_versions_flagged_consistently (registry : NpmRegistryService.Registry)
    (name currentVersion targetAngularVersion : string) :
  let entry :=
    DependencyAnalyzerService.analyzeDependency registry name currentVersion
      targetAngularVersion in
  NumericVersions.numeric (DependencyAnalyzerService.currentVersion entry) ->
  NumericVersions.numeric (DependencyAnalyzerService.recommendedVersion entry) ->
  DependencyAnalyzerService.compareVersions
    (DependencyAnalyzerService.currentVersion entry)
    (DependencyAnalyzerService.recommendedVersion entry)
  = NpmRegistryService.compareVersions
      (DependencyAnalyzerService.currentVersion entry)
      (DependencyAnalyzerService.recommendedVersion entry)
  /\ (DependencyAnalyzerService.needsUpdate entry = true
      <-> NpmRegistryService.compareVersions
            (DependencyAnalyzerService.recommendedVersion entry)
            (DependencyAnalyzerService.currentVersion entry) = 1).
Proof.
  intros entry Hcur Hrec.
  pose proof (NumericFacts.comparators_agree_on_numeric _ _ Hcur Hrec) as E.
  split; [exact E|].
  assert (N : DependencyAnalyzerService.needsUpdate entry
              = (DependencyAnalyzerService.compareVersions
                   (DependencyAnalyzerService.currentVersion entry)
                   (DependencyAnalyzerService.recommendedVersion entry) <? 0))
    by reflexivity.
  rewrite N, E, Z.ltb_lt.
  rewrite (RegistryComparator.compareVersions_antisym
             (DependencyAnalyzerService.recommendedVersion entry)).
  pose proof (RegistryComparator.compareVersions_range
                (DependencyAnalyzerService.currentVersion entry)
                (DependencyAnalyzerService.recommendedVersion entry)). lia.
Qed.

(** The theorem above for [rxjs] at [~7.5.0] with 7.8.1 published. *)
Lemma numeric_versions_flagged_consistently_witness :
  let noPeer := {| NpmRegistryService.peerDependencies := None |} in
  let registry : NpmRegistryService.Registry := fun packageName =>
    Some {| NpmRegistryService.name := packageName;
            NpmRegistryService.versions := [("7.5.0", noPeer); ("7.8.1", noPeer)];
            NpmRegistryService.dist_tags_latest := Some "7.8.1";
            NpmRegistryService.time := [] |} in
  let entry := DependencyAnalyzerService.analyzeDependency registry "rxjs" "~7.5.0" "17" in
  DependencyAnalyzerService.needsUpdate entry = true
  <-> NpmRegistryService.compareVersions
        (DependencyAnalyzerService.recommendedVersion entry)
        (DependencyAnalyzerService.currentVersion entry) = 1.
Proof.
  intros noPeer registry entry.
  assert (Hcur : NumericVersions.numeric (DependencyAnalyzerService.currentVersion entry))
    by (repeat constructor).
  assert (Hrec : NumericVersions.numeric (DependencyAnalyzerService.recommendedVersion entry))
    by (repeat constructor).
  exact (proj2 (numeric_versions_flagged_consistently registry "rxjs" "~7.5.0" "17"
                  Hcur Hrec)).
Defined.

(** X28 -- The UI-toolkit packages, whose names start with
    [@angular/material] or [@angular/cdk], are never resolved as
    framework-core packages: the resolver routes them to the
    peer-dependency branch and the analyzer rates them medium and does not
    mark them as Angular packages. *)
Theorem ui_toolkit_is_ecosystem (registry : NpmRegistryService.Registry)
    (rest currentVersion targetAngularVersion : string) :
  forall name,
    name = ("@angular/material" ++ rest)%string
    \/ name = ("@angular/cdk" ++ rest)%string ->
    let entry :=
      DependencyAnalyzerService.analyzeDependency registry name currentVersion
        targetAngularVersion in
    NpmRegistryService.isAngularCore name = false
    /\ DependencyAnalyzerService.isAngularPackageFlag entry = false
    /\ DependencyAnalyzerService.risk entry = DependencyAnalyzerService.medium.
Proof.
  intros name Hname entry.
  assert (M : JS.includes "material" name = true \/ JS.includes "cdk" name = true).
  { destruct Hname as [-> | ->]; [left|right].
    - change ("@angular/material" ++ rest)%string
        with ("@angular/" ++ ("material" ++ rest))%string.
      apply TextFacts.includes_app_l.
      apply (TextFacts.includes_app_r "material" "material" rest). reflexivity.
    - change ("@angular/cdk" ++ rest)%string with ("@angular/" ++ ("cdk" ++ rest))%string.
      apply TextFacts.includes_app_l.
      apply (TextFacts.includes_app_r "cdk" "cdk" rest). reflexivity. }
  assert (E : DependencyAnalyzerService.isAngularEcosystemPackage name = true).
  { unfold DependencyAnalyzerService.isAngularEcosystemPackage.
    destruct Hname as [-> | ->].
    - assert (X : JS.includes "@angular/material" ("@angular/material" ++ rest) = true)
        by (apply (TextFacts.includes_app_r "@angular/material" "@angular/material" rest);
            reflexivity).
      rewrite X. now rewrite !orb_true_r.
    - assert (X : JS.includes "@angular/cdk" ("@angular/cdk" ++ rest) = true)
        by (apply (TextFacts.includes_app_r "@angular/cdk" "@angular/cdk" rest);
            reflexivity).
      rewrite X. now rewrite !orb_true_r. }
  assert (C : NpmRegistryService.isAngularCore name = false).
  { unfold NpmRegistryService.isAngularCore.
    destruct M as [M|M]; rewrite M; cbn [negb]; now rewrite ?andb_false_r. }
  split; [exact C|]. split.
  - exact C.
  - unfold entry, DependencyAnalyzerService.analyzeDependency.
    cbn [DependencyAnalyzerService.risk]. now rewrite E.
Qed.

(** The theorem above for [@angular/material]. *)
Lemma ui_toolkit_is_ecosystem_witness :
  NpmRegistryService.isAngularCore "@angular/material" = false
  /\ DependencyAnalyzerService.risk
       (DependencyAnalyzerService.analyzeDependency (fun _ => None)
          "@angular/material" "^17.0.0" "18")
     = DependencyAnalyzerService.medium.
Proof.
  destruct (ui_toolkit_is_ecosystem (fun _ => None) "" "^17.0.0" "18" "@angular/material"
              (or_introl eq_refl)) as (H1 & _ & H3).
  split; [exact H1|exact H3].
Defined.
